(** * micropython-stubber: the stub walker and the module lifecycle

    A shallow embedding of [createstubs.py] (the full variant, version 1.0.1)
    and [createstubs_min.py] (the constrained variant, version 1.2.0).

    The live interpreter is a parameter: objects are opaque references and
    [dir], [getattr], [repr] and [type] are functions of a [Runtime] record,
    so that cyclic object graphs, attributes that raise and any enumeration
    order are all covered.  Calls that only talk to the logger, to [print] or
    to the watchdog ([resetWDT], [sleep_us]) change nothing the definitions
    below observe and are left out.

    The device is a parameter as well: a [Firmware] record says what
    [__import__] answers for a name, what [gc.mem_free()] reads at each
    query, which file-system calls fail and what [os.uname()] holds.  The
    interpreter state a method runs in is the [Stubber] object together with
    a [World]: the module cache [sys.modules], the folders, the files with
    the strings written to them, and the number of heap readings taken.
    [gc.collect()] has no effect on that state (the heap readings are an
    arbitrary stream) and is left out; an import enters the one module it
    names into the cache.

    The claims of the specification are proved first, on the walker, the
    stub of one module and the two loops over the catalog.  The second part
    covers the rest of the two files: [ensure_folder], [firmware_ID],
    [get_root], [clean], and the construction, the report and [main] of the
    constrained variant, for which a [Host] record adds what the device
    answers to [os.getcwd], [os.listdir], [os.remove] and [ujson.dumps].
    [__init__] and [report] of the full variant are not modelled: there
    [self._report] starts with two entries that are not module entries. *)

From Stdlib Require Import Ascii String ZArith.
From stdpp Require Import base option list sorting gmap strings.

Local Open Scope string_scope.

(** ** Python string operations used by the program *)

Module PyStr.

Definition nl : string := String "010"%char EmptyString.
Definition dquote : string := String "034"%char EmptyString.

(** [s.startswith(pre)] *)
Definition startswith (pre s : string) : bool := String.prefix pre s.

(** [c in s] for a one-character string [c] *)
Fixpoint has_char (c : ascii) (s : string) : bool :=
  match s with
  | EmptyString => false
  | String d s' => if Ascii.eqb c d then true else has_char c s'
  end.

(** [sub in s] *)
Fixpoint contains (sub s : string) : bool :=
  if String.prefix sub s then true
  else match s with
       | EmptyString => false
       | String _ s' => contains sub s'
       end.

(** [s.replace(old, new)] for one-character [old] and [new] *)
Fixpoint replace (old new : ascii) (s : string) : string :=
  match s with
  | EmptyString => EmptyString
  | String c s' =>
      String (if Ascii.eqb c old then new else c) (replace old new s')
  end.

(** [s.split(sep)[0]] for a one-character [sep] *)
Fixpoint split_head (sep : ascii) (s : string) : string :=
  match s with
  | EmptyString => EmptyString
  | String c s' =>
      if Ascii.eqb c sep then EmptyString else String c (split_head sep s')
  end.

(** Python's [<=] on [str]: lexicographic on the code units. *)
Definition le (s1 s2 : string) : Prop := String.leb s1 s2 = true.

Global Instance le_dec : RelDecision le.
Proof. intros s1 s2. unfold le. apply _. Defined.

End PyStr.

(** ** The live interpreter *)

(** What [getattr(obj, name)] followed by [repr] does: a value, or an
    exception, of which only [str(e)] is ever used. *)
Inductive attr_result (Obj : Type) : Type :=
| Value (val : Obj)
| Raises (err : string).
Arguments Value {Obj} val.
Arguments Raises {Obj} err.

Record Runtime (Obj : Type) : Type := {
  (** [dir(obj)] *)
  py_dir : Obj -> list string;
  (** [getattr(obj, name)] *)
  py_getattr : Obj -> string -> attr_result Obj;
  (** [repr(val)]; it runs inside the same [try] and may raise as well *)
  py_repr : Obj -> attr_result string;
  (** [repr(type(val))], the textual type tag *)
  py_type_tag : Obj -> string;
  (** [str(obj)], as [format] renders it in an error message *)
  py_str : Obj -> string;
  (** [obj == s] for a [str] [s]: what [obj in <list of str>] compares *)
  py_eq_str : Obj -> string -> bool
}.
Arguments py_dir {Obj} _ _.
Arguments py_getattr {Obj} _ _ _.
Arguments py_repr {Obj} _ _.
Arguments py_type_tag {Obj} _ _.
Arguments py_str {Obj} _ _.
Arguments py_eq_str {Obj} _ _ _.

(** ** Stub fragments: what one [fp.write] of the walker carries *)

Inductive Category : Type := Callable | PrimitiveLiteral | CompositeType | Opaque.

Inductive fragment : Type :=
| FDef (indent name : string)
| FAssign (indent name rep : string)
| FClass (indent name : string)
| FNone (indent name : string).

Definition frag_indent (f : fragment) : string :=
  match f with
  | FDef i _ | FAssign i _ _ | FClass i _ | FNone i _ => i
  end.

Definition frag_name (f : fragment) : string :=
  match f with
  | FDef _ n | FAssign _ n _ | FClass _ n | FNone _ n => n
  end.

Definition is_class (f : fragment) : bool :=
  match f with FClass _ _ => true | _ => false end.

(** The text of each fragment, as the walker builds it before [fp.write]. *)
Definition render (f : fragment) : string :=
  match f with
  | FDef indent name =>
      (indent ++ "def " ++ name ++ "():" ++ PyStr.nl)
      ++ (indent ++ "    pass" ++ PyStr.nl ++ PyStr.nl)
  | FAssign indent name rep => indent ++ name ++ " = " ++ rep ++ PyStr.nl
  | FClass indent name =>
      (PyStr.nl ++ indent ++ "class " ++ name ++ ":" ++ PyStr.nl)
      ++ (indent ++ "    ''" ++ PyStr.nl)
  | FNone indent name => indent ++ name ++ " = None" ++ PyStr.nl
  end.

Definition callable_tags : list string :=
  ["<class 'function'>"; "<class 'bound_method'>"].
Definition literal_tags : list string :=
  ["<class 'str'>"; "<class 'int'>"; "<class 'float'>"].
Definition type_tag : string := "<class 'type'>".

(** The [if]/[elif] chain of the walker on the textual type tag alone. *)
Definition classify (typ : string) : Category :=
  if bool_decide (typ ∈ callable_tags) then Callable
  else if bool_decide (typ ∈ literal_tags) then PrimitiveLiteral
  else if bool_decide (typ = type_tag) then CompositeType
  else Opaque.

(** ** The instance: [self] *)

Record Stubber : Type := {
  path : string;
  problematic : list string;
  excluded : list string;
  modules : list string;
  include_nested : bool;            (* constrained variant only *)
  _report : list (string * string)  (* the entries {"module": .., "file": ..} *)
}.

Definition problematic0 : list string :=
  ["upysh"; "webrepl_setup"; "http_client"; "http_client_ssl";
   "http_server"; "http_server_ssl"].
Definition excluded0 : list string := ["webrepl"; "_webrepl"; "webrepl_setup"].

Section Walker.
Context {Obj : Type} (rt : Runtime Obj).

(** A member record: [(name, repr(val), repr(type(val)), val)]. *)
Definition item : Type := string * string * string * Obj.

Definition item_name (it : item) : string := it.1.1.1.

(** The message of the [except] clause; [format] renders [obj] with
    [str(obj)], which is taken to return. *)
Definition attr_error (name : string) (obj : Obj) (e : string) : string :=
  "Couldn't get attribute '" ++ name ++ "' from object '" ++ py_str rt obj
  ++ "', Err: " ++ e.

(** The body of the [try]: [val = getattr(obj, name)] and the tuple. *)
Definition read_attr (obj : Obj) (name : string) : attr_result item :=
  match py_getattr rt obj name with
  | Raises e => Raises e
  | Value val =>
      match py_repr rt val with
      | Raises e => Raises e
      | Value rep => Value (name, rep, py_type_tag rt val, val)
      end
  end.

(** The [for name in dir(obj)] loop, over the names still to visit:
    a readable attribute is appended to [result], a raising one to
    [errors], and the loop goes on either way. *)
Fixpoint attribs_loop (obj : Obj) (names : list string)
  : list item * list string :=
  match names with
  | [] => ([], [])
  | name :: names' =>
      let '(result, errors) := attribs_loop obj names' in
      match read_attr obj name with
      | Value it => (it :: result, errors)
      | Raises e => (result, attr_error name obj e :: errors)
      end
  end.

(** [get_obj_attribs] / [get_obj_attributes] *)
Definition get_obj_attributes (obj : Obj) : list item * list string :=
  attribs_loop obj (py_dir rt obj).

(** [sorted(items, key=lambda x: x[0])] *)
Definition by_name (a b : item) : Prop := PyStr.le (item_name a) (item_name b).

Global Instance by_name_dec : RelDecision by_name.
Proof. intros a b. unfold by_name. apply _. Defined.

Definition sorted_items (items : list item) : list item :=
  merge_sort by_name items.

(** [object_expr in self.problematic] *)
Definition in_problematic (self : Stubber) (object_expr : Obj) : bool :=
  existsb (py_eq_str rt object_expr) (problematic self).

(** The body of the walker's [for] loop for one member record; [self_call]
    stands for the recursive call [self.write_object_stub(fp, obj, ...)]. *)
Definition stub_member
    (self_call : Obj -> string -> string -> option (list fragment))
    (obj_name indent : string) (it : item) : option (list fragment) :=
  let '(name, rep, typ, obj) := it in
  if PyStr.startswith "__" name then Some []
  else if bool_decide (typ ∈ callable_tags) then Some [FDef indent name]
  else if bool_decide (typ ∈ literal_tags) then
    Some [FAssign indent name rep]
  else if bool_decide (typ = type_tag)
          && bool_decide (indent = EmptyString) then
    cons (FClass indent name) <$>
      self_call obj (obj_name ++ "." ++ name) (indent ++ "    ")
  else Some [FNone indent name].

(** [write_object_stub] / [_dump_object_stubs].  The recursion follows
    the live object graph, which may be cyclic, so the definition counts
    the calls it may still nest in [fuel]; [None] means the count ran
    out.  The result is the sequence of fragments written to [fp]. *)
Fixpoint write_object_stub (fuel : nat) (self : Stubber)
    (object_expr : Obj) (obj_name indent : string)
  : option (list fragment) :=
  match fuel with
  | O => None
  | S fuel' =>
      if in_problematic self object_expr then Some []
      else
        let '(items, errors) := get_obj_attributes object_expr in
        List.concat (A:=fragment) <$>
          mapM (stub_member (write_object_stub fuel' self) obj_name indent)
               (sorted_items items)
  end.

(** The same procedure under the name the full variant gives it. *)
Definition _dump_object_stubs := write_object_stub.

End Walker.

(** ** A sample interpreter

    Object 0 is a module [sample_mod] with a function [f], a string constant
    [NAME], a class [Inner], an opaque list [obj] and a property [broken]
    whose getter raises.  [Inner] holds an integer [n] and a nested class
    [Deep], and [Deep.again] is [Deep] itself: the object graph is cyclic. *)
Module Sample.

Definition dir_of (o : nat) : list string :=
  match o with
  | 0 => ["f"; "__name__"; "broken"; "NAME"; "obj"; "Inner"]
  | 4 => ["n"; "__qualname__"; "Deep"]
  | 6 => ["k"; "again"]
  | _ => []
  end.

Definition getattr_of (o : nat) (name : string) : attr_result nat :=
  match o with
  | 0 =>
      if String.eqb name "f" then Value 1
      else if String.eqb name "__name__" then Value 2
      else if String.eqb name "NAME" then Value 3
      else if String.eqb name "Inner" then Value 4
      else if String.eqb name "obj" then Value 7
      else if String.eqb name "broken" then Raises "boom"
      else Raises "no such attribute"
  | 4 =>
      if String.eqb name "n" then Value 5
      else if String.eqb name "Deep" then Value 6
      else if String.eqb name "__qualname__" then Value 8
      else Raises "no such attribute"
  | 6 =>
      if String.eqb name "k" then Value 5
      else if String.eqb name "again" then Value 6
      else Raises "no such attribute"
  | _ => Raises "no such attribute"
  end.

Definition repr_of (o : nat) : attr_result string :=
  match o with
  | 0 => Value "<module 'sample_mod'>"
  | 1 => Value "<function f>"
  | 2 => Value "'sample_mod'"
  | 3 => Value "'x'"
  | 4 => Value "<class 'Inner'>"
  | 5 => Value "1"
  | 6 => Value "<class 'Deep'>"
  | 8 => Value "'Inner'"
  | _ => Value "[]"
  end.

Definition tag_of (o : nat) : string :=
  match o with
  | 0 => "<class 'module'>"
  | 1 => "<class 'function'>"
  | 2 | 3 | 8 => "<class 'str'>"
  | 4 | 6 => "<class 'type'>"
  | 5 => "<class 'int'>"
  | _ => "<class 'list'>"
  end.

Definition str_of (o : nat) : string :=
  match o with
  | 2 => "sample_mod"
  | 3 => "x"
  | 8 => "Inner"
  | _ => match repr_of o with Value r => r | Raises _ => EmptyString end
  end.

(** Only a [str] object compares equal to a [str]. *)
Definition eq_str_of (o : nat) (s : string) : bool :=
  match o with
  | 2 | 3 | 8 => String.eqb (str_of o) s
  | _ => false
  end.

Definition rt : Runtime nat :=
  {| py_dir := dir_of; py_getattr := getattr_of; py_repr := repr_of;
     py_type_tag := tag_of; py_str := str_of; py_eq_str := eq_str_of |}.

(** The same objects on an interpreter that enumerates names backwards. *)
Definition rt_rev : Runtime nat :=
  {| py_dir := fun o => rev (dir_of o); py_getattr := getattr_of;
     py_repr := repr_of; py_type_tag := tag_of; py_str := str_of;
     py_eq_str := eq_str_of |}.

Definition stubber : Stubber :=
  {| path := "/flash/stubs/esp32_1_11_0";
     problematic := problematic0; excluded := excluded0;
     modules := ["os"; "does_not_exist"; "sample_mod"];
     include_nested := true; _report := [] |}.

End Sample.

(** ** The device around the interpreter

    The module cache [sys.modules], the flash file system and the free-heap
    reading are state outside [self].  What the firmware answers (which
    modules can be imported, which file-system calls fail, how much heap is
    free at each query) is a parameter. *)

Inductive exn : Type :=
| ImportError
| OSError (errno : Z)
| AttributeError
| NameError
| OtherError (msg : string).

Global Instance exn_eq_dec : EqDecision exn.
Proof. solve_decision. Defined.

Definition ENOENT : Z := 2.
Definition EEXIST : Z := 17.

Inductive outcome (A : Type) : Type :=
| Ok (a : A)
| Raise (e : exn).
Arguments Ok {A} a.
Arguments Raise {A} e.

Inductive import_result (Obj : Type) : Type :=
| Imported (m : Obj)       (* the module object *)
| ImportFails              (* raises ImportError: not on this firmware *)
| ImportCrashes (e : exn). (* raises anything else *)
Arguments Imported {Obj} m.
Arguments ImportFails {Obj}.
Arguments ImportCrashes {Obj} e.

Record Firmware (Obj : Type) : Type := {
  fw_import : string -> import_result Obj;       (* [__import__(name)] *)
  fw_mem_free : nat -> Z;      (* the n-th reading of [gc.mem_free()] *)
  fw_stat_fault : string -> option Z;   (* [os.stat] failing with errno *)
  fw_mkdir_fault : string -> option Z;  (* [os.mkdir] failing with errno *)
  fw_open_fault : string -> option Z;   (* [open(.., "w")] failing *)
  u_sysname : string;                   (* [os.uname()] *)
  u_release : string;
  u_version : string;
  u_str : string                        (* [str(os.uname())] *)
}.
Arguments fw_import {Obj} _ _.
Arguments fw_mem_free {Obj} _ _.
Arguments fw_stat_fault {Obj} _ _.
Arguments fw_mkdir_fault {Obj} _ _.
Arguments fw_open_fault {Obj} _ _.
Arguments u_sysname {Obj} _.
Arguments u_release {Obj} _.
Arguments u_version {Obj} _.
Arguments u_str {Obj} _.

Definition set_import {Obj} (imp : string -> import_result Obj)
    (fw : Firmware Obj) : Firmware Obj :=
  {| fw_import := imp; fw_mem_free := fw_mem_free fw;
     fw_stat_fault := fw_stat_fault fw; fw_mkdir_fault := fw_mkdir_fault fw;
     fw_open_fault := fw_open_fault fw; u_sysname := u_sysname fw;
     u_release := u_release fw; u_version := u_version fw;
     u_str := u_str fw |}.

Record World (Obj : Type) : Type := {
  sys_modules : gmap string Obj;        (* the module cache *)
  dirs : gset string;                   (* directories on flash *)
  files : gmap string (list string);    (* file name to the writes so far *)
  mem_queries : nat                     (* [gc.mem_free()] calls so far *)
}.
Arguments sys_modules {Obj} _.
Arguments dirs {Obj} _.
Arguments files {Obj} _.
Arguments mem_queries {Obj} _.

Definition set_report (r : list (string * string)) (self : Stubber) : Stubber :=
  {| path := path self; problematic := problematic self;
     excluded := excluded self; modules := modules self;
     include_nested := include_nested self; _report := r |}.

Definition set_include_nested (b : bool) (self : Stubber) : Stubber :=
  {| path := path self; problematic := problematic self;
     excluded := excluded self; modules := modules self;
     include_nested := b; _report := _report self |}.

Definition set_modules (ms : list string) (self : Stubber) : Stubber :=
  {| path := path self; problematic := problematic self;
     excluded := excluded self; modules := ms;
     include_nested := include_nested self; _report := _report self |}.

(** [add_modules]: [self.modules = sorted(set(self.modules) | set(modules))] *)
Definition add_modules (ms : list string) (self : Stubber) : Stubber :=
  set_modules
    (merge_sort PyStr.le
       (elements ((list_to_set (modules self) : gset string) ∪ list_to_set ms)))
    self.

(** The interpreter state a method runs in, and a method: it ends by
    returning or by raising, and leaves a state behind either way. *)
Definition state (Obj : Type) : Type := Stubber * World Obj.
Definition M (Obj A : Type) : Type := state Obj -> outcome A * state Obj.

Global Instance M_ret {Obj} : MRet (M Obj) := fun A a st => (Ok a, st).
Global Instance M_bind {Obj} : MBind (M Obj) :=
  fun A B f m st =>
    match m st with
    | (Ok a, st') => f a st'
    | (Raise e, st') => (Raise e, st')
    end.

Definition raise {Obj A} (e : exn) : M Obj A := fun st => (Raise e, st).

(** [try: body  except <any> as e: handler(e)] *)
Definition try_except {Obj A} (body : M Obj A) (handler : exn -> M Obj A)
  : M Obj A :=
  fun st =>
    match body st with
    | (Ok a, st') => (Ok a, st')
    | (Raise e, st') => handler e st'
    end.

Definition get_self {Obj} : M Obj Stubber := fun st => (Ok st.1, st).
Definition modify_self {Obj} (f : Stubber -> Stubber) : M Obj unit :=
  fun st => (Ok tt, (f st.1, st.2)).
Definition modify_world {Obj} (f : World Obj -> World Obj) : M Obj unit :=
  fun st => (Ok tt, (st.1, f st.2)).

(** [for x in l: body(x)] *)
Fixpoint for_each {Obj A} (l : list A) (body : A -> M Obj unit) : M Obj unit :=
  match l with
  | [] => mret tt
  | x :: l' => body x ;; for_each l' body
  end.

(** Unfolds the monad on a goal about a run. *)
Ltac run_M :=
  unfold mbind, M_bind, mret, M_ret, try_except, raise, get_self,
    modify_self, modify_world in *;
  simpl in *.

Section Device.
Context {Obj : Type} (rt : Runtime Obj) (fw : Firmware Obj).

Definition path_exists (w : World Obj) (p : string) : bool :=
  bool_decide (p ∈ dirs w) || bool_decide (is_Some (files w !! p)).

(** [os.stat(p)] *)
Definition os_stat (p : string) : M Obj unit :=
  fun st =>
    match fw_stat_fault fw p with
    | Some errno => (Raise (OSError errno), st)
    | None =>
        if path_exists st.2 p then (Ok tt, st)
        else (Raise (OSError ENOENT), st)
    end.

(** [os.mkdir(p)] *)
Definition os_mkdir (p : string) : M Obj unit :=
  fun st =>
    match fw_mkdir_fault fw p with
    | Some errno => (Raise (OSError errno), st)
    | None =>
        if path_exists st.2 p then (Raise (OSError EEXIST), st)
        else (Ok tt, (st.1,
               {| sys_modules := sys_modules st.2;
                  dirs := {[ p ]} ∪ dirs st.2;
                  files := files st.2;
                  mem_queries := mem_queries st.2 |}))
    end.

(** [gc.mem_free()]: every call is a fresh reading. *)
Definition gc_mem_free : M Obj Z :=
  fun st =>
    (Ok (fw_mem_free fw (mem_queries st.2)),
     (st.1, {| sys_modules := sys_modules st.2; dirs := dirs st.2;
               files := files st.2;
               mem_queries := S (mem_queries st.2) |})).

(** [__import__(name)]: a module that loads enters the module cache. *)
Definition py_import (name : string) : M Obj Obj :=
  fun st =>
    match fw_import fw name with
    | Imported m =>
        (Ok m, (st.1,
           {| sys_modules := <[ name := m ]> (sys_modules st.2);
              dirs := dirs st.2; files := files st.2;
              mem_queries := mem_queries st.2 |}))
    | ImportFails => (Raise ImportError, st)
    | ImportCrashes e => (Raise e, st)
    end.

(** [del sys.modules[name]] inside [try: .. except BaseException: pass] *)
Definition del_sys_module (name : string) : M Obj unit :=
  modify_world (fun w =>
    {| sys_modules := delete name (sys_modules w); dirs := dirs w;
       files := files w; mem_queries := mem_queries w |}).

(** [open(file_name, "w")]: the file exists and is empty afterwards. *)
Definition py_open (file_name : string) : M Obj unit :=
  fun st =>
    match fw_open_fault fw file_name with
    | Some errno => (Raise (OSError errno), st)
    | None =>
        (Ok tt, (st.1,
           {| sys_modules := sys_modules st.2; dirs := dirs st.2;
              files := <[ file_name := [] ]> (files st.2);
              mem_queries := mem_queries st.2 |}))
    end.

(** [fp.write(s)] on the file opened as [file_name] *)
Definition fp_write (file_name s : string) : M Obj unit :=
  modify_world (fun w =>
    {| sys_modules := sys_modules w; dirs := dirs w;
       files := alter (fun ws => (ws ++ [s])%list) file_name (files w);
       mem_queries := mem_queries w |}).

(** [self._report.append({"module": module_name, "file": file_name})] *)
Definition report_append (module_name file_name : string) : M Obj unit :=
  modify_self (fun self =>
    set_report ((_report self ++ [(module_name, file_name)])%list) self).

(** One folder of [ensure_folder]: [os.stat(p)], and [os.mkdir(p)] when
    the stat fails with [ENOENT]; every other failure is raised again. *)
Definition ensure_dir (p : string) : M Obj unit :=
  try_except (os_stat p)
    (fun e =>
       match e with
       | OSError errno =>
           if Z.eqb errno ENOENT then os_mkdir p else raise e
       | _ => raise e
       end).

(** The [while] loop of [ensure_folder]: it visits the positions [i] of
    ['/'] in [path] from left to right, with [p = path[0:i]] ([path[0]]
    when [i] is 0).  [pre] is the part of the path already read. *)
Fixpoint ensure_from (pre rest : string) : M Obj unit :=
  match rest with
  | EmptyString => mret tt
  | String c rest' =>
      (if Ascii.eqb c "/"%char then
         ensure_dir (match pre with
                     | EmptyString => String c EmptyString
                     | _ => pre
                     end)
       else mret tt) ;;
      ensure_from (pre ++ String c EmptyString) rest'
  end.

(** [ensure_folder(path)]; [path] is [None] when the caller left
    [file_name] at its default, and [None.find] is an AttributeError. *)
Definition ensure_folder (path : option string) : M Obj unit :=
  match path with
  | None => raise AttributeError
  | Some p => ensure_from EmptyString p
  end.

(** [firmware_ID(asfile)] *)
Definition firmware_ID (asfile : bool) : string :=
  let ver :=
    if PyStr.contains (u_sysname fw) "esp32_LoBo" then u_release fw
    else PyStr.split_head "-"%char (u_version fw) in
  let fid := u_sysname fw ++ " " ++ ver in
  if asfile then
    fold_left (fun fid c => PyStr.replace c "_"%char fid)
      (list_ascii_of_string " .()/\:$") fid
  else fid.

(** The header written first into every stub file. *)
Definition header (stubber_version module_name : string) : string :=
  PyStr.dquote ++ PyStr.dquote ++ PyStr.dquote ++ PyStr.nl
  ++ "Module: '" ++ module_name ++ "' on " ++ firmware_ID false ++ PyStr.nl
  ++ PyStr.dquote ++ PyStr.dquote ++ PyStr.dquote ++ PyStr.nl
  ++ "# MCU: " ++ u_str fw ++ PyStr.nl
  ++ "# Stubber: " ++ stubber_version ++ PyStr.nl.

(** The walker called on a module at the top indent, writing to the open
    file.  Two nested calls are all it can use ([fuel_two_suffices]). *)
Definition walk_module (file_name : string) (new_module : Obj)
    (module_name : string) : M Obj unit :=
  self ← get_self;
  for_each
    (default [] (write_object_stub rt 2 self new_module module_name
                   EmptyString))
    (fun f => fp_write file_name (render f)).

(** The [try] around [__import__]: [None] stands for the [return] of
    the handler of ImportError.  For any other exception the clause
    [except e:] is tried next, and evaluating [e], a local name that is
    not bound at that point, raises a NameError of its own. *)
Definition import_or_return (module_name : string) : M Obj (option Obj) :=
  try_except
    (new_module ← py_import module_name; mret (Some new_module))
    (fun e =>
       match e with
       | ImportError => mret None
       | _ => raise NameError
       end).

Definition is_internal (module_name : string) : bool :=
  PyStr.startswith "_" module_name && negb (String.eqb module_name "_thread").

Definition keep_loaded : list string := ["os"; "sys"; "logging"; "gc"].

Definition stub_file_name (self : Stubber) (module_name : string) : string :=
  path self ++ "/" ++ PyStr.replace "."%char "/"%char module_name ++ ".py".

End Device.

(** The files after the fragments [frs] were written, one [fp.write] each,
    to the open file [file_name]. *)
Definition write_all (file_name : string) (frs : list fragment)
    (fs : gmap string (list string)) : gmap string (list string) :=
  foldl (fun fs f => alter (fun ws => (ws ++ [render f])%list) file_name fs)
    fs frs.

(** What a call leaves alone when it only makes directories. *)
Definition outside_dirs {Obj} (st st' : state Obj) : Prop :=
  st'.1 = st.1
  /\ sys_modules st'.2 = sys_modules st.2
  /\ files st'.2 = files st.2
  /\ mem_queries st'.2 = mem_queries st.2.

(** ** The full variant: [createstubs.py] *)
Module Full.
Section Lifecycle.
Context {Obj : Type} (rt : Runtime Obj) (fw : Firmware Obj).

Definition stubber_version : string := "1.0.1".

(** [dump_module_stub(module_name, file_name=None)] *)
Definition dump_module_stub (module_name : string)
    (file_name : option string) : M Obj unit :=
  if is_internal module_name then mret tt
  else
    self ← get_self;
    if bool_decide (module_name ∈ problematic self) then mret tt
    else if PyStr.has_char "/"%char module_name then
      (* nested module: the folder is made, then the module is skipped *)
      ensure_folder fw file_name
    else
      let file_name :=
        match file_name with
        | Some f => f
        | None => PyStr.replace "."%char "_"%char module_name ++ ".py"
        end in
      imported ← import_or_return fw module_name;
      match imported with
      | None => mret tt
      | Some new_module =>
          py_open fw file_name ;;
          fp_write file_name (header fw stubber_version module_name) ;;
          (if bool_decide (module_name ∉ excluded self) then
             walk_module rt file_name new_module module_name ;;
             report_append module_name file_name
           else mret tt) ;;
          (* [del new_module] unbinds the local name and nothing else:
             the module cache is not touched, whether or not the module
             is one of os, sys, logging, gc *)
          mret tt
      end.

(** [generate_all_stubs] *)
Definition generate_all_stubs : M Obj unit :=
  self ← get_self;
  for_each (merge_sort PyStr.le (modules self))
    (fun module_name =>
       if PyStr.startswith "_" module_name then mret tt
       else dump_module_stub module_name
              (Some (stub_file_name self module_name))).

End Lifecycle.
End Full.

(** ** The constrained variant: [createstubs_min.py] *)
Module Min.
Section Lifecycle.
Context {Obj : Type} (rt : Runtime Obj) (fw : Firmware Obj).

Definition stubber_version : string := "1.2.0".

(** [create_module_stub(module_name, file_name=None)] *)
Definition create_module_stub (module_name : string)
    (file_name : option string) : M Obj unit :=
  if is_internal module_name then mret tt
  else
    self ← get_self;
    if bool_decide (module_name ∈ problematic self) then mret tt
    else
      let nested := PyStr.has_char "/"%char module_name in
      (if nested then ensure_folder fw file_name else mret tt) ;;
      let module_name :=
        if nested then PyStr.replace "/"%char "."%char module_name
        else module_name in
      if nested && negb (include_nested self) then mret tt
      else
        let file_name :=
          match file_name with
          | Some f => f
          | None => PyStr.replace "."%char "_"%char module_name ++ ".py"
          end in
        imported ← import_or_return fw module_name;
        match imported with
        | None => mret tt
        | Some new_module =>
            py_open fw file_name ;;
            fp_write file_name (header fw stubber_version module_name) ;;
            walk_module rt file_name new_module module_name ;;
            report_append module_name file_name ;;
            if bool_decide (module_name ∉ keep_loaded) then
              del_sys_module module_name
            else mret tt
        end.

(** The body of the [for] loop of [create_all_stubs]. *)
Definition stub_step (module_name : string) : M Obj unit :=
  self ← get_self;
  (if include_nested self then
     free ← gc_mem_free fw;
     modify_self (set_include_nested (Z.ltb 3200 free))
   else mret tt) ;;
  if is_internal module_name then mret tt
  else if bool_decide (module_name ∈ problematic self) then mret tt
  else if bool_decide (module_name ∈ excluded self) then mret tt
  else
    let file_name := stub_file_name self module_name in
    _ ← gc_mem_free fw;                                   (* m1 *)
    try_except (create_module_stub module_name (Some file_name))
      (fun _ => mret tt) ;;
    _ ← gc_mem_free fw;                                   (* m2 *)
    mret tt.

(** [create_all_stubs] *)
Definition create_all_stubs : M Obj unit :=
  self ← get_self;
  let ms :=
    (filter (fun m => PyStr.has_char "/"%char m = true) (modules self)
     ++ filter (fun m => PyStr.has_char "/"%char m = false) (modules self))%list in
  modify_self (set_modules ms) ;;
  for_each ms stub_step.

End Lifecycle.
End Min.

(** ** A sample device for the sample interpreter *)
Module SampleDevice.

Definition import_of (name : string) : import_result nat :=
  if String.eqb name "sample_mod" then Imported 0
  else if String.eqb name "os" then Imported 9
  else if String.eqb name "upysh" then Imported 0
  else if String.eqb name "webrepl" then Imported 0
  else if String.eqb name "pkg.sub" then Imported 0
  else ImportFails.

(** No file-system call fails; the heap reading is a parameter. *)
Definition fw (mem : nat -> Z) : Firmware nat :=
  {| fw_import := import_of; fw_mem_free := mem;
     fw_stat_fault := fun _ => None; fw_mkdir_fault := fun _ => None;
     fw_open_fault := fun _ => None;
     u_sysname := "esp32"; u_release := "1.11.0";
     u_version := "v1.11-47-g1a51fc9dd on 2019-06-18";
     u_str := "(sysname='esp32', release='1.11.0')" |}.

Definition plenty : nat -> Z := fun _ => 50000%Z.

Definition world : World nat :=
  {| sys_modules := {[ "os" := 9; "sys" := 10; "gc" := 11 ]};
     dirs := {[ "/"; "/flash"; "/flash/stubs"; "/flash/stubs/esp32_1_11_0" ]};
     files := ∅; mem_queries := 0 |}.

Definition st0 : state nat := (Sample.stubber, world).

End SampleDevice.

(** ** Closed forms of the walker, used to state its properties *)

Section ClosedForms.
Context {Obj : Type} (rt : Runtime Obj).

(** What the loop body writes for a member when it does not recurse. *)
Definition leaf_stub (indent : string) (it : item (Obj:=Obj)) : list fragment :=
  let '(name, rep, typ, obj) := it in
  if PyStr.startswith "__" name then []
  else match classify typ with
       | Callable => [FDef indent name]
       | PrimitiveLiteral => [FAssign indent name rep]
       | CompositeType | Opaque => [FNone indent name]
       end.

(** A walk that never recurses. *)
Definition flat_walk (self : Stubber) (obj : Obj) (indent : string)
  : list fragment :=
  if in_problematic rt self obj then []
  else List.concat (leaf_stub indent <$> sorted_items (get_obj_attributes rt obj).1).

(** What the loop body writes for a member at the top indent. *)
Definition top_stub (self : Stubber) (it : item (Obj:=Obj)) : list fragment :=
  let '(name, rep, typ, obj) := it in
  if PyStr.startswith "__" name then []
  else match classify typ with
       | CompositeType => FClass EmptyString name :: flat_walk self obj "    "
       | _ => leaf_stub EmptyString it
       end.

(** A walk from the top indent: one level of classes. *)
Definition top_walk (self : Stubber) (obj : Obj) : list fragment :=
  if in_problematic rt self obj then []
  else List.concat (top_stub self <$> sorted_items (get_obj_attributes rt obj).1).

(** The two lists of [get_obj_attributes], name by name. *)
Definition readable (obj : Obj) (name : string) : option (item (Obj:=Obj)) :=
  match read_attr rt obj name with
  | Value it => Some it
  | Raises _ => None
  end.

Definition unreadable (obj : Obj) (name : string) : option string :=
  match read_attr rt obj name with
  | Value _ => None
  | Raises e => Some (attr_error rt name obj e)
  end.

(** The names of the fragments written at [indent], in the order written:
    at the indent of a call these are the fragments of the object itself. *)
Definition own_names (indent : string) (frs : list fragment) : list string :=
  frag_name <$> filter (fun f => frag_indent f = indent) frs.

(** Two interpreters that expose the same objects and may enumerate the
    names of each in a different order. *)
Definition same_members (rt' : Runtime Obj) : Prop :=
  (forall o, py_dir rt o ≡ₚ py_dir rt' o)
  /\ (forall o name, py_getattr rt o name = py_getattr rt' o name)
  /\ (forall o, py_repr rt o = py_repr rt' o)
  /\ (forall o, py_type_tag rt o = py_type_tag rt' o)
  /\ (forall o, py_str rt o = py_str rt' o)
  /\ (forall o s, py_eq_str rt o s = py_eq_str rt' o s).

End ClosedForms.

(** ** Further closed forms, used to state the properties of the device *)

(** [p = path[0]] when [i == 0], [path[0:i]] otherwise, for [d = path[0:i]]
    and [path[i] == '/']. *)
Definition folder_at (d : string) : string :=
  match d with
  | EmptyString => "/"
  | _ => d
  end.

(** The characters [firmware_ID] replaces when the id names a folder. *)
Definition path_chars : list ascii := list_ascii_of_string " .()/\:$".

(** [file_name] when the caller left it at its default:
    [module_name.replace('.', '_') + ".py"]. *)
Definition default_file_name (module_name : string) : string :=
  PyStr.replace "."%char "_"%char module_name ++ ".py".

(** The name a module is imported and reported under:
    [module_name.replace('/', '.')] for a nested one. *)
Definition imported_as (module_name : string) : string :=
  if PyStr.has_char "/"%char module_name
  then PyStr.replace "/"%char "."%char module_name
  else module_name.

(** The modules a run of the full variant gets to stub: those that pass
    every test on the name and that [__import__] loads. *)
Definition full_eligible {Obj} (fw : Firmware Obj) (self : Stubber)
    (m : string) : bool :=
  negb (PyStr.startswith "_" m)
  && negb (bool_decide (m ∈ problematic self))
  && negb (PyStr.has_char "/"%char m)
  && negb (bool_decide (m ∈ excluded self))
  && match fw_import fw m with Imported _ => true | _ => false end.

(** The same for the constrained variant, where a nested module may be
    stubbed and is imported under its dotted name. *)
Definition min_eligible {Obj} (fw : Firmware Obj) (self : Stubber)
    (m : string) : bool :=
  negb (is_internal m)
  && negb (bool_decide (m ∈ problematic self))
  && negb (bool_decide (m ∈ excluded self))
  && match fw_import fw (imported_as m) with Imported _ => true | _ => false end.

(** The state after a module was imported as [name]. *)
Definition loaded {Obj} (name : string) (m : Obj) (w : World Obj)
  : World Obj :=
  {| sys_modules := <[ name := m ]> (sys_modules w); dirs := dirs w;
     files := files w; mem_queries := mem_queries w |}.

(** A name the walker stubs: it does not start with two underscores. *)
Definition public (name : string) : Prop := PyStr.startswith "__" name = false.

Global Instance public_dec name : Decision (public name).
Proof. unfold public. apply _. Defined.

(** ** Housekeeping: [get_root], [__init__], [clean], [report], [main] *)

(** [s.endswith('/')] *)
Fixpoint ends_with_slash (s : string) : bool :=
  match s with
  | EmptyString => false
  | String c EmptyString => Ascii.eqb c "/"
  | String _ s' => ends_with_slash s'
  end.

(** [s[:-1]] *)
Fixpoint drop_last (s : string) : string :=
  match s with
  | EmptyString => EmptyString
  | String _ EmptyString => EmptyString
  | String c s' => String c (drop_last s')
  end.

(** [s[1:-1]] *)
Definition strip_ends (s : string) : string :=
  drop_last (match s with EmptyString => EmptyString | String _ s' => s' end).

(** [s.replace('//', '/')]: matches are taken from the left and do not
    overlap. *)
Fixpoint replace_dslash (s : string) : string :=
  match s with
  | EmptyString => EmptyString
  | String c s' =>
      match s' with
      | EmptyString => String c EmptyString
      | String d s'' =>
          if Ascii.eqb c "/" && Ascii.eqb d "/"
          then String "/" (replace_dslash s'')
          else String c (replace_dslash s')
      end
  end.

(** What the device answers besides: the working directory, the listing
    of a folder, a failing [os.remove], and the JSON text [ujson.dumps]
    gives for an entry of the report and for the two dictionaries that
    [__init__] builds from [os.uname()]. *)
Record Host (Obj : Type) : Type := {
  h_getcwd : string;                                   (* [os.getcwd()] *)
  h_listdir : World Obj -> string -> outcome (list string);
  h_remove_fault : string -> option Z;
  h_dumps : string * string -> string;
  h_dumps_fwi : string;              (* [dumps(self._report_fwi)] *)
  h_dumps_stb : string               (* [dumps(self._report_stb)] *)
}.
Arguments h_getcwd {Obj} _.
Arguments h_listdir {Obj} _ _ _.
Arguments h_remove_fault {Obj} _ _.
Arguments h_dumps {Obj} _ _.
Arguments h_dumps_fwi {Obj} _.
Arguments h_dumps_stb {Obj} _.

Section Housekeeping.
Context {Obj : Type} (rt : Runtime Obj) (fw : Firmware Obj) (host : Host Obj).

(** [os.listdir(p)] *)
Definition os_listdir (p : string) : M Obj (list string) :=
  fun st =>
    match h_listdir host st.2 p with
    | Ok names => (Ok names, st)
    | Raise e => (Raise e, st)
    end.

(** [os.remove(p)]: the entry is gone afterwards; a missing one is
    [ENOENT]. *)
Definition os_remove (p : string) : M Obj unit :=
  fun st =>
    match h_remove_fault host p with
    | Some errno => (Raise (OSError errno), st)
    | None =>
        if path_exists st.2 p then
          (Ok tt, (st.1,
             {| sys_modules := sys_modules st.2;
                dirs := dirs st.2 ∖ {[ p ]};
                files := delete p (files st.2);
                mem_queries := mem_queries st.2 |}))
        else (Raise (OSError ENOENT), st)
    end.

(** [get_root()] *)
Definition get_root : M Obj string :=
  try_except (os_stat fw "/flash" ;; mret "/flash")
    (fun e =>
       match e with
       | OSError errno =>
           if Z.eqb errno ENOENT then mret (h_getcwd host) else mret "/"
       | _ => raise e
       end).

(** [clean()] *)
Definition clean : M Obj unit :=
  self ← get_self;
  names ← os_listdir (path self);
  for_each names
    (fun fn =>
       try_except (os_remove (path self ++ "/" ++ fn)) (fun _ => mret tt)).

End Housekeeping.

(** The catalog [__init__] of the constrained variant starts with. *)
Definition min_modules0 : list string :=
  ["_boot"; "_onewire"; "_thread"; "_webrepl"; "ak8963"; "apa102"; "apa106";
   "array"; "binascii"; "btree"; "builtins"; "upip"; "cmath"; "collections";
   "curl"; "dht"; "display"; "ds18x20"; "errno"; "esp"; "esp32";
   "example_pub_button"; "example_sub_led"; "flashbdev"; "framebuf";
   "freesans20"; "functools"; "gc"; "gsm"; "hashlib"; "heapq"; "http_client";
   "http_client_ssl"; "http_server"; "http_server_ssl"; "inisetup"; "io";
   "json"; "logging"; "lwip"; "machine"; "math"; "microWebSocket";
   "microWebSrv"; "microWebTemplate"; "micropython"; "mpu6500"; "mpu9250";
   "neopixel"; "network"; "ntptime"; "onewire"; "os"; "port_diag"; "pye";
   "random"; "re"; "requests"; "select"; "socket"; "socketupip"; "ssd1306";
   "ssh"; "ssl"; "struct"; "sys"; "time"; "tpcalib"; "uasyncio";
   "uasyncio/core"; "ubinascii"; "ucollections"; "ucryptolib"; "uctypes";
   "uerrno"; "uhashlib"; "uheapq"; "uio"; "ujson"; "umqtt/robust";
   "umqtt/simple"; "uos"; "upip_utarfile"; "upysh"; "urandom"; "ure";
   "urequests"; "urllib/urequest"; "uselect"; "usocket"; "ussl"; "ustruct";
   "utime"; "utimeq"; "uwebsocket"; "uzlib"; "webrepl"; "webrepl_setup";
   "websocket"; "websocket_helper"; "writer"; "ymodem"; "zlib"].

(** ** The constrained variant: construction, report and [main] *)
Module MinRun.
Section Run.
Context {Obj : Type} (rt : Runtime Obj) (fw : Firmware Obj) (host : Host Obj).

(** The path [__init__] settles on: the one given, without one trailing
    ['/'], or, for [None] and for the empty string,
    [get_root() + "/stubs/" + firmware_ID(asfile=True)]. *)
Definition init_path (path : option string) : M Obj string :=
  match path with
  | Some (String c p) =>
      mret (if ends_with_slash (String c p) then drop_last (String c p)
            else String c p)
  | _ =>
      root ← get_root fw host;
      mret (replace_dslash (root ++ "/stubs/" ++ firmware_ID fw true))
  end.

(** [__init__(path=None)]: every attribute of [self] is assigned, so what
    [self] held before does not matter.  A failure of [ensure_folder] is
    dropped. *)
Definition __init__ (path : option string) : M Obj unit :=
  path ← init_path path;
  try_except (ensure_folder fw (Some (path ++ "/"))) (fun _ => mret tt) ;;
  free ← gc_mem_free fw;
  modify_self (fun _ =>
    {| path := path; problematic := problematic0;
       excluded := excluded0; modules := min_modules0;
       include_nested := Z.ltb 3200 free; _report := [] |}).

(** The loop of [report] over [self._report], with its [start] flag. *)
Fixpoint report_entries (f_name : string) (start : bool)
    (entries : list (string * string)) : M Obj unit :=
  match entries with
  | [] => mret tt
  | n :: entries' =>
      (if start then mret tt else fp_write f_name ",") ;;
      fp_write f_name (h_dumps host n) ;;
      report_entries f_name false entries'
  end.

(** [report(filename="modules.json")] *)
Definition report (filename : string) : M Obj unit :=
  self ← get_self;
  let f_name := path self ++ "/" ++ filename in
  try_except
    (py_open fw f_name ;;
     fp_write f_name "{" ;;
     fp_write f_name (strip_ends (h_dumps_fwi host)) ;;
     fp_write f_name "," ;;
     fp_write f_name (strip_ends (h_dumps_stb host)) ;;
     fp_write f_name "," ;;
     fp_write f_name (PyStr.dquote ++ "modules" ++ PyStr.dquote ++ " :[") ;;
     report_entries f_name true (_report self) ;;
     fp_write f_name "]}")
    (fun _ => mret tt).

(** [main()].  The call of [logging.basicConfig], which sits in a [try]
    that drops whatever it raises, is left out. *)
Definition main : M Obj unit :=
  __init__ None ;;
  clean host ;;
  Min.create_all_stubs rt fw ;;
  report "modules.json".

End Run.
End MinRun.

(** The strings the loop of [report] writes. *)
Fixpoint entry_writes {Obj} (host : Host Obj) (start : bool)
    (entries : list (string * string)) : list string :=
  match entries with
  | [] => []
  | n :: entries' =>
      ((if start then [] else [","]) ++ [h_dumps host n]
       ++ entry_writes host false entries')%list
  end.

(** Everything [report] writes, in order. *)
Definition report_writes {Obj} (host : Host Obj) (self : Stubber)
  : list string :=
  (["{"; strip_ends (h_dumps_fwi host); ",";
    strip_ends (h_dumps_stb host); ",";
    (PyStr.dquote ++ "modules" ++ PyStr.dquote ++ " :[")%string]
   ++ entry_writes host true (_report self) ++ ["]}"])%list.

Definition set_files {Obj} (fs : gmap string (list string)) (w : World Obj)
  : World Obj :=
  {| sys_modules := sys_modules w; dirs := dirs w; files := fs;
     mem_queries := mem_queries w |}.

(** ** A sample host for the sample device *)
Module SampleHost.

(** The entries directly under folder [p], files and folders alike. *)
Definition entry_under (p k : string) : option string :=
  if String.prefix (p ++ "/") k then
    let name := String.substring (String.length p + 1)
                  (String.length k - String.length p - 1) k in
    if PyStr.has_char "/" name || String.eqb name EmptyString then None
    else Some name
  else None.

Definition listdir (w : World nat) (p : string) : outcome (list string) :=
  if path_exists w p then
    Ok (omap (entry_under p)
          ((map_to_list (files w)).*1 ++ elements (dirs w))%list)
  else Raise (OSError ENOENT).

Definition dumps (n : string * string) : string :=
  "{" ++ PyStr.dquote ++ "module" ++ PyStr.dquote ++ ": "
  ++ PyStr.dquote ++ n.1 ++ PyStr.dquote ++ ", "
  ++ PyStr.dquote ++ "file" ++ PyStr.dquote ++ ": "
  ++ PyStr.dquote ++ n.2 ++ PyStr.dquote ++ "}".

Definition host : Host nat :=
  {| h_getcwd := "/"; h_listdir := listdir;
     h_remove_fault := fun _ => None; h_dumps := dumps;
     h_dumps_fwi := "{" ++ PyStr.dquote ++ "firmware" ++ PyStr.dquote
                    ++ ": {}}";
     h_dumps_stb := "{" ++ PyStr.dquote ++ "stubber" ++ PyStr.dquote
                    ++ ": {}}" |}.

(** A flash with a stub left over from an earlier run. *)
Definition world : World nat :=
  {| sys_modules := {[ "os" := 9; "sys" := 10; "gc" := 11 ]};
     dirs := {[ "/"; "/flash" ]};
     files := {[ "/flash/stubs/esp32_1_11_0/old.py" := ["stale"];
                 "/flash/boot.py" := ["pass"] ]};
     mem_queries := 0 |}.

Definition st0 : state nat := (Sample.stubber, world).

End SampleHost.



(** A device on which every import runs out of memory. *)
Definition crashing_fw : Firmware nat :=
  set_import (fun _ => ImportCrashes (OtherError "MemoryError"))
    (SampleDevice.fw SampleDevice.plenty).

Definition EROFS : Z := 30.
Definition EACCES : Z := 13.

(** A device with a read-only flash: every [os.mkdir] fails. *)
Definition readonly_fw : Firmware nat :=
  {| fw_import := SampleDevice.import_of; fw_mem_free := SampleDevice.plenty;
     fw_stat_fault := fun _ => None; fw_mkdir_fault := fun _ => Some EROFS;
     fw_open_fault := fun _ => None;
     u_sysname := "esp32"; u_release := "1.11.0";
     u_version := "v1.11-47-g1a51fc9dd on 2019-06-18";
     u_str := "(sysname='esp32', release='1.11.0')" |}.

(** A device on which no file can be opened for writing. *)
Definition locked_fw : Firmware nat :=
  {| fw_import := SampleDevice.import_of; fw_mem_free := SampleDevice.plenty;
     fw_stat_fault := fun _ => None; fw_mkdir_fault := fun _ => None;
     fw_open_fault := fun _ => Some EACCES;
     u_sysname := "esp32"; u_release := "1.11.0";
     u_version := "v1.11-47-g1a51fc9dd on 2019-06-18";
     u_str := "(sysname='esp32', release='1.11.0')" |}.

(** * Properties *)

(** ** The order on names *)

(** ** The sample device, run *)

Example sample_walk :
  write_object_stub Sample.rt 2 Sample.stubber 0 "sample_mod" EmptyString
  = Some [FClass EmptyString "Inner"; FNone "    " "Deep";
          FAssign "    " "n" "1"; FAssign EmptyString "NAME" "'x'";
          FDef EmptyString "f"; FNone EmptyString "obj"].
Proof. by vm_compute. Qed.

Example sample_errors :
  (get_obj_attributes Sample.rt 0).2
  = ["Couldn't get attribute 'broken' from object '<module 'sample_mod'>', Err: boom"].
Proof. by vm_compute. Qed.

Example sample_render :
  render (FClass EmptyString "Inner")
  = PyStr.nl ++ "class Inner:" ++ PyStr.nl ++ "    ''" ++ PyStr.nl
  /\ render (FDef "    " "f")
     = "    def f():" ++ PyStr.nl ++ "        pass" ++ PyStr.nl ++ PyStr.nl
  /\ render (FAssign EmptyString "NAME" "'x'") = "NAME = 'x'" ++ PyStr.nl.
Proof. by vm_compute. Qed.

Example sample_firmware_ID :
  firmware_ID (SampleDevice.fw SampleDevice.plenty) false = "esp32 1.11.0"
  /\ firmware_ID (SampleDevice.fw SampleDevice.plenty) true = "esp32_1_11_0".
Proof. by vm_compute. Qed.

(** The whole catalog of the sample, [os], [does_not_exist], [sample_mod],
    with both variants: the same two stubs, and a different module cache. *)
Example sample_full_run :
  let r := Full.generate_all_stubs Sample.rt
             (SampleDevice.fw SampleDevice.plenty) SampleDevice.st0 in
  r.1 = Ok tt
  /\ _report r.2.1 = [("os", "/flash/stubs/esp32_1_11_0/os.py");
                      ("sample_mod", "/flash/stubs/esp32_1_11_0/sample_mod.py")]
  /\ (map_to_list (files r.2.2)).*1
     = ["/flash/stubs/esp32_1_11_0/os.py";
        "/flash/stubs/esp32_1_11_0/sample_mod.py"]
  /\ sys_modules r.2.2 !! "sample_mod" = Some 0.
Proof. by vm_compute. Qed.

Example sample_min_run :
  let r := Min.create_all_stubs Sample.rt
             (SampleDevice.fw SampleDevice.plenty) SampleDevice.st0 in
  r.1 = Ok tt
  /\ _report r.2.1 = [("os", "/flash/stubs/esp32_1_11_0/os.py");
                      ("sample_mod", "/flash/stubs/esp32_1_11_0/sample_mod.py")]
  /\ (map_to_list (files r.2.2)).*1
     = ["/flash/stubs/esp32_1_11_0/os.py";
        "/flash/stubs/esp32_1_11_0/sample_mod.py"]
  /\ sys_modules r.2.2 !! "sample_mod" = None
  /\ sys_modules r.2.2 !! "os" = Some 9.
Proof. by vm_compute. Qed.

Module PyStrFacts.

Lemma ascii_compare_lt (a b : ascii) :
  Ascii.compare a b = Lt <-> (N_of_ascii a < N_of_ascii b)%N.
Proof. unfold Ascii.compare. apply N.compare_lt_iff. Qed.

Lemma ascii_compare_gt (a b : ascii) :
  Ascii.compare a b = Gt <-> (N_of_ascii b < N_of_ascii a)%N.
Proof. unfold Ascii.compare. apply N.compare_gt_iff. Qed.

Lemma ascii_compare_eq (a b : ascii) : Ascii.compare a b = Eq <-> a = b.
Proof.
  split; [apply Ascii.compare_eq_iff|].
  intros ->. unfold Ascii.compare. apply N.compare_refl.
Qed.

Lemma compare_refl (s : string) : String.compare s s = Eq.
Proof.
  induction s as [|a s IH]; simpl; [done|].
  by rewrite (proj2 (ascii_compare_eq a a) eq_refl).
Qed.

Lemma compare_not_gt_trans (s1 s2 s3 : string) :
  String.compare s1 s2 <> Gt -> String.compare s2 s3 <> Gt ->
  String.compare s1 s3 <> Gt.
Proof.
  revert s2 s3.
  induction s1 as [|a s1 IH]; intros [|b s2] [|c s3]; simpl; try done.
  destruct (Ascii.compare a b) eqn:Hab; [|clear IH|done];
    destruct (Ascii.compare b c) eqn:Hbc; try done.
  - apply ascii_compare_eq in Hab as ->. apply ascii_compare_eq in Hbc as ->.
    rewrite (proj2 (ascii_compare_eq c c) eq_refl). apply IH.
  - apply ascii_compare_eq in Hab as ->. by rewrite Hbc.
  - apply ascii_compare_eq in Hbc as <-. by rewrite Hab.
  - apply ascii_compare_lt in Hab. apply ascii_compare_lt in Hbc.
    assert (Ascii.compare a c = Lt) as ->; [|done].
    apply ascii_compare_lt.
    eapply N.lt_trans; eassumption.
Qed.

Lemma le_alt (s1 s2 : string) : PyStr.le s1 s2 <-> String.compare s1 s2 <> Gt.
Proof.
  unfold PyStr.le, String.leb. destruct (String.compare s1 s2); naive_solver.
Qed.

Global Instance le_refl : Reflexive PyStr.le.
Proof. intros s. apply le_alt. by rewrite compare_refl. Qed.

Global Instance le_trans : Transitive PyStr.le.
Proof. intros s1 s2 s3. rewrite !le_alt. apply compare_not_gt_trans. Qed.

Global Instance le_total : Total PyStr.le.
Proof. intros s1 s2. apply String.leb_total. Qed.

Global Instance le_antisym : AntiSymm (=) PyStr.le.
Proof. intros s1 s2. apply String.leb_antisym. Qed.

End PyStrFacts.

(** ** The walker *)

Section WalkerFacts.
Context {Obj : Type} (rt : Runtime Obj).
Implicit Types (self : Stubber) (obj : Obj) (it : item (Obj:=Obj))
  (items : list (item (Obj:=Obj))).

Lemma tags_disjoint typ :
  (typ ∈ callable_tags -> typ ∉ literal_tags /\ typ <> type_tag)
  /\ (typ ∈ literal_tags -> typ <> type_tag).
Proof.
  unfold callable_tags, literal_tags, type_tag.
  rewrite !elem_of_cons, !elem_of_nil. split.
  - intros [->| [->|[]]]; split; try discriminate;
      intros [H|[H|[H|[]]]]; discriminate.
  - intros [->|[->|[->|[]]]]; discriminate.
Qed.

Lemma classify_cases typ :
  (typ ∈ callable_tags /\ classify typ = Callable)
  \/ (typ ∉ callable_tags /\ typ ∈ literal_tags
      /\ classify typ = PrimitiveLiteral)
  \/ (typ ∉ callable_tags /\ typ ∉ literal_tags /\ typ = type_tag
      /\ classify typ = CompositeType)
  \/ (typ ∉ callable_tags /\ typ ∉ literal_tags /\ typ <> type_tag
      /\ classify typ = Opaque).
Proof.
  unfold classify.
  destruct (decide (typ ∈ callable_tags)) as [H1|H1].
  { left. by rewrite bool_decide_eq_true_2. }
  rewrite (bool_decide_eq_false_2 _ H1).
  destruct (decide (typ ∈ literal_tags)) as [H2|H2].
  { right; left. by rewrite bool_decide_eq_true_2. }
  rewrite (bool_decide_eq_false_2 _ H2).
  destruct (decide (typ = type_tag)) as [H3|H3].
  { right; right; left. by rewrite bool_decide_eq_true_2. }
  rewrite (bool_decide_eq_false_2 _ H3). by repeat right.
Qed.

Lemma classify_callable typ : classify typ = Callable <-> typ ∈ callable_tags.
Proof.
  destruct (classify_cases typ) as [[? ->]|[(?&?&->)|[(?&?&?&->)|(?&?&?&->)]]];
    split; try done.
Qed.

Lemma classify_literal typ :
  classify typ = PrimitiveLiteral <-> typ ∈ literal_tags.
Proof.
  destruct (classify_cases typ) as [[? ->]|[(?&?&->)|[(?&?&?&->)|(?&?&?&->)]]];
    split; try done.
  intros ?. by destruct (proj1 (tags_disjoint typ)).
Qed.

Lemma classify_composite typ : classify typ = CompositeType <-> typ = type_tag.
Proof.
  destruct (classify_cases typ) as [[? ->]|[(?&?&->)|[(?&?&?&->)|(?&?&?&->)]]];
    split; try done.
  - intros ?. by destruct (proj1 (tags_disjoint typ)).
  - intros ?. by destruct (proj2 (tags_disjoint typ)).
Qed.

Lemma classify_opaque typ :
  classify typ = Opaque <->
  typ ∉ callable_tags /\ typ ∉ literal_tags /\ typ <> type_tag.
Proof.
  destruct (classify_cases typ) as [[? ->]|[(?&?&->)|[(?&?&?&->)|(?&?&?&->)]]];
    split; try done; intros (?&?&?); done.
Qed.

(** The loop body dispatches on [classify typ] and on nothing else. *)
Lemma stub_member_classify self_call obj_name indent name rep typ obj :
  stub_member self_call obj_name indent (name, rep, typ, obj) =
  if PyStr.startswith "__" name then Some []
  else match classify typ with
       | Callable => Some [FDef indent name]
       | PrimitiveLiteral => Some [FAssign indent name rep]
       | CompositeType =>
           if bool_decide (indent = EmptyString) then
             cons (FClass indent name) <$>
               self_call obj (obj_name ++ "." ++ name) (indent ++ "    ")
           else Some [FNone indent name]
       | Opaque => Some [FNone indent name]
       end.
Proof.
  unfold stub_member, classify.
  destruct (PyStr.startswith "__" name); [done|].
  repeat case_bool_decide; simpl; done.
Qed.

Lemma stub_member_leaf self_call obj_name indent it :
  indent <> EmptyString ->
  stub_member self_call obj_name indent it = Some (leaf_stub indent it).
Proof.
  intros Hi. destruct it as [[[name rep] typ] obj].
  rewrite stub_member_classify. unfold leaf_stub.
  destruct (PyStr.startswith "__" name); [done|].
  destruct (classify typ); try done. by rewrite bool_decide_eq_false_2.
Qed.

Lemma mapM_total {A B} (f : A -> option B) (g : A -> B) (l : list A) :
  (forall x, x ∈ l -> f x = Some (g x)) -> mapM f l = Some (g <$> l).
Proof.
  intros H. apply mapM_Some. induction l as [|x l IH]; simpl; [constructor|].
  constructor; [apply H; left|apply IH; intros; apply H; by right].
Qed.

(** At a deeper indent one call is enough: nothing is nested in it. *)
Lemma walk_deeper fuel self obj obj_name indent :
  indent <> EmptyString ->
  write_object_stub rt (S fuel) self obj obj_name indent
  = Some (flat_walk rt self obj indent).
Proof.
  intros Hi. simpl. unfold flat_walk.
  destruct (in_problematic rt self obj); [done|].
  destruct (get_obj_attributes rt obj) as [items errors]; simpl.
  rewrite (mapM_total _ (leaf_stub indent)); [done|].
  intros it _. by apply stub_member_leaf.
Qed.

Lemma stub_member_top fuel self obj_name it :
  stub_member (write_object_stub rt (S fuel) self) obj_name EmptyString it
  = Some (top_stub rt self it).
Proof.
  destruct it as [[[name rep] typ] obj].
  rewrite stub_member_classify. unfold top_stub, leaf_stub.
  destruct (PyStr.startswith "__" name); [done|].
  destruct (classify typ); try done.
  rewrite bool_decide_eq_true_2 by done.
  by rewrite walk_deeper.
Qed.

(** From the top indent two nested calls are enough. *)
Lemma fuel_two_suffices fuel self obj obj_name :
  write_object_stub rt (S (S fuel)) self obj obj_name EmptyString
  = Some (top_walk rt self obj).
Proof.
  change (write_object_stub rt (S (S fuel)) self obj obj_name EmptyString)
    with (if in_problematic rt self obj then Some []
          else let '(items, errors) := get_obj_attributes rt obj in
               List.concat (A:=fragment) <$>
                 mapM (stub_member (write_object_stub rt (S fuel) self)
                         obj_name EmptyString) (sorted_items items)).
  unfold top_walk. destruct (in_problematic rt self obj); [done|].
  destruct (get_obj_attributes rt obj) as [items errors]; simpl.
  rewrite (mapM_total _ (top_stub rt self)); [done|].
  intros it _. apply stub_member_top.
Qed.

Lemma leaf_stub_indent indent it :
  Forall (fun f => is_class f = false /\ frag_indent f = indent
                   /\ frag_name f = item_name it)
    (leaf_stub indent it).
Proof.
  destruct it as [[[name rep] typ] obj]. unfold leaf_stub.
  destruct (PyStr.startswith "__" name); [constructor|].
  destruct (classify typ); repeat constructor.
Qed.

Lemma Forall_concat_fmap {A B} (P : B -> Prop) (f : A -> list B) (l : list A) :
  (forall x, x ∈ l -> Forall P (f x)) -> Forall P (List.concat (f <$> l)).
Proof.
  induction l as [|x l IH]; intros H; simpl; [constructor|].
  apply Forall_app. split; [apply H; left|apply IH; intros; apply H; by right].
Qed.

Lemma elem_of_concat_fmap {A B} (g : A -> list B) (l : list A) x y :
  x ∈ l -> y ∈ g x -> y ∈ List.concat (g <$> l).
Proof.
  intros Hx Hy. induction Hx as [x l|x x' l _ IH]; csimpl;
    apply elem_of_app; [by left|right; by apply IH].
Qed.

Lemma flat_walk_indent self obj indent :
  Forall (fun f => is_class f = false /\ frag_indent f = indent)
    (flat_walk rt self obj indent).
Proof.
  unfold flat_walk. destruct (in_problematic rt self obj); [constructor|].
  apply Forall_concat_fmap. intros it _.
  eapply Forall_impl; [apply leaf_stub_indent|]. naive_solver.
Qed.

Lemma top_walk_indent self obj :
  Forall (fun f => frag_indent f = EmptyString
                   \/ (frag_indent f = "    " /\ is_class f = false))
    (top_walk rt self obj).
Proof.
  unfold top_walk. destruct (in_problematic rt self obj); [constructor|].
  apply Forall_concat_fmap. intros [[[name rep] typ] o] _. unfold top_stub.
  destruct (PyStr.startswith "__" name); [constructor|].
  destruct (classify typ) eqn:Hc;
    try (eapply Forall_impl;
         [apply (leaf_stub_indent EmptyString (name, rep, typ, o))|];
         naive_solver).
  constructor; [by left|].
  eapply Forall_impl; [apply flat_walk_indent|]. naive_solver.
Qed.

(** *** Reading the attributes *)

Lemma attribs_loop_omap obj names :
  attribs_loop rt obj names = (omap (readable rt obj) names, omap (unreadable rt obj) names).
Proof.
  induction names as [|name names IH]; simpl; [done|].
  rewrite IH. unfold readable, unreadable.
  by destruct (read_attr rt obj name).
Qed.

Lemma read_attr_name obj name it :
  read_attr rt obj name = Value it -> item_name it = name.
Proof.
  unfold read_attr. destruct (py_getattr rt obj name); [|done].
  destruct (py_repr rt val); [|done]. by intros [= <-].
Qed.

Lemma elem_of_result obj it :
  it ∈ (get_obj_attributes rt obj).1 <->
  exists name, name ∈ py_dir rt obj /\ read_attr rt obj name = Value it.
Proof.
  unfold get_obj_attributes. rewrite attribs_loop_omap. simpl.
  rewrite list_elem_of_omap. unfold readable. split.
  - intros (name & Hin & H). exists name. split; [done|].
    by destruct (read_attr rt obj name); simplify_eq.
  - intros (name & Hin & H). exists name. by rewrite H.
Qed.

Lemma elem_of_errors obj msg :
  msg ∈ (get_obj_attributes rt obj).2 <->
  exists name e, name ∈ py_dir rt obj /\ read_attr rt obj name = Raises e
                 /\ msg = attr_error rt name obj e.
Proof.
  unfold get_obj_attributes. rewrite attribs_loop_omap. simpl.
  rewrite list_elem_of_omap. unfold unreadable. split.
  - intros (name & Hin & H). exists name.
    destruct (read_attr rt obj name) as [|e]; simplify_eq. by exists e.
  - intros (name & e & Hin & H & ->). exists name. by rewrite H.
Qed.

Lemma result_errors_length obj :
  length (get_obj_attributes rt obj).1 + length (get_obj_attributes rt obj).2
  = length (py_dir rt obj).
Proof.
  unfold get_obj_attributes. rewrite attribs_loop_omap. simpl.
  induction (py_dir rt obj) as [|name names IH]; csimpl; [done|].
  unfold readable at 1, unreadable at 1.
  destruct (read_attr rt obj name); csimpl; simpl in *; lia.
Qed.

(** *** Sorting by name *)

Global Instance by_name_trans : Transitive (by_name (Obj:=Obj)).
Proof. intros a b c. unfold by_name. apply PyStrFacts.le_trans. Qed.

Global Instance by_name_total : Total (by_name (Obj:=Obj)).
Proof. intros a b. unfold by_name. apply PyStrFacts.le_total. Qed.

Lemma sorted_items_perm items : sorted_items items ≡ₚ items.
Proof. apply merge_sort_Permutation. Qed.

Lemma sorted_items_sorted items :
  StronglySorted by_name (sorted_items items).
Proof. apply StronglySorted_merge_sort; apply _. Qed.

Lemma sorted_items_names items :
  StronglySorted PyStr.le (item_name <$> sorted_items items).
Proof.
  apply (StronglySorted_fmap _ by_name PyStr.le); [done|apply sorted_items_sorted].
Qed.

(** *** The fragments of an object come out in the order of its names *)

Lemma own_names_app indent frs1 frs2 :
  own_names indent (frs1 ++ frs2)
  = (own_names indent frs1 ++ own_names indent frs2)%list.
Proof. unfold own_names. by rewrite filter_app, fmap_app. Qed.

Lemma own_names_concat (g : item -> list fragment) indent items n :
  (forall it, own_names indent (g it) = []
              \/ own_names indent (g it) = [item_name it]) ->
  n ∈ own_names indent (List.concat (g <$> items)) ->
  exists it, it ∈ items /\ n = item_name it.
Proof.
  intros Hg. induction items as [|x l IH]; csimpl.
  { unfold own_names. rewrite filter_nil. csimpl. by intros ?%elem_of_nil. }
  rewrite own_names_app, elem_of_app. intros [Hn|Hn].
  - exists x. split; [left|].
    destruct (Hg x) as [E|E]; rewrite E in Hn.
    + by apply elem_of_nil in Hn.
    + by apply list_elem_of_singleton in Hn.
  - destruct (IH Hn) as (it & ? & ?). exists it. split; [by right|done].
Qed.

Lemma own_names_sorted (g : item -> list fragment) indent items :
  (forall it, own_names indent (g it) = []
              \/ own_names indent (g it) = [item_name it]) ->
  StronglySorted PyStr.le
    (own_names indent (List.concat (g <$> sorted_items items))).
Proof.
  intros Hg. pose proof (sorted_items_sorted items) as Hs.
  induction Hs as [|x l Hl IH Hx]; csimpl.
  { unfold own_names. rewrite filter_nil. constructor. }
  rewrite own_names_app. destruct (Hg x) as [E|E]; rewrite E; [done|].
  simpl. constructor; [done|].
  apply Forall_forall. intros n Hn.
  destruct (own_names_concat g indent l n Hg Hn) as (it & Hit & ->).
  rewrite Forall_forall in Hx. by apply Hx.
Qed.

Lemma own_names_leaf indent it :
  own_names indent (leaf_stub indent it) = []
  \/ own_names indent (leaf_stub indent it) = [item_name it].
Proof.
  destruct it as [[[name rep] typ] obj]. unfold leaf_stub, own_names.
  destruct (PyStr.startswith "__" name); [by left|].
  right. destruct (classify typ);
    rewrite filter_cons_True by done; by rewrite filter_nil.
Qed.

Lemma own_names_deeper indent indent' frs :
  indent <> indent' ->
  Forall (fun f => frag_indent f = indent') frs -> own_names indent frs = [].
Proof.
  intros Hne H. unfold own_names.
  induction H as [|f frs Hf _ IH]; [done|].
  rewrite filter_cons_False by congruence. done.
Qed.

Lemma own_names_top self it :
  own_names EmptyString (top_stub rt self it) = []
  \/ own_names EmptyString (top_stub rt self it) = [item_name it].
Proof.
  destruct it as [[[name rep] typ] obj]. unfold top_stub.
  destruct (PyStr.startswith "__" name) eqn:Hd; [by left|].
  pose proof (own_names_leaf EmptyString (name, rep, typ, obj)) as Hleaf.
  destruct (classify typ); try done.
  right. change (FClass EmptyString name :: flat_walk rt self obj "    ")
    with ([FClass EmptyString name] ++ flat_walk rt self obj "    ")%list.
  rewrite own_names_app,
    (own_names_deeper _ "    " (flat_walk rt self obj "    ")); [|done|].
  - unfold own_names. by rewrite filter_cons_True by done.
  - eapply Forall_impl; [apply flat_walk_indent|]. naive_solver.
Qed.

Lemma flat_walk_sorted self obj indent :
  StronglySorted PyStr.le (own_names indent (flat_walk rt self obj indent)).
Proof.
  unfold flat_walk. destruct (in_problematic rt self obj).
  { unfold own_names. rewrite filter_nil. constructor. }
  apply own_names_sorted, own_names_leaf.
Qed.

Lemma top_walk_sorted self obj :
  StronglySorted PyStr.le (own_names EmptyString (top_walk rt self obj)).
Proof.
  unfold top_walk. destruct (in_problematic rt self obj).
  { unfold own_names. rewrite filter_nil. constructor. }
  apply own_names_sorted, own_names_top.
Qed.

(** With fuel for two nested calls every call returns. *)
Lemma walk_total fuel self obj obj_name indent :
  write_object_stub rt (S (S fuel)) self obj obj_name indent
  = Some (if bool_decide (indent = EmptyString) then top_walk rt self obj
          else flat_walk rt self obj indent).
Proof.
  case_bool_decide as Hi.
  - subst. apply fuel_two_suffices.
  - by apply walk_deeper.
Qed.

End WalkerFacts.

Section EnumerationOrder.
Context {Obj : Type} (rt rt' : Runtime Obj) (Hsame : same_members rt rt').

Lemma read_attr_same obj name : read_attr rt obj name = read_attr rt' obj name.
Proof.
  destruct Hsame as (_ & Hget & Hrepr & Htag & _).
  unfold read_attr. rewrite Hget.
  destruct (py_getattr rt' obj name) as [val|]; [|done].
  by rewrite Hrepr, Htag.
Qed.

Lemma items_same obj :
  (get_obj_attributes rt obj).1 ≡ₚ (get_obj_attributes rt' obj).1.
Proof.
  unfold get_obj_attributes. rewrite !attribs_loop_omap. simpl.
  destruct Hsame as (Hdir & _). rewrite (Hdir obj).
  induction (py_dir rt' obj) as [|name names IH]; csimpl; [done|].
  assert (readable rt obj name = readable rt' obj name) as ->.
  { unfold readable. by rewrite read_attr_same. }
  destruct (readable rt' obj name); [by apply Permutation_skip|done].
Qed.

Lemma sorted_items_same obj :
  sorted_items (get_obj_attributes rt obj).1
  = sorted_items (get_obj_attributes rt' obj).1.
Proof.
  apply (StronglySorted_unique_strong by_name).
  - intros x1 x2 H1 H2 H12 H21.
    unfold sorted_items in H1, H2.
    rewrite merge_sort_Permutation in H1. rewrite merge_sort_Permutation in H2.
    apply elem_of_result in H1 as (n1 & _ & E1).
    apply elem_of_result in H2 as (n2 & _ & E2).
    assert (n1 = n2) as ->.
    { rewrite <-(read_attr_name _ _ _ _ E1), <-(read_attr_name _ _ _ _ E2).
      by apply (anti_symm PyStr.le). }
    rewrite read_attr_same in E1. congruence.
  - apply sorted_items_sorted.
  - apply sorted_items_sorted.
  - rewrite !sorted_items_perm. apply items_same.
Qed.

Lemma in_problematic_same self obj :
  in_problematic rt self obj = in_problematic rt' self obj.
Proof.
  destruct Hsame as (_ & _ & _ & _ & _ & Heq). unfold in_problematic.
  induction (problematic self) as [|s l IH]; simpl; [done|].
  by rewrite Heq, IH.
Qed.

Lemma walk_same fuel self obj obj_name indent :
  write_object_stub rt fuel self obj obj_name indent
  = write_object_stub rt' fuel self obj obj_name indent.
Proof.
  revert obj obj_name indent.
  induction fuel as [|fuel IH]; intros obj obj_name indent; simpl; [done|].
  rewrite in_problematic_same.
  destruct (in_problematic rt' self obj); [done|].
  pose proof (sorted_items_same obj) as Hs.
  destruct (get_obj_attributes rt obj) as [items errors].
  destruct (get_obj_attributes rt' obj) as [items' errors'].
  simpl in Hs. rewrite Hs. f_equal.
  apply mapM_ext. intros [[[name rep] typ] o]. unfold stub_member.
  by rewrite IH.
Qed.

End EnumerationOrder.

(** ** Claims about the walker *)

Section WalkerClaims.
Context {Obj : Type} (rt : Runtime Obj).

(** C1.  A member classified CompositeType is recursed into only when the
    indentation argument is the empty (top) indent, and then with the
    indent one unit deeper.  At any deeper indent the loop body writes
    [name = None] for it whatever the recursive call would do, so the call
    needs no nested call at all and writes no class header.  A walk from
    the top therefore returns with two nested calls, however deep or
    cyclic the live object graph is, and every fragment it writes is at
    the top indent or is a non-class fragment one unit deeper. *)
Theorem composite_recursion_top_only (self : Stubber) (fuel : nat)
    (obj : Obj) (obj_name indent : string) :
  indent <> EmptyString ->
  (forall self_call name rep (o : Obj),
      PyStr.startswith "__" name = false ->
      stub_member self_call obj_name EmptyString (name, rep, type_tag, o)
      = cons (FClass EmptyString name) <$>
          self_call o (obj_name ++ "." ++ name) "    ")
  /\ (forall self_call name rep (o : Obj),
      PyStr.startswith "__" name = false ->
      stub_member self_call obj_name indent (name, rep, type_tag, o)
      = Some [FNone indent name])
  /\ write_object_stub rt (S fuel) self obj obj_name indent
     = Some (flat_walk rt self obj indent)
  /\ Forall (fun f => is_class f = false /\ frag_indent f = indent)
       (flat_walk rt self obj indent)
  /\ exists frs,
       write_object_stub rt (S (S fuel)) self obj obj_name EmptyString
       = Some frs
       /\ Forall (fun f => frag_indent f = EmptyString
                           \/ (frag_indent f = "    " /\ is_class f = false))
            frs.
Proof.
  intros Hi. repeat split.
  - intros self_call name rep o Hd. unfold stub_member. rewrite Hd. done.
  - intros self_call name rep o Hd.
    rewrite stub_member_leaf by done. unfold leaf_stub. rewrite Hd.
    by rewrite (proj2 (classify_composite type_tag) eq_refl).
  - by apply walk_deeper.
  - apply flat_walk_indent.
  - exists (top_walk rt self obj). split.
    + apply fuel_two_suffices.
    + apply top_walk_indent.
Qed.

(** C2.  The textual type tag puts every member in exactly one of the four
    categories: Callable for the two callable tags, PrimitiveLiteral for
    the three literal tags, CompositeType for the type tag and Opaque for
    every other tag.  The dispatch of the walker follows that category
    and always returns: an Opaque member, and a CompositeType member below
    the top indent, is written as [name = None]. *)
Theorem classification_total (self : Stubber) (fuel : nat)
    (obj_name indent name rep typ : string) (obj : Obj) :
  (classify typ = Callable <-> typ ∈ callable_tags)
  /\ (classify typ = PrimitiveLiteral <-> typ ∈ literal_tags)
  /\ (classify typ = CompositeType <-> typ = type_tag)
  /\ (classify typ = Opaque <->
      ((typ ∉ callable_tags) /\ (typ ∉ literal_tags) /\ typ <> type_tag))
  /\ stub_member (write_object_stub rt (S fuel) self) obj_name indent
       (name, rep, typ, obj)
     = Some (if PyStr.startswith "__" name then []
             else match classify typ with
                  | Callable => [FDef indent name]
                  | PrimitiveLiteral => [FAssign indent name rep]
                  | CompositeType =>
                      if bool_decide (indent = EmptyString) then
                        FClass indent name :: flat_walk rt self obj "    "
                      else [FNone indent name]
                  | Opaque => [FNone indent name]
                  end)
  /\ render (FNone indent name) = indent ++ name ++ " = None" ++ PyStr.nl.
Proof.
  split; [apply classify_callable|].
  split; [apply classify_literal|].
  split; [apply classify_composite|].
  split; [apply classify_opaque|].
  split; [|done].
  rewrite stub_member_classify.
  destruct (PyStr.startswith "__" name); [done|].
  destruct (classify typ); try done.
  case_bool_decide; [|done]. subst. by rewrite walk_deeper.
Qed.

(** C4.  When reading one attribute raises, the failure goes into the
    error list of the object and the loop goes on: every attribute that
    can be read still has its member record in the result, each name of
    [dir] ends in exactly one of the two lists, and the walk still returns
    and writes the fragment of every readable sibling that is not a
    double-underscore name. *)
Theorem unreadable_attribute_isolated (self : Stubber) (fuel : nat)
    (obj : Obj) (obj_name indent name : string) (it : item) :
  name ∈ py_dir rt obj ->
  read_attr rt obj name = Value it ->
  it ∈ (get_obj_attributes rt obj).1
  /\ (forall bad e, bad ∈ py_dir rt obj -> read_attr rt obj bad = Raises e ->
        attr_error rt bad obj e ∈ (get_obj_attributes rt obj).2)
  /\ length (get_obj_attributes rt obj).1
     + length (get_obj_attributes rt obj).2 = length (py_dir rt obj)
  /\ (in_problematic rt self obj = false ->
      PyStr.startswith "__" name = false ->
      exists frs,
        write_object_stub rt (S (S fuel)) self obj obj_name indent = Some frs
        /\ exists f, f ∈ frs /\ frag_name f = name /\ frag_indent f = indent).
Proof.
  intros Hin Hread.
  assert (it ∈ (get_obj_attributes rt obj).1) as Hit.
  { apply elem_of_result. eauto. }
  split; [done|]. split.
  { intros bad e Hbad He. apply elem_of_errors. eauto. }
  split; [apply result_errors_length|].
  intros Hp Hd. rewrite walk_total. eexists. split; [done|].
  pose proof (read_attr_name _ _ _ _ Hread) as Hname.
  assert (it ∈ sorted_items (get_obj_attributes rt obj).1) as Hs.
  { by rewrite sorted_items_perm. }
  destruct it as [[[n rep] typ] o]. unfold item_name in Hname.
  simpl in Hname. subst n.
  case_bool_decide as Hi.
  - subst indent. unfold top_walk. rewrite Hp.
    destruct (classify typ) eqn:Hc.
    1,2,4: (eexists; split;
      [eapply elem_of_concat_fmap; [exact Hs|];
       unfold top_stub, leaf_stub; rewrite Hd, Hc; left|done]).
    exists (FClass EmptyString name). split; [|done].
    eapply elem_of_concat_fmap; [exact Hs|].
    unfold top_stub. rewrite Hd, Hc. left.
  - unfold flat_walk. rewrite Hp.
    destruct (classify typ) eqn:Hc;
      (eexists; split;
       [eapply elem_of_concat_fmap; [exact Hs|];
        unfold leaf_stub; rewrite Hd, Hc; left|done]).
Qed.

End WalkerClaims.

(** C3.  The walker writes the fragments of an object in ascending order of
    member name, whatever order [dir] lists the names in: the member records
    are processed in sorted order, the fragments of the object itself come
    out in that order, and two interpreters that expose the same members and
    enumerate them differently give the same sequence of fragments. *)
Theorem walk_order_deterministic {Obj : Type} (rt rt' : Runtime Obj)
    (self : Stubber) (fuel : nat) (obj : Obj) (obj_name indent : string) :
  same_members rt rt' ->
  write_object_stub rt fuel self obj obj_name indent
  = write_object_stub rt' fuel self obj obj_name indent
  /\ StronglySorted PyStr.le
       (item_name <$> sorted_items (get_obj_attributes rt obj).1)
  /\ exists frs,
       write_object_stub rt (S (S fuel)) self obj obj_name indent = Some frs
       /\ StronglySorted PyStr.le (own_names indent frs).
Proof.
  intros Hsame. split; [by apply walk_same|].
  split; [apply sorted_items_names|].
  rewrite walk_total. eexists. split; [done|].
  case_bool_decide as Hi.
  - subst. apply top_walk_sorted.
  - apply flat_walk_sorted.
Qed.

(** C8, evaluated on the code.  The walker tests [object_expr in
    self.problematic], the object itself against the block-list, and never
    looks at [obj_name]: a module object walked under the block-listed name
    [upysh] is enumerated and stubbed in full. *)
Theorem problematic_name_not_checked :
  "upysh" ∈ problematic Sample.stubber
  /\ write_object_stub Sample.rt 2 Sample.stubber 0 "upysh" EmptyString
     = Some [FClass EmptyString "Inner"; FNone "    " "Deep";
             FAssign "    " "n" "1"; FAssign EmptyString "NAME" "'x'";
             FDef EmptyString "f"; FNone EmptyString "obj"].
Proof. split; [|by vm_compute]. unfold Sample.stubber, problematic0. simpl. left. Qed.

Lemma composite_recursion_top_only_witness :
  "    " <> EmptyString
  /\ write_object_stub Sample.rt 1 Sample.stubber 6 "sample_mod.Inner.Deep" "    "
     = Some (flat_walk Sample.rt Sample.stubber 6 "    ").
Proof.
  split; [discriminate|].
  apply (composite_recursion_top_only Sample.rt Sample.stubber 0 6
           "sample_mod.Inner.Deep" "    ").
  discriminate.
Defined.

Lemma unreadable_attribute_isolated_witness :
  "f" ∈ py_dir Sample.rt 0
  /\ read_attr Sample.rt 0 "f" = Value ("f", "<function f>", "<class 'function'>", 1)
  /\ ("f", "<function f>", "<class 'function'>", 1)
       ∈ (get_obj_attributes Sample.rt 0).1.
Proof.
  assert ("f" ∈ py_dir Sample.rt 0) as Hin by (simpl; left).
  assert (read_attr Sample.rt 0 "f"
          = Value ("f", "<function f>", "<class 'function'>", 1)) as Hread
    by reflexivity.
  split; [exact Hin|]. split; [exact Hread|].
  exact (proj1 (unreadable_attribute_isolated Sample.rt Sample.stubber 0 0
                  "sample_mod" EmptyString "f" _ Hin Hread)).
Defined.

Lemma sample_same_members : same_members Sample.rt Sample.rt_rev.
Proof.
  unfold same_members. simpl. repeat split; try done.
  intros o. apply Permutation_rev.
Defined.

Lemma walk_order_deterministic_witness :
  same_members Sample.rt Sample.rt_rev
  /\ write_object_stub Sample.rt 2 Sample.stubber 0 "sample_mod" EmptyString
     = write_object_stub Sample.rt_rev 2 Sample.stubber 0 "sample_mod" EmptyString.
Proof.
  split; [exact sample_same_members|].
  apply (walk_order_deterministic Sample.rt Sample.rt_rev Sample.stubber 2 0
           "sample_mod" EmptyString sample_same_members).
Defined.

(** ** The device *)

Section DeviceFacts.
Context {Obj : Type} (rt : Runtime Obj) (fw : Firmware Obj).
Implicit Types (st : state Obj).

Lemma os_stat_state p st : (os_stat fw p st).2 = st.
Proof.
  unfold os_stat. destruct (fw_stat_fault fw p); [done|].
  by destruct (path_exists st.2 p).
Qed.

Lemma os_mkdir_frame p st :
  outside_dirs st (os_mkdir fw p st).2.
Proof.
  unfold os_mkdir, outside_dirs. destruct (fw_mkdir_fault fw p); [done|].
  by destruct (path_exists st.2 p).
Qed.

Lemma outside_dirs_refl st : outside_dirs st st.
Proof. done. Qed.

Lemma outside_dirs_trans st1 st2 st3 :
  outside_dirs st1 st2 -> outside_dirs st2 st3 -> outside_dirs st1 st3.
Proof. unfold outside_dirs. naive_solver congruence. Qed.

Lemma ensure_dir_frame p st : outside_dirs st (ensure_dir fw p st).2.
Proof.
  unfold ensure_dir, try_except.
  pose proof (os_stat_state p st) as Hs.
  destruct (os_stat fw p st) as [[[]|e] st']; simpl in Hs; subst st'; [done|].
  destruct e; try done.
  destruct (Z.eqb errno ENOENT); [apply os_mkdir_frame|done].
Qed.

Lemma ensure_from_frame pre rest st :
  outside_dirs st (ensure_from fw pre rest st).2.
Proof.
  revert pre st. induction rest as [|c rest IH]; intros pre st; simpl; [done|].
  run_M. destruct (Ascii.eqb c "/").
  - pose proof (ensure_dir_frame
                  match pre with EmptyString => String c EmptyString | _ => pre end
                  st) as Hd.
    destruct (ensure_dir fw _ st) as [[[]|e] st']; simpl in *; [|done].
    eapply outside_dirs_trans; [exact Hd|apply IH].
  - apply IH.
Qed.

Lemma ensure_folder_frame file_name st :
  outside_dirs st (ensure_folder fw file_name st).2.
Proof. destruct file_name; [apply ensure_from_frame|done]. Qed.

End DeviceFacts.

Section LifecycleFacts.
Context {Obj : Type} (rt : Runtime Obj) (fw : Firmware Obj).
Implicit Types (st : state Obj).

Lemma import_or_return_fails name st :
  fw_import fw name = ImportFails ->
  import_or_return fw name st = (Ok None, st).
Proof. intros H. unfold import_or_return, py_import. run_M. by rewrite H. Qed.

Lemma import_or_return_crashes name e st :
  fw_import fw name = ImportCrashes e -> e <> ImportError ->
  import_or_return fw name st = (Raise NameError, st).
Proof.
  intros H He. unfold import_or_return, py_import. run_M. rewrite H.
  by destruct e.
Qed.

Lemma import_or_return_imported name m st :
  fw_import fw name = Imported m ->
  import_or_return fw name st
  = (Ok (Some m),
     (st.1, {| sys_modules := <[ name := m ]> (sys_modules st.2);
               dirs := dirs st.2; files := files st.2;
               mem_queries := mem_queries st.2 |})).
Proof. intros H. unfold import_or_return, py_import. run_M. by rewrite H. Qed.

(** C5.  When the import of a module raises ImportError, the operation of
    either variant creates no file and adds nothing to the report.  It
    returns without raising, with one exception: for a name with a path
    separator (that is not internal or problematic) the folder of
    [file_name] is made before the import, and the call ends the way
    [ensure_folder(file_name)] ends, so what that raises is raised. *)
Theorem absent_module_no_stub (st : state Obj) (module_name : string)
    (file_name : option string) :
  fw_import fw (if PyStr.has_char "/"%char module_name
                then PyStr.replace "/"%char "."%char module_name
                else module_name) = ImportFails ->
  files (Full.dump_module_stub rt fw module_name file_name st).2.2
  = files st.2
  /\ _report (Full.dump_module_stub rt fw module_name file_name st).2.1
     = _report st.1
  /\ files (Min.create_module_stub rt fw module_name file_name st).2.2
     = files st.2
  /\ _report (Min.create_module_stub rt fw module_name file_name st).2.1
     = _report st.1
  /\ (Full.dump_module_stub rt fw module_name file_name st).1
     = (if PyStr.has_char "/"%char module_name
           && negb (is_internal module_name
                    || bool_decide (module_name ∈ problematic st.1))
        then (ensure_folder fw file_name st).1 else Ok tt)
  /\ (Min.create_module_stub rt fw module_name file_name st).1
     = (if PyStr.has_char "/"%char module_name
           && negb (is_internal module_name
                    || bool_decide (module_name ∈ problematic st.1))
        then (ensure_folder fw file_name st).1 else Ok tt).
Proof.
  intros Himp.
  unfold Full.dump_module_stub, Min.create_module_stub.
  destruct (is_internal module_name); [by rewrite andb_false_r|]. run_M.
  destruct (bool_decide (module_name ∈ problematic st.1));
    [by rewrite andb_false_r|].
  destruct (PyStr.has_char "/" module_name) eqn:Hn; simpl.
  - pose proof (ensure_folder_frame fw file_name st) as (H1 & _ & H3 & _).
    destruct (ensure_folder fw file_name st) as [[[]|e] st'];
      simpl in *; rewrite ?H1, ?H3.
    + destruct (include_nested st.1); simpl;
        rewrite ?(import_or_return_fails _ _ Himp); simpl;
        rewrite ?H1, ?H3; done.
    + done.
  - rewrite (import_or_return_fails _ _ Himp). done.
Qed.

Lemma for_each_write file_name (frs : list fragment) st :
  for_each frs (fun f => fp_write file_name (render f)) st
  = (Ok tt,
     (st.1, {| sys_modules := sys_modules st.2; dirs := dirs st.2;
               files := write_all file_name frs (files st.2);
               mem_queries := mem_queries st.2 |})).
Proof.
  revert st. induction frs as [|f frs IH]; intros [self [sm ds fs mq]].
  { done. }
  simpl. run_M. unfold fp_write, modify_world. simpl. by rewrite IH.
Qed.

Lemma walk_module_spec file_name new_module module_name st :
  walk_module rt file_name new_module module_name st
  = (Ok tt,
     (st.1, {| sys_modules := sys_modules st.2; dirs := dirs st.2;
               files := write_all file_name
                          (top_walk rt st.1 new_module) (files st.2);
               mem_queries := mem_queries st.2 |})).
Proof.
  unfold walk_module, mbind, M_bind, get_self. cbv beta iota.
  rewrite fuel_two_suffices. apply for_each_write.
Qed.



#[local] Arguments walk_module : simpl never.
#[local] Arguments header : simpl never.

(** The full variant never takes a module out of the cache. *)
Lemma full_keeps_cache st module_name file_name k :
  is_Some (sys_modules st.2 !! k) ->
  is_Some (sys_modules
             (Full.dump_module_stub rt fw module_name file_name st).2.2 !! k).
Proof.
  intros Hk. unfold Full.dump_module_stub.
  destruct (is_internal module_name); [done|]. run_M.
  destruct (bool_decide (module_name ∈ problematic st.1)); [done|].
  destruct (PyStr.has_char "/" module_name).
  { pose proof (ensure_folder_frame fw file_name st) as (_ & H2 & _).
    by rewrite H2. }
  unfold import_or_return, py_import. run_M.
  destruct (fw_import fw module_name) as [m| |e]; simpl; [|done|by destruct e].
  assert (is_Some (<[module_name:=m]> (sys_modules st.2) !! k)) as Hk'.
  { rewrite lookup_insert. case_decide; [by eexists|done]. }
  unfold py_open. simpl. destruct (fw_open_fault fw _); simpl; [done|].
  unfold fp_write. run_M.
  destruct (bool_decide (module_name ∉ excluded st.1)); simpl; [|done].
  rewrite walk_module_spec. simpl. done.
Qed.

(** X12.  The constrained variant evicts: after a stub that succeeded (the
    report grew), a module that is not one of os, sys, logging, gc is gone
    from the cache, whatever the cache held before. *)
Lemma min_evicts st module_name file_name :
  let imported_as := if PyStr.has_char "/"%char module_name
                     then PyStr.replace "/"%char "."%char module_name
                     else module_name in
  imported_as ∉ keep_loaded ->
  _report (Min.create_module_stub rt fw module_name file_name st).2.1
    <> _report st.1 ->
  sys_modules (Min.create_module_stub rt fw module_name file_name st).2.2
    !! imported_as = None.
Proof.
  intros imported_as Hkeep. unfold Min.create_module_stub.
  destruct (is_internal module_name); [done|]. run_M.
  destruct (bool_decide (module_name ∈ problematic st.1)); [done|].
  fold imported_as.
  destruct (PyStr.has_char "/" module_name) eqn:Hn; simpl.
  - pose proof (ensure_folder_frame fw file_name st) as (H1 & _).
    destruct (ensure_folder fw file_name st) as [[[]|e] st1]; simpl in *;
      [|by rewrite H1].
    destruct (include_nested st.1); simpl; [|by rewrite H1].
    unfold import_or_return, py_import. run_M.
    destruct (fw_import fw imported_as) as [m| |e]; simpl;
      [|by rewrite H1|destruct e; simpl; by rewrite H1].
    unfold py_open. simpl.
    destruct (fw_open_fault fw _); simpl; [by rewrite H1|].
    unfold fp_write. run_M. rewrite walk_module_spec. simpl.
    rewrite bool_decide_eq_true_2 by done. simpl. intros _.
    apply lookup_delete_eq.
  - unfold import_or_return, py_import. run_M.
    destruct (fw_import fw imported_as) as [m| |e]; simpl;
      [|done|by destruct e].
    unfold py_open. simpl.
    destruct (fw_open_fault fw _); simpl; [done|].
    unfold fp_write. run_M. rewrite walk_module_spec. simpl.
    rewrite bool_decide_eq_true_2 by done. simpl. intros _.
    apply lookup_delete_eq.
Qed.

Lemma stub_step_excluded_state (rt0 : Runtime Obj) (fw0 : Firmware Obj)
    st module_name :
  module_name ∈ excluded st.1 ->
  Min.stub_step rt0 fw0 module_name st
  = if include_nested st.1 then
      (Ok tt,
       (set_include_nested (3200 <? fw_mem_free fw0 (mem_queries st.2))%Z st.1,
        {| sys_modules := sys_modules st.2; dirs := dirs st.2;
           files := files st.2; mem_queries := S (mem_queries st.2) |}))
    else (Ok tt, st).
Proof.
  intros Hex. unfold Min.stub_step. run_M.
  destruct (include_nested st.1); simpl.
  - destruct (is_internal module_name); [done|].
    destruct (bool_decide (module_name ∈ problematic st.1)); [done|].
    by rewrite bool_decide_eq_true_2.
  - destruct (is_internal module_name); [by destruct st|].
    destruct (bool_decide (module_name ∈ problematic st.1)); [by destruct st|].
    rewrite bool_decide_eq_true_2 by done. by destruct st.
Qed.

(** *** The constrained variant under low memory *)

(** [create_module_stub] changes nothing of [self] but the report. *)
Lemma create_module_stub_self st module_name file_name :
  exists r,
    (Min.create_module_stub rt fw module_name file_name st).2.1
    = set_report r st.1.
Proof.
  assert (st.1 = set_report (_report st.1) st.1) as Hid by by destruct st as [[]].
  unfold Min.create_module_stub.
  destruct (is_internal module_name); [by eexists|]. run_M.
  destruct (bool_decide (module_name ∈ problematic st.1)); [by eexists|].
  destruct (PyStr.has_char "/" module_name) eqn:Hn; simpl.
  - pose proof (ensure_folder_frame fw file_name st) as (H1 & _).
    destruct (ensure_folder fw file_name st) as [[[]|e] st1]; simpl in *;
      [|rewrite H1; by eexists].
    destruct (include_nested st.1); simpl; [|rewrite H1; by eexists].
    unfold import_or_return, py_import. run_M.
    destruct (fw_import fw _) as [m| |e]; simpl;
      [|rewrite H1; by eexists|destruct e; simpl; rewrite H1; by eexists].
    unfold py_open. simpl.
    destruct (fw_open_fault fw _); simpl; [rewrite H1; by eexists|].
    unfold fp_write. run_M. rewrite walk_module_spec. simpl. rewrite H1.
    destruct (bool_decide _); simpl; by eexists.
  - unfold import_or_return, py_import. run_M.
    destruct (fw_import fw _) as [m| |e]; simpl;
      [|by eexists|destruct e; simpl; by eexists].
    unfold py_open. simpl.
    destruct (fw_open_fault fw _); simpl; [by eexists|].
    unfold fp_write. run_M. rewrite walk_module_spec. simpl.
    destruct (bool_decide _); simpl; by eexists.
Qed.

(** A step of the loop always returns: whatever the stub of the module
    raises is caught. *)
Lemma stub_step_ok module_name st :
  (Min.stub_step rt fw module_name st).1 = Ok tt.
Proof.
  unfold Min.stub_step. run_M. unfold gc_mem_free. simpl.
  destruct (include_nested st.1); simpl;
    (destruct (is_internal module_name); [done|];
     destruct (bool_decide (module_name ∈ problematic st.1)); [done|];
     destruct (bool_decide (module_name ∈ excluded st.1)); [done|]);
    match goal with
    | |- context [Min.create_module_stub ?a ?b ?c ?d ?e] =>
        destruct (Min.create_module_stub a b c d e) as [[[]|?] ?]
    end; done.
Qed.

(** Once [include_nested] is off it stays off. *)
Lemma stub_step_latch module_name st :
  include_nested st.1 = false ->
  include_nested (Min.stub_step rt fw module_name st).2.1 = false.
Proof.
  intros Hoff. unfold Min.stub_step. run_M. unfold gc_mem_free. simpl.
  rewrite Hoff. simpl.
  destruct (is_internal module_name); [done|].
  destruct (bool_decide (module_name ∈ problematic st.1)); [done|].
  destruct (bool_decide (module_name ∈ excluded st.1)); [done|].
  match goal with
  | |- context [Min.create_module_stub ?a ?b ?c ?d ?e] =>
      destruct (create_module_stub_self e c d) as [r Hr];
      destruct (Min.create_module_stub a b c d e) as [[[]|?] [self' w']]
  end; simpl in *; subst self'; done.
Qed.

Lemma for_each_stub_step ms st :
  (for_each ms (Min.stub_step rt fw) st).1 = Ok tt
  /\ (include_nested st.1 = false ->
      include_nested (for_each ms (Min.stub_step rt fw) st).2.1 = false).
Proof.
  revert st. induction ms as [|m ms IH]; intros st; simpl; [done|].
  run_M. pose proof (stub_step_ok m st) as Hok.
  pose proof (stub_step_latch m st) as Hlatch.
  destruct (Min.stub_step rt fw m st) as [[[]|e] st1]; simpl in *; [|done].
  destruct (IH st1) as [H1 H2]. split; [done|]. intros H. apply H2, Hlatch, H.
Qed.


Lemma ensure_from_set_import imp pre rest st :
  ensure_from (set_import imp fw) pre rest st = ensure_from fw pre rest st.
Proof.
  revert pre st. induction rest as [|c rest IH]; intros pre st; simpl; [done|].
  run_M. destruct (Ascii.eqb c "/"); [|apply IH].
  change (ensure_dir (set_import imp fw)) with (ensure_dir fw).
  destruct (ensure_dir fw _ st) as [[[]|e] st1]; [apply IH|done].
Qed.



End LifecycleFacts.

(** ** The catalog *)

Section Catalog.
Implicit Types (self : Stubber) (ms : list string) (X : gset string).

Lemma sorted_elements X :
  StronglySorted PyStr.le (merge_sort PyStr.le (elements X))
  /\ NoDup (merge_sort PyStr.le (elements X))
  /\ (forall m, m ∈ merge_sort PyStr.le (elements X) <-> m ∈ X).
Proof.
  split; [apply StronglySorted_merge_sort; apply _|]. split.
  - rewrite merge_sort_Permutation. apply NoDup_elements.
  - intros m. rewrite merge_sort_Permutation. apply elem_of_elements.
Qed.

Lemma sorted_elements_id (l : list string) :
  StronglySorted PyStr.le l -> NoDup l ->
  merge_sort PyStr.le (elements (list_to_set l : gset string)) = l.
Proof.
  intros Hs Hn. apply (StronglySorted_unique PyStr.le); [|done|].
  - apply StronglySorted_merge_sort; apply _.
  - rewrite merge_sort_Permutation. by apply elements_list_to_set.
Qed.

Lemma add_modules_known ms self :
  StronglySorted PyStr.le (modules self) -> NoDup (modules self) ->
  (forall m, m ∈ ms -> m ∈ modules self) ->
  add_modules ms self = self.
Proof.
  intros Hs Hn Hsub. unfold add_modules.
  assert ((list_to_set (modules self) : gset string) ∪ list_to_set ms
          = list_to_set (modules self)) as ->.
  { apply set_eq. intros m. rewrite elem_of_union, !elem_of_list_to_set.
    naive_solver. }
  rewrite sorted_elements_id by done. by destruct self.
Qed.

(** C10.  [add_modules] leaves the catalog in ascending order and without
    duplicates, holding exactly the old names and the added ones.  Calling
    it again with the same names, or with any names the catalog already
    holds, changes nothing, and the order in which the names are given
    does not matter. *)
Theorem add_modules_sorted_idempotent (ms ms' : list string) (self : Stubber) :
  StronglySorted PyStr.le (modules (add_modules ms self))
  /\ NoDup (modules (add_modules ms self))
  /\ (forall m, m ∈ modules (add_modules ms self)
                <-> m ∈ modules self \/ m ∈ ms)
  /\ add_modules ms (add_modules ms self) = add_modules ms self
  /\ ((forall m, m ∈ ms' -> m ∈ modules (add_modules ms self)) ->
      add_modules ms' (add_modules ms self) = add_modules ms self)
  /\ (ms ≡ₚ ms' -> add_modules ms' self = add_modules ms self)
  /\ (ms ≡ₚ ms' ->
      add_modules ms' (add_modules ms self) = add_modules ms self).
Proof.
  pose proof (sorted_elements
                ((list_to_set (modules self) : gset string) ∪ list_to_set ms))
    as (Hs & Hn & Hin).
  assert (forall m, m ∈ modules (add_modules ms self)
                    <-> m ∈ modules self \/ m ∈ ms) as Hmem.
  { intros m. unfold add_modules. simpl. rewrite Hin, elem_of_union.
    by rewrite !elem_of_list_to_set. }
  split; [exact Hs|]. split; [exact Hn|]. split; [exact Hmem|].
  split; [|split; [|split]].
  - apply add_modules_known; [exact Hs|exact Hn|].
    intros m Hm. apply Hmem. by right.
  - intros Hsub. by apply add_modules_known.
  - intros Hp. unfold add_modules.
    by rewrite (list_to_set_perm_L (C:=gset string) _ _ Hp).
  - intros Hp. apply add_modules_known; [exact Hs|exact Hn|].
    intros m Hm. apply Hmem. right. by rewrite Hp.
Qed.

End Catalog.

(** ** The claims on the sample device *)

(** C6, evaluated on the code.  The full variant stubs [sample_mod], which
    is not one of os, sys, logging, gc, and returns with the module in the
    report; the module is still in the module cache afterwards.  Its
    [del new_module] only unbinds a local name.  The constrained variant
    also runs [del sys.modules[module_name]]: on the same input the module is
    gone from the cache. *)
Theorem full_variant_leaves_module_cached :
  (Full.dump_module_stub Sample.rt (SampleDevice.fw SampleDevice.plenty)
     "sample_mod" (Some "/flash/stubs/esp32_1_11_0/sample_mod.py")
     SampleDevice.st0).1 = Ok tt
  /\ _report
       (Full.dump_module_stub Sample.rt (SampleDevice.fw SampleDevice.plenty)
          "sample_mod" (Some "/flash/stubs/esp32_1_11_0/sample_mod.py")
          SampleDevice.st0).2.1
     = [("sample_mod", "/flash/stubs/esp32_1_11_0/sample_mod.py")]
  /\ ("sample_mod" ∉ keep_loaded)
  /\ sys_modules
       (Full.dump_module_stub Sample.rt (SampleDevice.fw SampleDevice.plenty)
          "sample_mod" (Some "/flash/stubs/esp32_1_11_0/sample_mod.py")
          SampleDevice.st0).2.2 !! "sample_mod" = Some 0
  /\ sys_modules
       (Min.create_module_stub Sample.rt (SampleDevice.fw SampleDevice.plenty)
          "sample_mod" (Some "/flash/stubs/esp32_1_11_0/sample_mod.py")
          SampleDevice.st0).2.2 !! "sample_mod" = None.
Proof.
  split; [by vm_compute|]. split; [by vm_compute|]. split; [|split].
  - unfold keep_loaded. rewrite !not_elem_of_cons. repeat split; try done.
    apply not_elem_of_nil.
  - by vm_compute.
  - by vm_compute.
Qed.

Lemma absent_module_no_stub_witness :
  fw_import (SampleDevice.fw SampleDevice.plenty) "umqtt.simple" = ImportFails
  /\ (Min.create_module_stub Sample.rt (SampleDevice.fw SampleDevice.plenty)
        "umqtt/simple" (Some "/flash/stubs/esp32_1_11_0/umqtt/simple.py")
        SampleDevice.st0).1 = Ok tt
  /\ files
       (Min.create_module_stub Sample.rt (SampleDevice.fw SampleDevice.plenty)
          "umqtt/simple" (Some "/flash/stubs/esp32_1_11_0/umqtt/simple.py")
          SampleDevice.st0).2.2 = files SampleDevice.st0.2.
Proof.
  split; [reflexivity|].
  destruct (absent_module_no_stub Sample.rt
              (SampleDevice.fw SampleDevice.plenty) SampleDevice.st0
              "umqtt/simple" (Some "/flash/stubs/esp32_1_11_0/umqtt/simple.py")
              eq_refl) as (_ & _ & Hfiles & _ & _ & Hmin).
  split; [|exact Hfiles]. rewrite Hmin. vm_compute. reflexivity.
Defined.

(** C5 as stated, refuted: [umqtt.simple] is absent from the device, and
    on a read-only flash the stub operation of either variant raises the
    OSError of the [os.mkdir] that [ensure_folder] tried for the folder
    [umqtt]. *)
Lemma absent_nested_module_raises :
  fw_import readonly_fw "umqtt.simple" = ImportFails
  /\ (Full.dump_module_stub Sample.rt readonly_fw "umqtt/simple"
        (Some "/flash/stubs/esp32_1_11_0/umqtt/simple.py") SampleDevice.st0).1
     = Raise (OSError EROFS)
  /\ (Min.create_module_stub Sample.rt readonly_fw "umqtt/simple"
        (Some "/flash/stubs/esp32_1_11_0/umqtt/simple.py") SampleDevice.st0).1
     = Raise (OSError EROFS)
  /\ ~ (forall module_name file_name,
          fw_import readonly_fw
            (if PyStr.has_char "/"%char module_name
             then PyStr.replace "/"%char "."%char module_name
             else module_name) = ImportFails ->
          (Min.create_module_stub Sample.rt readonly_fw module_name file_name
             SampleDevice.st0).1 = Ok tt).
Proof.
  split; [reflexivity|]. split; [by vm_compute|]. split; [by vm_compute|].
  intros H.
  specialize (H "umqtt/simple"
                (Some "/flash/stubs/esp32_1_11_0/umqtt/simple.py") eq_refl).
  vm_compute in H. discriminate.
Qed.

(** * Further properties *)

(** ** [ensure_folder] *)

Lemma str_app_nil_r (s : string) : s ++ EmptyString = s.
Proof.
  induction s as [|c s IH]; [done|].
  change (String c (s ++ EmptyString) = String c s). by rewrite IH.
Qed.

Lemma str_app_assoc (s1 s2 s3 : string) : (s1 ++ s2) ++ s3 = s1 ++ (s2 ++ s3).
Proof.
  induction s1 as [|c s1 IH]; [done|].
  change (String c ((s1 ++ s2) ++ s3) = String c (s1 ++ (s2 ++ s3))).
  by rewrite IH.
Qed.

Section FolderFacts.
Context {Obj : Type} (fw : Firmware Obj).
Implicit Types (st : state Obj) (w : World Obj).

Lemma path_exists_mono w w' p :
  dirs w ⊆ dirs w' -> files w' = files w ->
  path_exists w p = true -> path_exists w' p = true.
Proof.
  unfold path_exists. intros Hd Hf. rewrite Hf.
  rewrite !orb_true_iff, !bool_decide_eq_true. intros [H|H]; [left|right]; auto.
Qed.

Lemma ensure_dir_dirs p st :
  dirs st.2 ⊆ dirs (ensure_dir fw p st).2.2
  /\ (forall d, d ∈ dirs (ensure_dir fw p st).2.2 -> d ∈ dirs st.2 \/ d = p).
Proof.
  unfold ensure_dir, os_stat, os_mkdir. run_M.
  destruct (fw_stat_fault fw p) as [errno|]; simpl.
  - destruct (errno =? ENOENT)%Z; simpl; [|by auto].
    destruct (fw_mkdir_fault fw p); simpl; [by auto|].
    destruct (path_exists st.2 p); simpl; [by auto|].
    split; [set_solver|]. intros d. rewrite elem_of_union, elem_of_singleton. tauto.
  - destruct (path_exists st.2 p) eqn:He; simpl; [by auto|].
    destruct (fw_mkdir_fault fw p); simpl; [by auto|].
    rewrite He. simpl.
    split; [set_solver|]. intros d. rewrite elem_of_union, elem_of_singleton. tauto.
Qed.

Lemma ensure_dir_post p st :
  (ensure_dir fw p st).1 = Ok tt ->
  path_exists (ensure_dir fw p st).2.2 p = true.
Proof.
  unfold ensure_dir, os_stat, os_mkdir. run_M.
  destruct (fw_stat_fault fw p) as [errno|]; simpl.
  - destruct (errno =? ENOENT)%Z; simpl; [|done].
    destruct (fw_mkdir_fault fw p); simpl; [done|].
    destruct (path_exists st.2 p); simpl; [done|].
    intros _. unfold path_exists. simpl.
    rewrite bool_decide_eq_true_2; [done|set_solver].
  - destruct (path_exists st.2 p) eqn:He; simpl; [done|].
    destruct (fw_mkdir_fault fw p); simpl; [done|].
    rewrite He. simpl. intros _. unfold path_exists. simpl.
    rewrite bool_decide_eq_true_2; [done|set_solver].
Qed.

Lemma ensure_from_dirs rest pre st :
  dirs st.2 ⊆ dirs (ensure_from fw pre rest st).2.2
  /\ (forall d, d ∈ dirs (ensure_from fw pre rest st).2.2 ->
        d ∈ dirs st.2
        \/ exists r1 r2, rest = r1 ++ String "/" r2 /\ d = folder_at (pre ++ r1)).
Proof.
  revert pre st. induction rest as [|c rest IH]; intros pre st; simpl.
  { split; [done|]. by left. }
  unfold mbind, M_bind.
  destruct (Ascii.eqb_spec c "/") as [->|Hc].
  - pose proof (ensure_dir_dirs
                  match pre with EmptyString => "/" | String _ _ => pre end st)
      as [Hsub Hnew].
    destruct (ensure_dir fw _ st) as [[[]|e] st1]; simpl in *.
    + destruct (IH (pre ++ "/") st1) as [Hsub' Hnew']. split; [set_solver|].
      intros d Hd. destruct (Hnew' d Hd) as [Hd1|(r1 & r2 & -> & ->)].
      * destruct (Hnew d Hd1) as [Hold| ->]; [by left|]. right.
        exists EmptyString, rest. split; [done|].
        rewrite str_app_nil_r. done. (* folder_at pre *)
      * right. exists (String "/" r1), r2. split; [done|].
        by rewrite str_app_assoc.
    + split; [done|]. intros d Hd.
      destruct (Hnew d Hd) as [Hold| ->]; [by left|]. right.
      exists EmptyString, rest. split; [done|].
      by rewrite str_app_nil_r.
  - unfold mret, M_ret. simpl.
    destruct (IH (pre ++ String c EmptyString) st) as [Hsub' Hnew'].
    split; [done|]. intros d Hd.
    destruct (Hnew' d Hd) as [Hold|(r1 & r2 & -> & ->)]; [by left|]. right.
    exists (String c r1), r2. split; [done|].
    by rewrite str_app_assoc.
Qed.

Lemma ensure_from_post rest pre st :
  (ensure_from fw pre rest st).1 = Ok tt ->
  forall r1 r2, rest = r1 ++ String "/" r2 ->
    path_exists (ensure_from fw pre rest st).2.2 (folder_at (pre ++ r1)) = true.
Proof.
  revert pre st. induction rest as [|c rest IH]; intros pre st; simpl.
  { intros _ [|? ?] ? ?; done. }
  unfold mbind, M_bind. intros Hok r1 r2 Hr.
  assert (forall st1, (ensure_from fw (pre ++ String c EmptyString) rest st1).1 = Ok tt ->
            forall r1', r1 = String c r1' ->
            path_exists (ensure_from fw (pre ++ String c EmptyString) rest st1).2.2
              (folder_at (pre ++ r1)) = true) as Htail.
  { intros st1 Hok1 r1' ->. simpl in Hr. injection Hr as Hr.
    specialize (IH _ _ Hok1 _ _ Hr). by rewrite str_app_assoc in IH. }
  destruct (Ascii.eqb_spec c "/") as [->|Hc].
  - pose proof (ensure_dir_post
                  match pre with EmptyString => "/" | String _ _ => pre end st)
      as Hpost.
    destruct (ensure_dir fw _ st) as [[[]|e] st1]; simpl in *; [|done].
    destruct r1 as [|c1 r1'].
    + rewrite str_app_nil_r.
      pose proof (ensure_from_dirs rest (pre ++ "/") st1) as [Hsub _].
      pose proof (ensure_from_frame fw (pre ++ "/") rest st1) as (_ & _ & Hf & _).
      eapply path_exists_mono; [exact Hsub|exact Hf|]. by apply Hpost.
    + simpl in Hr. injection Hr as Hc1 Hr. subst c1. by eapply Htail.
  - unfold mret, M_ret in *. simpl in *.
    destruct r1 as [|c1 r1']; simpl in Hr; injection Hr as Hc1 Hr; subst; [done|].
    by eapply Htail.
Qed.

Lemma ensure_dir_raises p st e :
  (ensure_dir fw p st).1 = Raise e -> exists errno, e = OSError errno.
Proof.
  unfold ensure_dir, os_stat, os_mkdir. run_M.
  destruct (fw_stat_fault fw p) as [errno|]; simpl.
  - destruct (errno =? ENOENT)%Z; simpl; [|intros [= <-]; by eexists].
    destruct (fw_mkdir_fault fw p); simpl; [intros [= <-]; by eexists|].
    destruct (path_exists st.2 p); simpl; [intros [= <-]; by eexists|done].
  - destruct (path_exists st.2 p) eqn:He; simpl; [done|].
    destruct (fw_mkdir_fault fw p); simpl; [intros [= <-]; by eexists|].
    rewrite He. done.
Qed.

Lemma ensure_from_raises rest pre st e :
  (ensure_from fw pre rest st).1 = Raise e -> exists errno, e = OSError errno.
Proof.
  revert pre st. induction rest as [|c rest IH]; intros pre st; simpl; [done|].
  unfold mbind, M_bind.
  destruct (Ascii.eqb_spec c "/") as [->|Hc].
  - pose proof (ensure_dir_raises
                  match pre with EmptyString => "/" | String _ _ => pre end st)
      as Hr.
    destruct (ensure_dir fw _ st) as [[[]|e'] st1]; simpl in *.
    + apply IH.
    + intros [= <-]. by apply Hr.
  - unfold mret, M_ret. simpl. apply IH.
Qed.

Lemma ensure_from_no_slash rest pre st :
  PyStr.has_char "/" rest = false -> ensure_from fw pre rest st = (Ok tt, st).
Proof.
  revert pre. induction rest as [|c rest IH]; intros pre Hn.
  { reflexivity. }
  change (PyStr.has_char "/" (String c rest))
    with (if Ascii.eqb "/" c then true else PyStr.has_char "/" rest) in Hn.
  destruct (Ascii.eqb_spec "/" c) as [<-|Hc]; [done|]. simpl.
  assert (Ascii.eqb c "/" = false) as -> by (apply Ascii.eqb_neq; congruence).
  unfold mbind, M_bind, mret, M_ret. simpl. by apply IH.
Qed.

Lemma ensure_dir_present p st :
  fw_stat_fault fw p = None -> path_exists st.2 p = true ->
  ensure_dir fw p st = (Ok tt, st).
Proof.
  intros Hf He. unfold ensure_dir, os_stat, try_except. by rewrite Hf, He.
Qed.

Lemma ensure_from_present rest pre st :
  (forall r1 r2, rest = r1 ++ String "/" r2 ->
     fw_stat_fault fw (folder_at (pre ++ r1)) = None
     /\ path_exists st.2 (folder_at (pre ++ r1)) = true) ->
  ensure_from fw pre rest st = (Ok tt, st).
Proof.
  revert pre. induction rest as [|c rest IH]; intros pre Hall; simpl.
  { reflexivity. }
  unfold mbind, M_bind.
  assert (ensure_from fw (pre ++ String c EmptyString) rest st = (Ok tt, st))
    as Htail.
  { apply IH. intros r1 r2 ->.
    rewrite str_app_assoc. by apply (Hall (String c r1) r2). }
  destruct (Ascii.eqb_spec c "/") as [->|Hc].
  - destruct (Hall EmptyString rest eq_refl) as [Hf He].
    rewrite str_app_nil_r in Hf, He. unfold folder_at in Hf, He.
    rewrite (ensure_dir_present _ st Hf He). exact Htail.
  - unfold mret, M_ret. simpl. exact Htail.
Qed.

Lemma path_exists_folder (w : World Obj) (p : string) :
  path_exists w p = true -> files w !! p = None -> p ∈ dirs w.
Proof.
  unfold path_exists. rewrite orb_true_iff, !bool_decide_eq_true.
  intros [Hd|Hf] Hnone; [done|]. rewrite Hnone in Hf. by destruct Hf.
Qed.

(** X1.  When [ensure_folder(path)] returns, every entry on the way to
    [path] exists: for each ['/'] in [path], the part of [path] before it
    (the root ["/"] for a leading one).  The entry is a folder, unless a
    file of that name was there before the call: [os.stat] succeeds on a
    file as well, and the code does not tell the two apart. *)
Theorem ensure_folder_makes_folders (st : state Obj) (p d r : string) :
  (ensure_folder fw (Some p) st).1 = Ok tt ->
  p = d ++ String "/" r ->
  path_exists (ensure_folder fw (Some p) st).2.2 (folder_at d) = true
  /\ (folder_at d ∈ dirs (ensure_folder fw (Some p) st).2.2
      \/ is_Some (files st.2 !! folder_at d))
  /\ (files st.2 !! folder_at d = None ->
      folder_at d ∈ dirs (ensure_folder fw (Some p) st).2.2).
Proof.
  intros Hok Hp.
  pose proof (ensure_folder_frame fw (Some p) st) as (_ & _ & Hfiles & _).
  assert (path_exists (ensure_folder fw (Some p) st).2.2 (folder_at d) = true)
    as Hex by (simpl in *; by apply (ensure_from_post p EmptyString st Hok d r)).
  split; [exact Hex|]. split.
  - destruct (files st.2 !! folder_at d) eqn:Hf; [right; by eexists|].
    left. apply path_exists_folder; [exact Hex|]. by rewrite Hfiles.
  - intros Hf. apply path_exists_folder; [exact Hex|]. by rewrite Hfiles.
Qed.

(** X2.  Whether it returns or raises, [ensure_folder] only adds folders,
    and only folders on the way to [path]: no folder is removed, and files,
    module cache and [self] are left as they were.  What it raises is the
    OSError of a failed [os.stat] or [os.mkdir] (an AttributeError when
    [path] is None), and a path without ['/'] makes it return at once. *)
Theorem ensure_folder_only_adds_folders (path : option string)
    (st : state Obj) :
  outside_dirs st (ensure_folder fw path st).2
  /\ dirs st.2 ⊆ dirs (ensure_folder fw path st).2.2
  /\ (forall d, d ∈ dirs (ensure_folder fw path st).2.2 ->
        d ∈ dirs st.2
        \/ exists p d0 r,
             path = Some p /\ p = d0 ++ String "/" r /\ d = folder_at d0)
  /\ (forall e, (ensure_folder fw path st).1 = Raise e ->
        (path = None /\ e = AttributeError) \/ exists errno, e = OSError errno)
  /\ (forall p, path = Some p -> PyStr.has_char "/" p = false ->
        ensure_folder fw path st = (Ok tt, st)).
Proof.
  split; [apply ensure_folder_frame|].
  destruct path as [p|]; simpl.
  - pose proof (ensure_from_dirs p EmptyString st) as [Hsub Hnew].
    split; [exact Hsub|]. split; [|split].
    + intros d Hd. destruct (Hnew d Hd) as [Hold|(r1 & r2 & Hp & Hd')];
        [by left|]. right. by exists p, r1, r2.
    + intros e He. right. by eapply ensure_from_raises.
    + intros p' [= <-] Hn. by apply ensure_from_no_slash.
  - split; [done|]. split; [by left|]. split; [|done].
    intros e [= <-]. by left.
Qed.

(** X3.  [ensure_folder] can be called again: after a call that returned, a
    second call with the same path returns as well and changes nothing
    (when [os.stat] itself does not fail on the folders). *)
Theorem ensure_folder_idempotent (st : state Obj) (p : string) :
  (ensure_folder fw (Some p) st).1 = Ok tt ->
  (forall d r, p = d ++ String "/" r -> fw_stat_fault fw (folder_at d) = None) ->
  ensure_folder fw (Some p) (ensure_folder fw (Some p) st).2
  = (Ok tt, (ensure_folder fw (Some p) st).2).
Proof.
  intros Hok Hstat. simpl in *. apply ensure_from_present.
  intros r1 r2 Hp. split; [by eapply Hstat|].
  by apply (ensure_from_post p EmptyString st Hok r1 r2).
Qed.

End FolderFacts.

Lemma ensure_folder_makes_folders_witness :
  (ensure_folder (SampleDevice.fw SampleDevice.plenty)
     (Some "/flash/stubs/esp32_1_11_0/umqtt/simple.py") SampleDevice.st0).1
  = Ok tt
  /\ "/flash/stubs/esp32_1_11_0/umqtt"
     ∈ dirs (ensure_folder (SampleDevice.fw SampleDevice.plenty)
               (Some "/flash/stubs/esp32_1_11_0/umqtt/simple.py")
               SampleDevice.st0).2.2.
Proof.
  assert ((ensure_folder (SampleDevice.fw SampleDevice.plenty)
             (Some "/flash/stubs/esp32_1_11_0/umqtt/simple.py")
             SampleDevice.st0).1 = Ok tt) as Hok by (vm_compute; reflexivity).
  split; [exact Hok|].
  destruct (ensure_folder_makes_folders (SampleDevice.fw SampleDevice.plenty)
              SampleDevice.st0 "/flash/stubs/esp32_1_11_0/umqtt/simple.py"
              "/flash/stubs/esp32_1_11_0/umqtt" "simple.py" Hok eq_refl)
    as (_ & _ & Hdir).
  apply Hdir. reflexivity.
Defined.

Lemma ensure_folder_idempotent_witness :
  (ensure_folder (SampleDevice.fw SampleDevice.plenty)
     (Some "/flash/stubs/esp32_1_11_0/umqtt/simple.py") SampleDevice.st0).1
  = Ok tt
  /\ ensure_folder (SampleDevice.fw SampleDevice.plenty)
       (Some "/flash/stubs/esp32_1_11_0/umqtt/simple.py")
       (ensure_folder (SampleDevice.fw SampleDevice.plenty)
          (Some "/flash/stubs/esp32_1_11_0/umqtt/simple.py")
          SampleDevice.st0).2
     = (Ok tt,
        (ensure_folder (SampleDevice.fw SampleDevice.plenty)
           (Some "/flash/stubs/esp32_1_11_0/umqtt/simple.py")
           SampleDevice.st0).2).
Proof.
  assert ((ensure_folder (SampleDevice.fw SampleDevice.plenty)
             (Some "/flash/stubs/esp32_1_11_0/umqtt/simple.py")
             SampleDevice.st0).1 = Ok tt) as Hok by (vm_compute; reflexivity).
  split; [exact Hok|].
  exact (ensure_folder_idempotent (SampleDevice.fw SampleDevice.plenty)
           SampleDevice.st0 "/flash/stubs/esp32_1_11_0/umqtt/simple.py"
           Hok (fun _ _ _ => eq_refl)).
Defined.

(** ** [firmware_ID] *)

Section FirmwareIdFacts.
Context {Obj : Type} (fw : Firmware Obj).

Lemma replace_length old new s :
  String.length (PyStr.replace old new s) = String.length s.
Proof. induction s as [|c s IH]; simpl; [done|by rewrite IH]. Qed.

Lemma replace_get old new s i :
  String.get i (PyStr.replace old new s)
  = (fun c => if Ascii.eqb c old then new else c) <$> String.get i s.
Proof.
  revert i. induction s as [|c s IH]; intros i; simpl; [done|].
  destruct i as [|i]; [done|]. apply IH.
Qed.

Lemma has_char_get c s :
  PyStr.has_char c s = false <-> forall i, String.get i s <> Some c.
Proof.
  induction s as [|d s IH].
  { split; [by intros _ []|done]. }
  change (PyStr.has_char c (String d s))
    with (if Ascii.eqb c d then true else PyStr.has_char c s).
  destruct (Ascii.eqb_spec c d) as [->|Hne].
  - split; [done|]. intros H. by specialize (H 0).
  - rewrite IH. split.
    + intros H [|i]; simpl; [congruence|apply H].
    + intros H i. apply (H (S i)).
Qed.

Lemma sanitize_get (l : list ascii) (s : string) i :
  "_"%char ∉ l ->
  String.get i (fold_left (fun fid c => PyStr.replace c "_" fid) l s)
  = (fun c => if bool_decide (c ∈ l) then "_"%char else c) <$> String.get i s.
Proof.
  revert s. induction l as [|a l IH]; intros s Hl; simpl.
  { by destruct (String.get i s). }
  apply not_elem_of_cons in Hl as [Ha Hl].
  rewrite IH by done. rewrite replace_get.
  destruct (String.get i s) as [c|]; simpl; [|done]. f_equal.
  destruct (Ascii.eqb_spec c a) as [->|Hne].
  - rewrite (bool_decide_eq_true_2 (a ∈ a :: l)) by left.
    by case_bool_decide.
  - case_bool_decide as H1; case_bool_decide as H2; try done.
    + exfalso. apply H2. by right.
    + exfalso. apply elem_of_cons in H2 as [?|?]; done.
Qed.

Lemma sanitize_length (l : list ascii) (s : string) :
  String.length (fold_left (fun fid c => PyStr.replace c "_" fid) l s)
  = String.length s.
Proof.
  revert s. induction l as [|a l IH]; intros s; simpl; [done|].
  by rewrite IH, replace_length.
Qed.

Lemma underscore_not_path_char : "_"%char ∉ path_chars.
Proof. unfold path_chars. simpl. rewrite !not_elem_of_cons.
  repeat split; try done. apply not_elem_of_nil. Qed.

(** X4.  [firmware_ID(asfile=True)] is the id of [firmware_ID()] with each
    of the characters [ .()/\:$] turned into an underscore, position by
    position: it has the same length, holds none of these characters (so it
    is a single path component), and every other character is kept. *)
Theorem firmware_ID_asfile_safe :
  (forall i, String.get i (firmware_ID fw true)
             = (fun c => if bool_decide (c ∈ path_chars) then "_"%char else c)
                 <$> String.get i (firmware_ID fw false))
  /\ String.length (firmware_ID fw true) = String.length (firmware_ID fw false)
  /\ (forall c, c ∈ path_chars -> PyStr.has_char c (firmware_ID fw true) = false).
Proof.
  assert (forall i, String.get i (firmware_ID fw true)
             = (fun c => if bool_decide (c ∈ path_chars) then "_"%char else c)
                 <$> String.get i (firmware_ID fw false)) as Hget.
  { intros i. unfold firmware_ID. apply sanitize_get.
    apply underscore_not_path_char. }
  split; [exact Hget|]. split.
  - unfold firmware_ID. apply sanitize_length.
  - intros c Hc. apply has_char_get. intros i. rewrite Hget.
    destruct (String.get i (firmware_ID fw false)) as [d|]; simpl; [|done].
    case_bool_decide as Hd; intros [= <-]; [|done].
    by apply underscore_not_path_char.
Qed.

End FirmwareIdFacts.

(** ** The stub of one module *)

Section StubCases.
Context {Obj : Type} (rt : Runtime Obj) (fw : Firmware Obj).
Implicit Types (st : state Obj).

#[local] Arguments walk_module : simpl never.
#[local] Arguments header : simpl never.

Lemma write_all_insert file_name (frs : list fragment) (l : list string)
    (fs : gmap string (list string)) :
  write_all file_name frs (<[file_name := l]> fs)
  = <[file_name := (l ++ (render <$> frs))%list]> fs.
Proof.
  revert l. induction frs as [|f frs IH]; intros l; simpl.
  { by rewrite app_nil_r. }
  unfold write_all in *. simpl. rewrite alter_insert_eq, IH.
  by rewrite <- app_assoc.
Qed.

Lemma full_dump_cases st module_name file_name :
  Full.dump_module_stub rt fw module_name file_name st
  = if is_internal module_name
       || bool_decide (module_name ∈ problematic st.1) then (Ok tt, st)
    else if PyStr.has_char "/"%char module_name
    then ensure_folder fw file_name st
    else
      let f := default (default_file_name module_name) file_name in
      match fw_import fw module_name with
      | ImportFails | ImportCrashes ImportError => (Ok tt, st)
      | ImportCrashes _ => (Raise NameError, st)
      | Imported m =>
          match fw_open_fault fw f with
          | Some errno =>
              (Raise (OSError errno), (st.1, loaded module_name m st.2))
          | None =>
              (Ok tt,
               (if bool_decide (module_name ∉ excluded st.1)
                then set_report (_report st.1 ++ [(module_name, f)])%list st.1
                else st.1,
                {| sys_modules := <[ module_name := m ]> (sys_modules st.2);
                   dirs := dirs st.2;
                   files :=
                     <[ f := header fw Full.stubber_version module_name
                             :: (if bool_decide (module_name ∉ excluded st.1)
                                 then render <$> top_walk rt st.1 m
                                 else []) ]> (files st.2);
                   mem_queries := mem_queries st.2 |}))
          end
      end.
Proof.
  unfold Full.dump_module_stub.
  destruct (is_internal module_name); [done|]. run_M.
  destruct (bool_decide (module_name ∈ problematic st.1)); [done|].
  destruct (PyStr.has_char "/" module_name).
  { by destruct (ensure_folder fw file_name st) as [[[]|e] st1]. }
  unfold import_or_return, py_import. run_M.
  destruct (fw_import fw module_name) as [m| |e]; simpl;
    [|done|by destruct e; destruct st].
  unfold py_open. simpl.
  replace (match file_name with
           | Some f => f
           | None => PyStr.replace "." "_" module_name ++ ".py"
           end)
    with (default (default_file_name module_name) file_name)
    by (by destruct file_name).
  destruct (fw_open_fault fw _); simpl; [done|].
  unfold fp_write. run_M.
  destruct (bool_decide (module_name ∉ excluded st.1)); simpl.
  - rewrite walk_module_spec. simpl. unfold report_append. run_M.
    rewrite alter_insert_eq, write_all_insert. done.
  - by rewrite alter_insert_eq.
Qed.

Lemma min_stub_cases st module_name file_name :
  Min.create_module_stub rt fw module_name file_name st
  = if is_internal module_name
       || bool_decide (module_name ∈ problematic st.1) then (Ok tt, st)
    else
      let nested := PyStr.has_char "/"%char module_name in
      let st1 := if nested then (ensure_folder fw file_name st).2 else st in
      match (if nested then (ensure_folder fw file_name st).1 else Ok tt) with
      | Raise e => (Raise e, st1)
      | Ok _ =>
        if nested && negb (include_nested st.1) then (Ok tt, st1)
        else
          let name := imported_as module_name in
          let f := default (default_file_name name) file_name in
          match fw_import fw name with
          | ImportFails | ImportCrashes ImportError => (Ok tt, st1)
          | ImportCrashes _ => (Raise NameError, st1)
          | Imported m =>
              match fw_open_fault fw f with
              | Some errno =>
                  (Raise (OSError errno), (st.1, loaded name m st1.2))
              | None =>
                  (Ok tt,
                   (set_report (_report st.1 ++ [(name, f)])%list st.1,
                    {| sys_modules :=
                         if bool_decide (name ∉ keep_loaded)
                         then delete name (sys_modules st.2)
                         else <[ name := m ]> (sys_modules st.2);
                       dirs := dirs st1.2;
                       files :=
                         <[ f := header fw Min.stubber_version name
                                 :: (render <$> top_walk rt st.1 m) ]>
                           (files st.2);
                       mem_queries := mem_queries st.2 |}))
              end
          end
      end.
Proof.
  unfold Min.create_module_stub, imported_as.
  destruct (is_internal module_name); [done|]. run_M.
  destruct (bool_decide (module_name ∈ problematic st.1)); [done|].
  destruct (PyStr.has_char "/" module_name) eqn:Hn; simpl.
  - pose proof (ensure_folder_frame fw file_name st) as (H1 & H2 & H3 & H4).
    destruct (ensure_folder fw file_name st) as [[[]|e] st1]; simpl in *;
      [|done].
    destruct (include_nested st.1); simpl; [|done].
    unfold import_or_return, py_import. run_M.
    destruct (fw_import fw _) as [m| |e]; simpl;
      [|done|by destruct e; destruct st1].
    unfold py_open. simpl.
    replace (match file_name with
             | Some f => f
             | None => PyStr.replace "." "_" (PyStr.replace "/" "." module_name)
                       ++ ".py"
             end)
      with (default (default_file_name (PyStr.replace "/" "." module_name))
              file_name)
      by (by destruct file_name).
    destruct (fw_open_fault fw _); simpl; [by rewrite H1|].
    unfold fp_write. run_M. rewrite walk_module_spec. simpl.
    unfold report_append, del_sys_module. run_M.
    rewrite alter_insert_eq, write_all_insert, H1, H2, H3, H4.
    destruct (bool_decide _); simpl; [|done].
    by rewrite delete_insert_eq.
  - unfold import_or_return, py_import. run_M.
    destruct (fw_import fw _) as [m| |e]; simpl;
      [|done|by destruct e; destruct st].
    unfold py_open. simpl.
    replace (match file_name with
             | Some f => f
             | None => PyStr.replace "." "_" module_name ++ ".py"
             end)
      with (default (default_file_name module_name) file_name)
      by (by destruct file_name).
    destruct (fw_open_fault fw _); simpl; [done|].
    unfold fp_write. run_M. rewrite walk_module_spec. simpl.
    unfold report_append, del_sys_module. run_M.
    rewrite alter_insert_eq, write_all_insert.
    destruct (bool_decide _); simpl; [|done].
    by rewrite delete_insert_eq.
Qed.

End StubCases.

Section StubFacts.
Context {Obj : Type} (rt : Runtime Obj) (fw : Firmware Obj).
Implicit Types (st : state Obj).

(** X5.  An import that raises anything but ImportError does not surface
    as that exception: the handler list goes on to [except e:], where [e]
    is not bound, and the call raises NameError.  Nothing has been written
    or changed at that point. *)
Theorem import_crash_raises_NameError (st : state Obj)
    (module_name : string) (file_name : option string) (e : exn) :
  is_internal module_name = false ->
  module_name ∉ problematic st.1 ->
  PyStr.has_char "/"%char module_name = false ->
  fw_import fw module_name = ImportCrashes e ->
  e <> ImportError ->
  Full.dump_module_stub rt fw module_name file_name st = (Raise NameError, st)
  /\ Min.create_module_stub rt fw module_name file_name st
     = (Raise NameError, st).
Proof.
  intros Hi Hp Hn Himp He.
  rewrite full_dump_cases, min_stub_cases. unfold imported_as.
  rewrite Hi, Hn, Himp, bool_decide_eq_false_2 by done. simpl.
  by destruct e.
Qed.

(** X6.  A nested module name needs an explicit [file_name]: with the
    default [None], [ensure_folder(None)] raises AttributeError before
    anything is imported or written. *)
Theorem nested_needs_file_name (st : state Obj) (module_name : string) :
  is_internal module_name = false ->
  module_name ∉ problematic st.1 ->
  PyStr.has_char "/"%char module_name = true ->
  Full.dump_module_stub rt fw module_name None st = (Raise AttributeError, st)
  /\ Min.create_module_stub rt fw module_name None st
     = (Raise AttributeError, st).
Proof.
  intros Hi Hp Hn. rewrite full_dump_cases, min_stub_cases.
  by rewrite Hi, Hn, bool_decide_eq_false_2 by done.
Qed.

(** X7.  The full variant never stubs a nested module: for a name with a
    path separator it makes the folders of [file_name] and returns.  The
    outcome is the same whatever [__import__] or the objects would answer,
    and files, module cache and [self] are as before. *)
Theorem full_skips_nested (rt' : Runtime Obj)
    (imp : string -> import_result Obj) (st : state Obj)
    (module_name : string) (file_name : option string) :
  PyStr.has_char "/"%char module_name = true ->
  Full.dump_module_stub rt fw module_name file_name st
  = Full.dump_module_stub rt' (set_import imp fw) module_name file_name st
  /\ outside_dirs st (Full.dump_module_stub rt fw module_name file_name st).2.
Proof.
  intros Hn. rewrite !full_dump_cases, Hn.
  destruct (is_internal module_name || _); [split; [done|by repeat split]|].
  split; [|apply ensure_folder_frame].
  destruct file_name; simpl; [|done]. by rewrite ensure_from_set_import.
Qed.

(** X8.  A stub that succeeds in the full variant: for a module that is
    imported as [m] and whose file can be opened, the call returns, the file
    holds the header followed by the text of the fragments of the walk of
    [m] from the top indent and nothing of what it held before, the module
    is in the cache, and the report gains the one entry of the module. *)
Theorem full_stub_written (st : state Obj) (module_name : string)
    (file_name : option string) (m : Obj) :
  is_internal module_name = false ->
  module_name ∉ problematic st.1 ->
  module_name ∉ excluded st.1 ->
  PyStr.has_char "/"%char module_name = false ->
  fw_import fw module_name = Imported m ->
  fw_open_fault fw (default (default_file_name module_name) file_name) = None ->
  Full.dump_module_stub rt fw module_name file_name st
  = (Ok tt,
     (set_report
        (_report st.1
         ++ [(module_name, default (default_file_name module_name) file_name)])%list
        st.1,
      {| sys_modules := <[ module_name := m ]> (sys_modules st.2);
         dirs := dirs st.2;
         files :=
           <[ default (default_file_name module_name) file_name
              := header fw Full.stubber_version module_name
                 :: (render <$> top_walk rt st.1 m) ]> (files st.2);
         mem_queries := mem_queries st.2 |})).
Proof.
  intros Hi Hp Hx Hn Himp Hopen. rewrite full_dump_cases. cbv zeta.
  rewrite Hi, Hn, Himp, Hopen, (bool_decide_eq_false_2 _ Hp). simpl.
  by rewrite (bool_decide_eq_true_2 _ Hx).
Qed.

(** X9.  A stub that succeeds in the constrained variant, nested modules
    included: the module is imported and reported under its dotted name, the
    file holds the header and the text of the walk, and the module is taken
    out of the cache again unless it is one of os, sys, logging, gc. *)
Theorem min_stub_written (st : state Obj) (module_name : string)
    (file_name : option string) (m : Obj) :
  is_internal module_name = false ->
  module_name ∉ problematic st.1 ->
  (PyStr.has_char "/"%char module_name = true ->
   include_nested st.1 = true /\ (ensure_folder fw file_name st).1 = Ok tt) ->
  fw_import fw (imported_as module_name) = Imported m ->
  fw_open_fault fw
    (default (default_file_name (imported_as module_name)) file_name) = None ->
  Min.create_module_stub rt fw module_name file_name st
  = (Ok tt,
     (set_report
        (_report st.1
         ++ [(imported_as module_name,
              default (default_file_name (imported_as module_name)) file_name)])%list
        st.1,
      {| sys_modules :=
           if bool_decide (imported_as module_name ∉ keep_loaded)
           then delete (imported_as module_name) (sys_modules st.2)
           else <[ imported_as module_name := m ]> (sys_modules st.2);
         dirs := if PyStr.has_char "/"%char module_name
                 then dirs (ensure_folder fw file_name st).2.2
                 else dirs st.2;
         files :=
           <[ default (default_file_name (imported_as module_name)) file_name
              := header fw Min.stubber_version (imported_as module_name)
                 :: (render <$> top_walk rt st.1 m) ]> (files st.2);
         mem_queries := mem_queries st.2 |})).
Proof.
  intros Hi Hp Hnest Himp Hopen. rewrite min_stub_cases. cbv zeta.
  rewrite Hi, (bool_decide_eq_false_2 _ Hp). simpl.
  destruct (PyStr.has_char "/" module_name) eqn:Hn.
  - destruct (Hnest eq_refl) as [Hinc Hok]. rewrite Hok, Hinc. simpl.
    by rewrite Himp, Hopen.
  - simpl. by rewrite Himp, Hopen.
Qed.

End StubFacts.

Section RunFacts.
Context {Obj : Type} (rt : Runtime Obj) (fw : Firmware Obj).
Implicit Types (st : state Obj) (self : Stubber).

Lemma full_dump_report st m f :
  PyStr.startswith "_" m = false ->
  ((Full.dump_module_stub rt fw m (Some f) st).2.1
   = set_report (_report st.1 ++ [(m, f)])%list st.1
   /\ full_eligible fw st.1 m = true
   /\ (Full.dump_module_stub rt fw m (Some f) st).1 = Ok tt)
  \/ ((Full.dump_module_stub rt fw m (Some f) st).2.1 = st.1
      /\ (full_eligible fw st.1 m = true ->
          (Full.dump_module_stub rt fw m (Some f) st).1 <> Ok tt)).
Proof.
  intros Hu. rewrite full_dump_cases. unfold full_eligible, is_internal.
  rewrite Hu. simpl.
  destruct (bool_decide (m ∈ problematic st.1)); simpl; [by right|].
  destruct (PyStr.has_char "/" m); simpl.
  { right. split; [|done]. exact (proj1 (ensure_folder_frame fw (Some f) st)). }
  destruct (fw_import fw m) as [o| |e]; simpl.
  - destruct (fw_open_fault fw f); simpl.
    + right. split; [done|]. by intros _.
    + destruct (bool_decide (m ∉ excluded st.1)) eqn:Hx; simpl.
      * left. apply bool_decide_eq_true in Hx.
        by rewrite (bool_decide_eq_false_2 _ Hx).
      * right. apply bool_decide_eq_false in Hx.
        rewrite (bool_decide_eq_true_2 (m ∈ excluded st.1)); [done|].
        by destruct (decide (m ∈ excluded st.1)).
  - right. split; [done|]. by rewrite andb_false_r.
  - right. rewrite andb_false_r. by destruct e.
Qed.

Lemma full_loop_report (self0 : Stubber) (l : list string) st :
  st.1 = set_report (_report st.1) self0 ->
  let run :=
    for_each l
      (fun m => if PyStr.startswith "_" m then mret tt
                else Full.dump_module_stub rt fw m
                       (Some (stub_file_name self0 m))) st in
  exists ms,
    ms `sublist_of` filter (fun m => full_eligible fw self0 m = true) l
    /\ run.2.1
       = set_report
           (_report st.1 ++ ((fun m => (m, stub_file_name self0 m)) <$> ms))%list
           self0
    /\ (run.1 = Ok tt ->
        ms = filter (fun m => full_eligible fw self0 m = true) l).
Proof.
  revert st. induction l as [|m l IH]; intros st Hst; simpl.
  { exists []. split; [done|]. split; [|done]. by rewrite app_nil_r. }
  assert (forall self, self = set_report (_report self) self0 ->
            full_eligible fw self m = full_eligible fw self0 m) as Hel.
  { intros self ->. done. }
  unfold mbind, M_bind.
  destruct (PyStr.startswith "_" m) eqn:Hu.
  - unfold mret, M_ret. simpl.
    rewrite filter_cons_False
      by (unfold full_eligible; rewrite Hu; simpl; done).
    apply (IH st Hst).
  - destruct (full_dump_report st m (stub_file_name self0 m) Hu)
      as [(Hself & Helig & Hok)|(Hself & Hno)].
    + rewrite Hel in Helig by done.
      rewrite filter_cons_True by done.
      destruct (Full.dump_module_stub rt fw m _ st) as [[[]|e] st1];
        simpl in *; [|done].
      assert (st1.1 = set_report (_report st1.1) self0) as Hst1.
      { rewrite Hself, Hst. done. }
      destruct (IH st1 Hst1) as (ms & Hsub & Hrun & Hall).
      exists (m :: ms). split; [by constructor|]. split.
      * rewrite Hrun, Hself. simpl. by rewrite <- app_assoc.
      * intros Hfin. by rewrite Hall.
    + rewrite Hel in Hno by done.
      destruct (Full.dump_module_stub rt fw m _ st) as [[[]|e] st1];
        simpl in *.
      * assert (full_eligible fw self0 m <> true) as Hne
          by (intros H; by apply Hno).
        rewrite filter_cons_False by done.
        assert (st1.1 = set_report (_report st1.1) self0) as Hst1
          by (by rewrite Hself).
        destruct (IH st1 Hst1) as (ms & Hsub & Hrun & Hall).
        exists ms. rewrite Hself in Hrun. done.
      * exists []. split; [apply sublist_nil_l|]. split; [|done].
        simpl. by rewrite app_nil_r, Hself.
Qed.

(** X10.  A run of the full variant reports modules of the catalog only,
    in ascending order of name and under the file name made from
    [self.path], and never one whose name begins with an underscore
    ([_thread] included), is on the problematic or excluded list or has a
    path separator.  Nothing else of [self] changes, the catalog included.
    A run that returns has reported every such module that can be
    imported. *)
Theorem full_run_report (st : state Obj) :
  exists ms,
    ms `sublist_of` filter (fun m => full_eligible fw st.1 m = true)
                      (merge_sort PyStr.le (modules st.1))
    /\ (Full.generate_all_stubs rt fw st).2.1
       = set_report
           (_report st.1 ++ ((fun m => (m, stub_file_name st.1 m)) <$> ms))%list
           st.1
    /\ ((Full.generate_all_stubs rt fw st).1 = Ok tt ->
        ms = filter (fun m => full_eligible fw st.1 m = true)
               (merge_sort PyStr.le (modules st.1))).
Proof.
  unfold Full.generate_all_stubs, mbind, M_bind, get_self. cbv beta iota.
  apply full_loop_report. by destruct st as [[] ?].
Qed.

Lemma min_stub_report st m f :
  ((Min.create_module_stub rt fw m (Some f) st).2.1
   = set_report (_report st.1 ++ [(imported_as m, f)])%list st.1
   /\ is_internal m = false /\ (m ∉ problematic st.1)
   /\ exists o, fw_import fw (imported_as m) = Imported o)
  \/ (Min.create_module_stub rt fw m (Some f) st).2.1 = st.1.
Proof.
  rewrite min_stub_cases. cbv zeta.
  pose proof (ensure_folder_frame fw (Some f) st) as (H1 & _).
  destruct (ensure_folder fw (Some f) st) as [o1 st1]. simpl in H1.
  destruct (is_internal m); simpl; [by right|].
  destruct (bool_decide (m ∈ problematic st.1)) eqn:Hp; simpl; [by right|].
  apply bool_decide_eq_false in Hp.
  destruct (PyStr.has_char "/" m); simpl.
  - destruct o1 as [[]|e]; [|by right].
    destruct (include_nested st.1); simpl; [|by right].
    destruct (fw_import fw (imported_as m)) as [o| |e]; simpl.
    + destruct (fw_open_fault fw f); simpl; [by right|]. left. eauto.
    + by right.
    + right. by destruct e.
  - destruct (fw_import fw (imported_as m)) as [o| |e]; simpl.
    + destruct (fw_open_fault fw f); simpl; [by right|]. left. eauto.
    + by right.
    + right. by destruct e.
Qed.

Lemma min_step_report (self0 : Stubber) (m : string) st :
  st.1 = set_include_nested (include_nested st.1)
           (set_report (_report st.1) self0) ->
  exists b,
    ((Min.stub_step rt fw m st).2.1
     = set_include_nested b
         (set_report
            (_report st.1 ++ [(imported_as m, stub_file_name self0 m)])%list
            self0)
     /\ min_eligible fw self0 m = true)
    \/ (Min.stub_step rt fw m st).2.1
       = set_include_nested b (set_report (_report st.1) self0).
Proof.
  intros Hst.
  assert (path st.1 = path self0 /\ problematic st.1 = problematic self0
          /\ excluded st.1 = excluded self0) as (Hpath & Hprob & Hexcl)
    by (rewrite Hst; done).
  assert (forall b, set_include_nested b st.1
                    = set_include_nested b (set_report (_report st.1) self0))
    as Hb by (intros b; rewrite Hst; done).
  unfold Min.stub_step. run_M. unfold gc_mem_free. simpl.
  unfold stub_file_name. rewrite Hpath, Hprob, Hexcl.
  fold (stub_file_name self0 m).
  unfold min_eligible.
  destruct (include_nested st.1) eqn:Hinc; simpl.
  - exists (3200 <? fw_mem_free fw (mem_queries st.2))%Z.
    destruct (is_internal m) eqn:Hi; simpl; [right; apply Hb|].
    destruct (bool_decide (m ∈ problematic self0)) eqn:Hp; simpl;
      [right; apply Hb|].
    destruct (bool_decide (m ∈ excluded self0)) eqn:Hx; simpl;
      [right; apply Hb|].
    match goal with
    | |- context [Min.create_module_stub ?a ?b ?c (Some ?d) ?e] =>
        destruct (min_stub_report e c d)
          as [(Hself & _ & _ & o & Himp)|Hself];
        destruct (Min.create_module_stub a b c (Some d) e)
          as [[[]|?] [self' w']]
    end; simpl in *; subst self'; simpl.
    + left. rewrite Himp. split; [|done]. by rewrite Hst.
    + left. rewrite Himp. split; [|done]. by rewrite Hst.
    + right. apply Hb.
    + right. apply Hb.
  - exists false.
    pose proof Hst as Hst'.
    destruct (is_internal m) eqn:Hi; simpl; [by right|].
    destruct (bool_decide (m ∈ problematic self0)) eqn:Hp; simpl; [by right|].
    destruct (bool_decide (m ∈ excluded self0)) eqn:Hx; simpl; [by right|].
    match goal with
    | |- context [Min.create_module_stub ?a ?b ?c (Some ?d) ?e] =>
        destruct (min_stub_report e c d)
          as [(Hself & _ & _ & o & Himp)|Hself];
        destruct (Min.create_module_stub a b c (Some d) e)
          as [[[]|?] [self' w']]
    end; simpl in *; subst self'; simpl.
    + left. rewrite Himp. split; [|done]. rewrite Hst'. done.
    + left. rewrite Himp. split; [|done]. rewrite Hst'. done.
    + by right.
    + by right.
Qed.

Lemma min_loop_report (self0 : Stubber) (l : list string) st :
  st.1 = set_include_nested (include_nested st.1)
           (set_report (_report st.1) self0) ->
  exists ms b,
    ms `sublist_of` filter (fun m => min_eligible fw self0 m = true) l
    /\ (for_each l (Min.stub_step rt fw) st).2.1
       = set_include_nested b
           (set_report
              (_report st.1
               ++ ((fun m => (imported_as m, stub_file_name self0 m)) <$> ms))%list
              self0).
Proof.
  revert st. induction l as [|m l IH]; intros st Hst; simpl.
  { exists [], (include_nested st.1). split; [done|].
    by rewrite app_nil_r. }
  unfold mbind, M_bind.
  pose proof (stub_step_ok rt fw m st) as Hok.
  destruct (min_step_report self0 m st Hst) as [b [[Hself Helig]|Hself]];
    destruct (Min.stub_step rt fw m st) as [[[]|e] st1]; simpl in *;
    try done.
  - assert (st1.1 = set_include_nested (include_nested st1.1)
                      (set_report (_report st1.1) self0)) as Hst1
      by (by rewrite Hself).
    destruct (IH st1 Hst1) as (ms & b' & Hsub & Hrun).
    exists (m :: ms), b'. rewrite filter_cons_True by done.
    split; [by constructor|]. rewrite Hrun, Hself. simpl.
    by rewrite <- app_assoc.
  - assert (st1.1 = set_include_nested (include_nested st1.1)
                      (set_report (_report st1.1) self0)) as Hst1
      by (by rewrite Hself).
    destruct (IH st1 Hst1) as (ms & b' & Hsub & Hrun).
    exists ms, b'. split.
    + destruct (decide (min_eligible fw self0 m = true)).
      * rewrite filter_cons_True by done. by constructor.
      * by rewrite filter_cons_False.
    + rewrite Hrun, Hself. done.
Qed.

(** X11.  A run of the constrained variant always returns.  It leaves the
    catalog with the nested names first, each group in its old order, and
    reports modules of that catalog only, in that order, each under its
    dotted name and the file name made from [self.path]; a module that is
    internal, problematic, excluded or cannot be imported is never
    reported.  Of [self] only the catalog, the report and [include_nested]
    change. *)
Theorem min_run_report (st : state Obj) :
  let catalog :=
    (filter (fun m => PyStr.has_char "/"%char m = true) (modules st.1)
     ++ filter (fun m => PyStr.has_char "/"%char m = false) (modules st.1))%list in
  (Min.create_all_stubs rt fw st).1 = Ok tt
  /\ catalog ≡ₚ modules st.1
  /\ exists ms b,
       ms `sublist_of`
         filter (fun m => min_eligible fw st.1 m = true) catalog
       /\ (Min.create_all_stubs rt fw st).2.1
          = set_include_nested b
              (set_report
                 (_report st.1
                  ++ ((fun m => (imported_as m, stub_file_name st.1 m)) <$> ms))%list
                 (set_modules catalog st.1)).
Proof.
  intros catalog. split; [|split].
  - unfold Min.create_all_stubs. run_M. apply for_each_stub_step.
  - unfold catalog. clear. induction (modules st.1) as [|m l IH]; [done|].
    destruct (PyStr.has_char "/" m) eqn:Hm.
    + rewrite filter_cons_True, filter_cons_False by (by rewrite ?Hm).
      simpl. by rewrite IH.
    + rewrite filter_cons_False, filter_cons_True by (by rewrite ?Hm).
      rewrite <- Permutation_middle. by rewrite IH.
  - unfold Min.create_all_stubs, mbind, M_bind, get_self, modify_self.
    cbv beta iota. fold catalog.
    destruct (min_loop_report (set_modules catalog st.1) catalog
                (set_modules catalog st.1, st.2)) as (ms & b & Hsub & Hrun).
    { by destruct st as [[] ?]. }
    exists ms, b. split; [exact Hsub|]. exact Hrun.
Qed.

End RunFacts.

(** ** The excluded list and low memory *)

Section LowMemory.
Context {Obj : Type} (rt : Runtime Obj) (fw : Firmware Obj).
Implicit Types (st : state Obj).





End LowMemory.

Section LifecycleClaims.
Context {Obj : Type} (rt : Runtime Obj) (fw : Firmware Obj).
Implicit Types (st : state Obj).

(** C7.  A module on the excluded list is never walked and never
    reported.  In the constrained variant the loop goes to the next name at
    once: the step returns, imports nothing and leaves files, folders,
    module cache and report as they were.  In the full variant the test
    stands inside the [with] block, after the import and the header: the
    call ends exactly as written out below, whatever the objects of the
    interpreter hold.  The module is still imported and stays in the cache,
    the file is opened and holds the header alone, and a failing import or
    [open] raises as for any other module. *)
Theorem excluded_module_skipped (rt' : Runtime Obj)
    (imp : string -> import_result Obj) (st : state Obj)
    (module_name : string) (file_name : option string) :
  module_name ∈ excluded st.1 ->
  Full.dump_module_stub rt fw module_name file_name st
  = (if is_internal module_name
        || bool_decide (module_name ∈ problematic st.1) then (Ok tt, st)
     else if PyStr.has_char "/"%char module_name
     then ensure_folder fw file_name st
     else
       match fw_import fw module_name with
       | ImportFails | ImportCrashes ImportError => (Ok tt, st)
       | ImportCrashes _ => (Raise NameError, st)
       | Imported m =>
           match fw_open_fault fw
                   (default (default_file_name module_name) file_name) with
           | Some errno =>
               (Raise (OSError errno), (st.1, loaded module_name m st.2))
           | None =>
               (Ok tt,
                (st.1,
                 set_files
                   (<[ default (default_file_name module_name) file_name
                       := [header fw Full.stubber_version module_name] ]>
                      (files st.2))
                   (loaded module_name m st.2)))
           end
       end)
  /\ Full.dump_module_stub rt fw module_name file_name st
     = Full.dump_module_stub rt' fw module_name file_name st
  /\ _report (Full.dump_module_stub rt fw module_name file_name st).2.1
     = _report st.1
  /\ (forall f,
        files (Full.dump_module_stub rt fw module_name file_name st).2.2 !! f
        = files st.2 !! f
        \/ files (Full.dump_module_stub rt fw module_name file_name st).2.2 !! f
           = Some [header fw Full.stubber_version module_name])
  /\ (Min.stub_step rt fw module_name st).1 = Ok tt
  /\ Min.stub_step rt fw module_name st
     = Min.stub_step rt' (set_import imp fw) module_name st
  /\ files (Min.stub_step rt fw module_name st).2.2 = files st.2
  /\ dirs (Min.stub_step rt fw module_name st).2.2 = dirs st.2
  /\ sys_modules (Min.stub_step rt fw module_name st).2.2 = sys_modules st.2
  /\ _report (Min.stub_step rt fw module_name st).2.1 = _report st.1.
Proof.
  intros Hex.
  assert (forall rt0,
            Full.dump_module_stub rt0 fw module_name file_name st
            = (if is_internal module_name
                  || bool_decide (module_name ∈ problematic st.1)
               then (Ok tt, st)
               else if PyStr.has_char "/"%char module_name
               then ensure_folder fw file_name st
               else
                 match fw_import fw module_name with
                 | ImportFails | ImportCrashes ImportError => (Ok tt, st)
                 | ImportCrashes _ => (Raise NameError, st)
                 | Imported m =>
                     match fw_open_fault fw
                             (default (default_file_name module_name)
                                file_name) with
                     | Some errno =>
                         (Raise (OSError errno),
                          (st.1, loaded module_name m st.2))
                     | None =>
                         (Ok tt,
                          (st.1,
                           set_files
                             (<[ default (default_file_name module_name)
                                   file_name
                                 := [header fw Full.stubber_version
                                       module_name] ]> (files st.2))
                             (loaded module_name m st.2)))
                     end
                 end)) as Hfull.
  { intros rt0. rewrite full_dump_cases. cbv zeta.
    by rewrite (bool_decide_eq_false_2 (module_name ∉ excluded st.1))
      by (intros H; by apply H). }
  split; [apply Hfull|]. split; [by rewrite !Hfull|].
  rewrite Hfull. split; [|split].
  - destruct (is_internal module_name || _); [done|].
    destruct (PyStr.has_char "/" module_name).
    { pose proof (ensure_folder_frame fw file_name st) as (H1 & _).
      by rewrite H1. }
    destruct (fw_import fw module_name) as [m| |e]; [|done|by destruct e].
    by destruct (fw_open_fault fw _).
  - intros f.
    destruct (is_internal module_name || _); [by left|].
    destruct (PyStr.has_char "/" module_name).
    { pose proof (ensure_folder_frame fw file_name st) as (_ & _ & H3 & _).
      left. by rewrite H3. }
    destruct (fw_import fw module_name) as [m| |e];
      [|by left|destruct e; by left].
    destruct (fw_open_fault fw _); [by left|]. simpl.
    destruct (decide (default (default_file_name module_name) file_name = f))
      as [->|Hne].
    + right. by rewrite lookup_insert_eq.
    + left. by rewrite lookup_insert_ne.
  - rewrite !stub_step_excluded_state by done.
    destruct (include_nested st.1); simpl; done.
Qed.


End LifecycleClaims.

Lemma excluded_module_skipped_witness :
  "webrepl" ∈ excluded SampleDevice.st0.1
  /\ _report
       (Full.dump_module_stub Sample.rt (SampleDevice.fw SampleDevice.plenty)
          "webrepl" None SampleDevice.st0).2.1
     = _report SampleDevice.st0.1.
Proof.
  assert ("webrepl" ∈ excluded SampleDevice.st0.1) as Hex by (simpl; left).
  split; [exact Hex|].
  apply (excluded_module_skipped Sample.rt (SampleDevice.fw SampleDevice.plenty)
           Sample.rt_rev (fun _ => ImportFails) SampleDevice.st0 "webrepl" None
           Hex).
Defined.

(** C7 as stated, refuted for the full variant: [webrepl] is on the
    excluded list, and [dump_module_stub] imports it, leaves it in the
    module cache and writes a stub file for it that holds the header; where
    the file cannot be opened the call raises. *)
Lemma excluded_module_imported_in_full :
  "webrepl" ∈ excluded SampleDevice.st0.1
  /\ sys_modules
       (Full.dump_module_stub Sample.rt (SampleDevice.fw SampleDevice.plenty)
          "webrepl" (Some "/flash/stubs/esp32_1_11_0/webrepl.py")
          SampleDevice.st0).2.2 !! "webrepl" = Some 0
  /\ files
       (Full.dump_module_stub Sample.rt (SampleDevice.fw SampleDevice.plenty)
          "webrepl" (Some "/flash/stubs/esp32_1_11_0/webrepl.py")
          SampleDevice.st0).2.2 !! "/flash/stubs/esp32_1_11_0/webrepl.py"
     = Some [header (SampleDevice.fw SampleDevice.plenty) Full.stubber_version
               "webrepl"]
  /\ files SampleDevice.st0.2 !! "/flash/stubs/esp32_1_11_0/webrepl.py" = None
  /\ (Full.dump_module_stub Sample.rt locked_fw "webrepl"
        (Some "/flash/stubs/esp32_1_11_0/webrepl.py") SampleDevice.st0).1
     = Raise (OSError EACCES).
Proof.
  split; [simpl; left|]. split; [by vm_compute|]. split; [by vm_compute|].
  split; by vm_compute.
Qed.


(** ** The properties on the sample device *)

Lemma sample_mod_not_problematic : "sample_mod" ∉ problematic SampleDevice.st0.1.
Proof. apply (proj1 (bool_decide_eq_false _)). reflexivity. Defined.

Lemma pkg_sub_not_problematic : "pkg/sub" ∉ problematic SampleDevice.st0.1.
Proof. apply (proj1 (bool_decide_eq_false _)). reflexivity. Defined.

Lemma import_crash_raises_NameError_witness :
  fw_import crashing_fw "sample_mod" = ImportCrashes (OtherError "MemoryError")
  /\ Full.dump_module_stub Sample.rt crashing_fw "sample_mod" None
       SampleDevice.st0
     = (Raise NameError, SampleDevice.st0).
Proof.
  split; [reflexivity|].
  apply (import_crash_raises_NameError Sample.rt crashing_fw SampleDevice.st0
           "sample_mod" None (OtherError "MemoryError") eq_refl
           sample_mod_not_problematic eq_refl eq_refl).
  discriminate.
Defined.

Lemma nested_needs_file_name_witness :
  PyStr.has_char "/" "pkg/sub" = true
  /\ Min.create_module_stub Sample.rt (SampleDevice.fw SampleDevice.plenty)
       "pkg/sub" None SampleDevice.st0
     = (Raise AttributeError, SampleDevice.st0).
Proof.
  split; [reflexivity|].
  apply (nested_needs_file_name Sample.rt (SampleDevice.fw SampleDevice.plenty)
           SampleDevice.st0 "pkg/sub" eq_refl pkg_sub_not_problematic eq_refl).
Defined.

Lemma full_skips_nested_witness :
  PyStr.has_char "/" "pkg/sub" = true
  /\ outside_dirs SampleDevice.st0
       (Full.dump_module_stub Sample.rt (SampleDevice.fw SampleDevice.plenty)
          "pkg/sub" (Some "/flash/stubs/esp32_1_11_0/pkg/sub.py")
          SampleDevice.st0).2.
Proof.
  split; [reflexivity|].
  apply (full_skips_nested Sample.rt (SampleDevice.fw SampleDevice.plenty)
           Sample.rt_rev (fun _ => ImportFails) SampleDevice.st0 "pkg/sub"
           (Some "/flash/stubs/esp32_1_11_0/pkg/sub.py") eq_refl).
Defined.

Lemma full_stub_written_witness :
  fw_import (SampleDevice.fw SampleDevice.plenty) "sample_mod" = Imported 0
  /\ files
       (Full.dump_module_stub Sample.rt (SampleDevice.fw SampleDevice.plenty)
          "sample_mod" None SampleDevice.st0).2.2 !! "sample_mod.py"
     = Some (header (SampleDevice.fw SampleDevice.plenty) Full.stubber_version
               "sample_mod"
             :: (render <$> top_walk Sample.rt Sample.stubber 0)).
Proof.
  split; [reflexivity|].
  rewrite (full_stub_written Sample.rt (SampleDevice.fw SampleDevice.plenty)
             SampleDevice.st0 "sample_mod" None 0 eq_refl
             sample_mod_not_problematic).
  - apply lookup_insert_eq.
  - apply (proj1 (bool_decide_eq_false _)). reflexivity.
  - reflexivity.
  - reflexivity.
  - reflexivity.
Defined.

Lemma min_stub_written_witness :
  fw_import (SampleDevice.fw SampleDevice.plenty) (imported_as "pkg/sub")
  = Imported 0
  /\ _report
       (Min.create_module_stub Sample.rt (SampleDevice.fw SampleDevice.plenty)
          "pkg/sub" (Some "/flash/stubs/esp32_1_11_0/pkg/sub.py")
          SampleDevice.st0).2.1
     = [("pkg.sub", "/flash/stubs/esp32_1_11_0/pkg/sub.py")].
Proof.
  split; [reflexivity|].
  rewrite (min_stub_written Sample.rt (SampleDevice.fw SampleDevice.plenty)
             SampleDevice.st0 "pkg/sub"
             (Some "/flash/stubs/esp32_1_11_0/pkg/sub.py") 0 eq_refl
             pkg_sub_not_problematic).
  - reflexivity.
  - intros _. split; [reflexivity|]. vm_compute. reflexivity.
  - reflexivity.
  - reflexivity.
Defined.

Lemma min_evicts_witness :
("sample_mod" ∉ keep_loaded)
  /\ sys_modules
       (Min.create_module_stub Sample.rt (SampleDevice.fw SampleDevice.plenty)
          "sample_mod" (Some "/flash/stubs/esp32_1_11_0/sample_mod.py")
          SampleDevice.st0).2.2 !! "sample_mod" = None.
Proof.
  assert ("sample_mod" ∉ keep_loaded) as Hkeep
    by (apply (proj1 (bool_decide_eq_false _)); reflexivity).
  split; [exact Hkeep|].
  apply (min_evicts Sample.rt (SampleDevice.fw SampleDevice.plenty)
           SampleDevice.st0 "sample_mod"
           (Some "/flash/stubs/esp32_1_11_0/sample_mod.py") Hkeep).
  vm_compute. discriminate.
Defined.


(** ** The names the walker stubs *)

Section PublicNames.
Context {Obj : Type} (rt : Runtime Obj).
Implicit Types (it : item (Obj:=Obj)) (items : list (item (Obj:=Obj))).

Lemma own_names_leaf_eq indent it :
  own_names indent (leaf_stub indent it)
  = if PyStr.startswith "__" (item_name it) then [] else [item_name it].
Proof.
  destruct it as [[[name rep] typ] o]. unfold leaf_stub, own_names, item_name.
  simpl. destruct (PyStr.startswith "__" name); [done|].
  destruct (classify typ); rewrite filter_cons_True by done;
    by rewrite filter_nil.
Qed.

Lemma own_names_top_eq self it :
  own_names EmptyString (top_stub rt self it)
  = if PyStr.startswith "__" (item_name it) then [] else [item_name it].
Proof.
  destruct (own_names_top rt self it) as [E|E]; rewrite E;
    destruct it as [[[name rep] typ] o]; unfold item_name in *; simpl in *.
  - unfold top_stub in E. destruct (PyStr.startswith "__" name) eqn:Hd; [done|].
    pose proof (own_names_leaf_eq EmptyString (name, rep, typ, o)) as Hl.
    unfold item_name in Hl. simpl in Hl. rewrite Hd in Hl.
    destruct (classify typ); try congruence.
    unfold own_names in E. rewrite filter_cons_True in E by done. done.
  - unfold top_stub in E. destruct (PyStr.startswith "__" name) eqn:Hd; [|done].
    done.
Qed.

Lemma own_names_concat_eq (g : item -> list fragment) indent items :
  (forall it, own_names indent (g it)
              = if PyStr.startswith "__" (item_name it) then []
                else [item_name it]) ->
  own_names indent (List.concat (g <$> items))
  = filter public (item_name <$> items).
Proof.
  intros Hg. induction items as [|x l IH]; csimpl.
  { unfold own_names. by rewrite filter_nil. }
  rewrite own_names_app, IH, Hg. unfold public at 2.
  destruct (PyStr.startswith "__" (item_name x)) eqn:Hd.
  - by rewrite filter_cons_False by (unfold public; congruence).
  - by rewrite filter_cons_True by done.
Qed.

Lemma result_names obj :
  item_name <$> (get_obj_attributes rt obj).1
  = filter (fun n => is_Some (readable rt obj n)) (py_dir rt obj).
Proof.
  unfold get_obj_attributes. rewrite attribs_loop_omap. simpl.
  induction (py_dir rt obj) as [|n l IH]; csimpl; [by rewrite filter_nil|].
  destruct (readable rt obj n) as [it|] eqn:Hr; csimpl.
  - rewrite filter_cons_True by (by rewrite Hr).
    rewrite IH. f_equal. apply (read_attr_name rt obj).
    unfold readable in Hr. by destruct (read_attr rt obj n); simplify_eq.
  - rewrite filter_cons_False by (rewrite Hr; by intros [? ?]). exact IH.
Qed.

Lemma leaf_stub_public indent it :
  Forall (fun f => public (frag_name f)) (leaf_stub indent it).
Proof.
  destruct it as [[[name rep] typ] o]. unfold leaf_stub.
  destruct (PyStr.startswith "__" name) eqn:Hd; [constructor|].
  destruct (classify typ); by repeat constructor.
Qed.

Lemma flat_walk_public self obj indent :
  Forall (fun f => public (frag_name f)) (flat_walk rt self obj indent).
Proof.
  unfold flat_walk. destruct (in_problematic rt self obj); [constructor|].
  apply Forall_concat_fmap. intros it _. apply leaf_stub_public.
Qed.

Lemma top_walk_public self obj :
  Forall (fun f => public (frag_name f)) (top_walk rt self obj).
Proof.
  unfold top_walk. destruct (in_problematic rt self obj); [constructor|].
  apply Forall_concat_fmap. intros [[[name rep] typ] o] _. unfold top_stub.
  destruct (PyStr.startswith "__" name) eqn:Hd; [constructor|].
  pose proof (leaf_stub_public EmptyString (name, rep, typ, o)) as Hl.
  destruct (classify typ); try done.
  constructor; [done|apply flat_walk_public].
Qed.

(** X13.  The names the walker stubs for an object are exactly the names
    of [dir] that can be read and do not start with two underscores, each
    as often as [dir] lists it and in ascending order; no fragment at all,
    of the object or of a class inside it, carries a name that starts with
    two underscores. *)
Theorem walk_stubs_public_readable (self : Stubber) (fuel : nat) (obj : Obj)
    (obj_name indent : string) :
  in_problematic rt self obj = false ->
  exists frs,
    write_object_stub rt (S (S fuel)) self obj obj_name indent = Some frs
    /\ own_names indent frs
       = filter public
           (item_name <$> sorted_items (get_obj_attributes rt obj).1)
    /\ own_names indent frs
       ≡ₚ filter (fun n => public n /\ is_Some (readable rt obj n))
            (py_dir rt obj)
    /\ Forall (fun f => public (frag_name f)) frs.
Proof.
  intros Hp. rewrite walk_total. eexists. split; [done|].
  assert ((if bool_decide (indent = EmptyString) then top_walk rt self obj
           else flat_walk rt self obj indent)
          = List.concat
              ((if bool_decide (indent = EmptyString) then top_stub rt self
                else leaf_stub indent)
               <$> sorted_items (get_obj_attributes rt obj).1)) as Hfrs.
  { unfold top_walk, flat_walk. rewrite Hp. by case_bool_decide. }
  assert (own_names indent
            (if bool_decide (indent = EmptyString) then top_walk rt self obj
             else flat_walk rt self obj indent)
          = filter public
              (item_name <$> sorted_items (get_obj_attributes rt obj).1))
    as Hnames.
  { rewrite Hfrs. apply own_names_concat_eq. intros it.
    case_bool_decide as Hi; [subst; apply own_names_top_eq|].
    apply own_names_leaf_eq. }
  split; [exact Hnames|]. split.
  - rewrite Hnames, sorted_items_perm, result_names.
    by rewrite list_filter_filter.
  - case_bool_decide; [apply top_walk_public|apply flat_walk_public].
Qed.

End PublicNames.

Lemma walk_stubs_public_readable_witness :
  in_problematic Sample.rt Sample.stubber 0 = false
  /\ exists frs,
       write_object_stub Sample.rt 2 Sample.stubber 0 "sample_mod" EmptyString
       = Some frs
       /\ own_names EmptyString frs = ["Inner"; "NAME"; "f"; "obj"].
Proof.
  split; [reflexivity|].
  destruct (walk_stubs_public_readable Sample.rt Sample.stubber 0 0
              "sample_mod" EmptyString eq_refl) as (frs & Hw & Hn & _).
  exists frs. split; [exact Hw|]. rewrite Hn. reflexivity.
Defined.

(** ** Housekeeping *)

Section CleanFacts.
Context {Obj : Type} (host : Host Obj).
Implicit Types (st : state Obj).

Lemma remove_step p st :
  try_except (os_remove host p) (fun _ => mret tt) st
  = (Ok tt,
     if bool_decide (h_remove_fault host p = None) && path_exists st.2 p
     then (st.1,
           {| sys_modules := sys_modules st.2; dirs := dirs st.2 ∖ {[ p ]};
              files := delete p (files st.2);
              mem_queries := mem_queries st.2 |})
     else st).
Proof.
  unfold try_except, os_remove.
  destruct (h_remove_fault host p); simpl; [done|].
  by destruct (path_exists st.2 p).
Qed.

Lemma clean_loop (dir : string) (names : list string) st :
  let run :=
    for_each names
      (fun fn => try_except (os_remove host (dir ++ "/" ++ fn))
                   (fun _ => mret tt)) st in
  run.1 = Ok tt
  /\ run.2.1 = st.1
  /\ sys_modules run.2.2 = sys_modules st.2
  /\ mem_queries run.2.2 = mem_queries st.2
  /\ (forall p, (files run.2.2 !! p = None \/ files run.2.2 !! p = files st.2 !! p)
                /\ (p ∈ dirs run.2.2 -> p ∈ dirs st.2))
  /\ (forall p, p ∉ (fun fn => dir ++ "/" ++ fn) <$> names ->
        files run.2.2 !! p = files st.2 !! p
        /\ (p ∈ dirs st.2 -> p ∈ dirs run.2.2))
  /\ (forall fn, fn ∈ names ->
        h_remove_fault host (dir ++ "/" ++ fn) = None ->
        path_exists run.2.2 (dir ++ "/" ++ fn) = false).
Proof.
  revert st. induction names as [|x names IH]; intros st; simpl.
  { repeat split; try done; [by right|]. by intros ? ?%elem_of_nil. }
  unfold mbind, M_bind. rewrite remove_step.
  match goal with
  | |- context [for_each names _ ?s] => set (st1 := s)
  end.
  assert (st1.1 = st.1 /\ sys_modules st1.2 = sys_modules st.2
          /\ mem_queries st1.2 = mem_queries st.2
          /\ (forall p, (files st1.2 !! p = None
                         \/ files st1.2 !! p = files st.2 !! p)
                        /\ (p ∈ dirs st1.2 -> p ∈ dirs st.2))
          /\ (forall p, p <> dir ++ "/" ++ x ->
                files st1.2 !! p = files st.2 !! p
                /\ (p ∈ dirs st.2 -> p ∈ dirs st1.2))
          /\ (h_remove_fault host (dir ++ "/" ++ x) = None ->
              path_exists st1.2 (dir ++ "/" ++ x) = false))
    as (H1 & H2 & H3 & H4 & H5 & H6).
  { unfold st1. case_bool_decide as Hf; simpl.
    - destruct (path_exists st.2 (dir ++ "/" ++ x)) eqn:He; simpl.
      + split; [done|]. split; [done|]. split; [done|]. split; [|split].
        * intros p. split.
          -- destruct (decide (dir ++ "/" ++ x = p)) as [<-|Hne].
             ++ left. apply lookup_delete_eq.
             ++ right. by apply lookup_delete_ne.
          -- set_solver.
        * intros p Hp. split; [by apply lookup_delete_ne|]. set_solver.
        * intros _. unfold path_exists. simpl. rewrite lookup_delete_eq.
          rewrite bool_decide_eq_false_2 by set_solver.
          rewrite bool_decide_eq_false_2; [done|]. by intros [? ?].
      + repeat split; try done. by right.
    - repeat split; try done. by right. }
  destruct (IH st1) as (I1 & I2 & I3 & I4 & I5 & I6 & I7).
  split; [exact I1|]. split; [by rewrite I2|]. split; [by rewrite I3|].
  split; [by rewrite I4|]. split; [|split].
  - intros p. destruct (I5 p) as [Ia Ib]. destruct (H4 p) as [Ha Hb].
    split; [|by auto]. destruct Ia as [Ia|Ia]; [by left|].
    rewrite Ia. exact Ha.
  - intros p Hp. apply not_elem_of_cons in Hp as [Hne Hp].
    destruct (I6 p Hp) as [Ia Ib]. destruct (H5 p Hne) as [Ha Hb].
    split; [by rewrite Ia|by auto].
  - intros fn Hfn Hfault. apply elem_of_cons in Hfn as [->|Hfn];
      [|by apply I7].
    specialize (H6 Hfault).
    destruct (I5 (dir ++ "/" ++ x)) as [Ia Ib].
    unfold path_exists in *.
    apply orb_false_iff in H6 as [Hd Hfl].
    apply bool_decide_eq_false in Hd. apply bool_decide_eq_false in Hfl.
    apply orb_false_iff. split; apply bool_decide_eq_false.
    + by auto.
    + destruct Ia as [Ia|Ia]; rewrite Ia; [by intros [? ?]|done].
Qed.

(** X14.  [clean()] raises exactly when [os.listdir(self.path)] does, and
    then nothing has changed.  Otherwise it returns whatever [os.remove]
    does: no entry is created, an entry that is not [self.path + "/" + fn]
    for a listed [fn] is left as it was, and every listed entry whose
    [os.remove] does not fail is gone.  Module cache and [self] are
    untouched. *)
Theorem clean_only_removes_listed (st : state Obj) :
  (clean host st).2.1 = st.1
  /\ sys_modules (clean host st).2.2 = sys_modules st.2
  /\ (forall p, path_exists (clean host st).2.2 p = true ->
                path_exists st.2 p = true)
  /\ (forall e, h_listdir host st.2 (path st.1) = Raise e ->
        clean host st = (Raise e, st))
  /\ (forall names, h_listdir host st.2 (path st.1) = Ok names ->
        (clean host st).1 = Ok tt
        /\ (forall p, p ∉ (fun fn => path st.1 ++ "/" ++ fn) <$> names ->
              files (clean host st).2.2 !! p = files st.2 !! p
              /\ (p ∈ dirs (clean host st).2.2 <-> p ∈ dirs st.2))
        /\ (forall fn, fn ∈ names ->
              h_remove_fault host (path st.1 ++ "/" ++ fn) = None ->
              path_exists (clean host st).2.2 (path st.1 ++ "/" ++ fn)
              = false)).
Proof.
  unfold clean, mbind, M_bind, get_self, os_listdir. cbv beta iota. simpl.
  destruct (h_listdir host st.2 (path st.1)) as [names|e] eqn:Hl; simpl.
  - destruct (clean_loop (path st.1) names st)
      as (I1 & I2 & I3 & I4 & I5 & I6 & I7).
    split; [exact I2|]. split; [exact I3|]. split; [|split; [done|]].
    + intros p. unfold path_exists. rewrite !orb_true_iff, !bool_decide_eq_true.
      destruct (I5 p) as [Ia Ib]. intros [Hd|Hf]; [left; by auto|right].
      destruct Ia as [Ia|Ia]; rewrite Ia in Hf; [by destruct Hf|done].
    + intros names' [= <-]. split; [exact I1|]. split; [|exact I7].
      intros p Hp. destruct (I6 p Hp) as [Ia Ib]. split; [exact Ia|].
      split; [apply I5|exact Ib].
  - split; [done|]. split; [done|]. split; [done|]. split; [|done].
    by intros e' [= <-].
Qed.

End CleanFacts.


Section ReportFacts.
Context {Obj : Type} (fw : Firmware Obj) (host : Host Obj).
Implicit Types (st : state Obj).

Lemma concat_empty_cons (x : string) (l : list string) :
  String.concat EmptyString (x :: l) = x ++ String.concat EmptyString l.
Proof. destruct l; simpl; [by rewrite str_app_nil_r|done]. Qed.

Lemma concat_empty_app (l1 l2 : list string) :
  String.concat EmptyString (l1 ++ l2)
  = String.concat EmptyString l1 ++ String.concat EmptyString l2.
Proof.
  induction l1 as [|x l1 IH]; [done|].
  change ((x :: l1) ++ l2)%list with (x :: (l1 ++ l2))%list.
  by rewrite !concat_empty_cons, IH, str_app_assoc.
Qed.

Lemma entry_writes_more (entries : list (string * string)) :
  String.concat EmptyString (entry_writes host false entries)
  = match entries with
    | [] => EmptyString
    | _ => "," ++ String.concat "," (h_dumps host <$> entries)
    end.
Proof.
  induction entries as [|n es IH]; [done|].
  change (entry_writes host false (n :: es))
    with ("," :: h_dumps host n :: entry_writes host false es).
  rewrite !concat_empty_cons, IH. destruct es as [|n' es]; csimpl.
  - by rewrite str_app_nil_r.
  - done.
Qed.

Lemma entry_writes_joined (entries : list (string * string)) :
  String.concat EmptyString (entry_writes host true entries)
  = String.concat "," (h_dumps host <$> entries).
Proof.
  destruct entries as [|n es]; [done|].
  change (entry_writes host true (n :: es))
    with (h_dumps host n :: entry_writes host false es).
  rewrite concat_empty_cons, entry_writes_more.
  destruct es; csimpl; [by rewrite str_app_nil_r|done].
Qed.

Lemma fp_write_insert f s l (fs : gmap string (list string)) st :
  files st.2 = <[ f := l ]> fs ->
  fp_write f s st = (Ok tt, (st.1, set_files (<[ f := (l ++ [s])%list ]> fs) st.2)).
Proof.
  intros Hf. unfold fp_write, modify_world, set_files. simpl.
  by rewrite Hf, alter_insert_eq.
Qed.

Lemma report_entries_insert f start entries l
    (fs : gmap string (list string)) st :
  files st.2 = <[ f := l ]> fs ->
  MinRun.report_entries host f start entries st
  = (Ok tt,
     (st.1,
      set_files (<[ f := (l ++ entry_writes host start entries)%list ]> fs)
        st.2)).
Proof.
  revert start l st. induction entries as [|n es IH]; intros start l st Hf.
  { simpl. rewrite app_nil_r, <- Hf. by destruct st as [? []]. }
  simpl. unfold mbind, M_bind. destruct start; simpl; unfold mret, M_ret; simpl.
  - rewrite (IH false (l ++ [h_dumps host n])%list)
      by (simpl; by rewrite Hf, alter_insert_eq).
    unfold set_files. simpl. by rewrite <- app_assoc.
  - rewrite (IH false ((l ++ [","]) ++ [h_dumps host n])%list)
      by (simpl; by rewrite Hf, !alter_insert_eq).
    unfold set_files. simpl. by rewrite <- !app_assoc.
Qed.

Lemma report_run (filename : string) st :
  MinRun.report fw host filename st
  = (Ok tt,
     match fw_open_fault fw (path st.1 ++ "/" ++ filename) with
     | Some _ => st
     | None =>
         (st.1,
          set_files
            (<[ path st.1 ++ "/" ++ filename := report_writes host st.1 ]>
               (files st.2)) st.2)
     end).
Proof.
  unfold MinRun.report, mbind, M_bind, get_self, try_except, py_open.
  cbv beta iota zeta.
  destruct (fw_open_fault fw (path st.1 ++ "/" ++ filename)); [done|].
  cbv beta iota.
  set (f := path st.1 ++ "/" ++ filename).
  rewrite (fp_write_insert f _ [] (files st.2)) by done. cbv beta iota.
  do 5 (rewrite (fp_write_insert f _ _ (files st.2)) by done;
        cbv beta iota).
  rewrite (report_entries_insert f true _ _ (files st.2)) by done.
  cbv beta iota.
  rewrite (fp_write_insert f _ _ (files st.2)) by done.
  unfold report_writes, set_files. simpl. done.
Qed.

(** X15.  [report()] of the constrained variant never raises and
    changes no file but [self.path + "/" + filename].  When that file can
    be opened it holds afterwards, and nothing else, the text
    [{<firmware>,<stubber>,"modules" :[<entries>]}] with the entries of
    [self._report] in order and separated by single commas, also for an
    empty or a one-entry report; when it cannot be opened nothing
    changes. *)
Theorem report_written (filename : string) (st : state Obj) :
  (MinRun.report fw host filename st).1 = Ok tt
  /\ (MinRun.report fw host filename st).2
     = match fw_open_fault fw (path st.1 ++ "/" ++ filename) with
       | Some _ => st
       | None =>
           (st.1,
            set_files
              (<[ path st.1 ++ "/" ++ filename := report_writes host st.1 ]>
                 (files st.2)) st.2)
       end
  /\ String.concat EmptyString (report_writes host st.1)
     = "{" ++ strip_ends (h_dumps_fwi host) ++ ","
       ++ strip_ends (h_dumps_stb host) ++ ","
       ++ PyStr.dquote ++ "modules" ++ PyStr.dquote ++ " :["
       ++ String.concat "," (h_dumps host <$> _report st.1) ++ "]}".
Proof.
  rewrite report_run. split; [done|]. split; [done|].
  unfold report_writes.
  change (["{"; strip_ends (h_dumps_fwi host); ",";
           strip_ends (h_dumps_stb host); ",";
           (PyStr.dquote ++ "modules" ++ PyStr.dquote ++ " :[")%string]
          ++ entry_writes host true (_report st.1) ++ ["]}"])%list
    with ("{" :: strip_ends (h_dumps_fwi host) :: "," ::
          strip_ends (h_dumps_stb host) :: "," ::
          (PyStr.dquote ++ "modules" ++ PyStr.dquote ++ " :[")%string ::
          (entry_writes host true (_report st.1) ++ ["]}"])%list).
  rewrite !concat_empty_cons, concat_empty_app, entry_writes_joined.
  rewrite concat_empty_cons. simpl String.concat at 2.
  by rewrite str_app_nil_r, !str_app_assoc.
Qed.

End ReportFacts.



Section InitFacts.
Context {Obj : Type} (rt : Runtime Obj) (fw : Firmware Obj) (host : Host Obj).
Implicit Types (st : state Obj).

Lemma get_root_spec st :
  get_root fw host st
  = (Ok match fw_stat_fault fw "/flash" with
        | Some errno => if Z.eqb errno ENOENT then h_getcwd host else "/"
        | None => if path_exists st.2 "/flash" then "/flash"
                  else h_getcwd host
        end, st).
Proof.
  unfold get_root, try_except, mbind, M_bind, os_stat.
  destruct (fw_stat_fault fw "/flash") as [errno|]; simpl.
  - by destruct (errno =? ENOENT)%Z.
  - by destruct (path_exists st.2 "/flash").
Qed.

Lemma init_path_spec path st :
  exists p, MinRun.init_path fw host path st = (Ok p, st).
Proof.
  unfold MinRun.init_path. destruct path as [[|c p]|].
  - unfold mbind, M_bind. rewrite get_root_spec. by eexists.
  - by eexists.
  - unfold mbind, M_bind. rewrite get_root_spec. by eexists.
Qed.

Lemma drop_last_slash (s : string) :
  ends_with_slash s = true -> s = drop_last s ++ "/".
Proof.
  induction s as [|c s IH]; [done|].
  destruct s as [|d s].
  - simpl. intros ->%Ascii.eqb_eq. done.
  - intros H. specialize (IH H).
    change (String c (String d s)
            = String c (drop_last (String d s) ++ "/")).
    by rewrite <- IH.
Qed.

Lemma ensure_dir_ok p st :
  fw_stat_fault fw p = None -> fw_mkdir_fault fw p = None ->
  (ensure_dir fw p st).1 = Ok tt.
Proof.
  intros Hs Hm. unfold ensure_dir, try_except, os_stat, os_mkdir.
  rewrite Hs. destruct (path_exists st.2 p) eqn:He; [done|]. simpl.
  by rewrite Hm, He.
Qed.

Lemma ensure_from_ok rest pre st :
  (forall p, fw_stat_fault fw p = None) ->
  (forall p, fw_mkdir_fault fw p = None) ->
  (ensure_from fw pre rest st).1 = Ok tt.
Proof.
  intros Hs Hm. revert pre st.
  induction rest as [|c rest IH]; intros pre st; simpl; [done|].
  unfold mbind, M_bind. destruct (Ascii.eqb c "/").
  - match goal with
    | |- context [ensure_dir fw ?p st] =>
        pose proof (ensure_dir_ok p st (Hs p) (Hm p)) as Hok;
        destruct (ensure_dir fw p st) as [[[]|e] st1]
    end; simpl in *; [apply IH|done].
  - unfold mret, M_ret. simpl. apply IH.
Qed.

(** X16.  [Stubber(path)] of the constrained variant never raises: a
    failure to make the stub folder is dropped.  It touches no file and no
    module, and removes no folder.  A path that is given is kept, less one
    trailing ['/'], and when no [os.stat] or [os.mkdir] fails the entry
    [self.path] exists afterwards; it is a folder, unless a file of that
    name was there before. *)
Theorem init_makes_stub_folder (given : option string) (st : state Obj) :
  (MinRun.__init__ fw host given st).1 = Ok tt
  /\ files (MinRun.__init__ fw host given st).2.2 = files st.2
  /\ sys_modules (MinRun.__init__ fw host given st).2.2 = sys_modules st.2
  /\ dirs st.2 ⊆ dirs (MinRun.__init__ fw host given st).2.2
  /\ (forall p, given = Some p -> p <> EmptyString ->
        p = path (MinRun.__init__ fw host given st).2.1
            ++ (if ends_with_slash p then "/" else EmptyString))
  /\ ((forall p, fw_stat_fault fw p = None) ->
      (forall p, fw_mkdir_fault fw p = None) ->
      path (MinRun.__init__ fw host given st).2.1 <> EmptyString ->
      path_exists (MinRun.__init__ fw host given st).2.2
        (path (MinRun.__init__ fw host given st).2.1) = true
      /\ (files st.2 !! path (MinRun.__init__ fw host given st).2.1 = None ->
          path (MinRun.__init__ fw host given st).2.1
          ∈ dirs (MinRun.__init__ fw host given st).2.2)).
Proof.
  unfold MinRun.__init__, mbind, M_bind.
  assert (forall p, given = Some p -> p <> EmptyString ->
            MinRun.init_path fw host given st
            = (Ok (if ends_with_slash p then drop_last p else p), st)) as Hgiven.
  { intros p -> Hp. by destruct p. }
  destruct (init_path_spec given st) as [p0 Hp0]. rewrite Hp0 in *.
  unfold try_except, gc_mem_free, modify_self.
  pose proof (ensure_folder_frame fw (Some (p0 ++ "/")) st) as (H1 & H2 & H3 & H4).
  pose proof (ensure_from_dirs fw (p0 ++ "/") EmptyString st) as [Hsub _].
  pose proof (ensure_from_post fw (p0 ++ "/") EmptyString st) as Hpost.
  pose proof (ensure_from_ok (p0 ++ "/") EmptyString st) as Hok.
  simpl in *.
  destruct (ensure_from fw EmptyString (p0 ++ "/") st) as [[[]|e] st1];
    simpl in *.
  - split; [done|]. split; [done|]. split; [done|]. split; [done|]. split.
    + intros p Hp Hne. specialize (Hgiven p Hp Hne). injection Hgiven as ->.
      destruct (ends_with_slash p) eqn:He;
        [by apply drop_last_slash|by rewrite str_app_nil_r].
    + intros _ _ Hne. specialize (Hpost eq_refl p0 EmptyString eq_refl).
      assert (path_exists st1.2 p0 = true) as Hex by (by destruct p0).
      split; [exact Hex|]. intros Hf.
      apply path_exists_folder; [exact Hex|]. by rewrite H3.
  - split; [done|]. split; [done|]. split; [done|]. split; [done|]. split.
    + intros p Hp Hne. specialize (Hgiven p Hp Hne). injection Hgiven as ->.
      destruct (ends_with_slash p) eqn:He;
        [by apply drop_last_slash|by rewrite str_app_nil_r].
    + intros Hs Hm _. by specialize (Hok Hs Hm).
Qed.

End InitFacts.

Section DefaultPathFacts.
Context {Obj : Type} (rt : Runtime Obj) (fw : Firmware Obj) (host : Host Obj).
Implicit Types (st : state Obj).

Lemma firmware_ID_no_slash : PyStr.has_char "/" (firmware_ID fw true) = false.
Proof.
  apply has_char_get. intros i. unfold firmware_ID.
  rewrite sanitize_get by apply underscore_not_path_char.
  match goal with |- context [String.get i ?s] => destruct (String.get i s) as [d|] end;
    simpl; [|done].
  case_bool_decide as Hd; intros [= Heq].
  apply Hd. rewrite Heq. unfold path_chars. simpl.
  do 4 right. left.
Qed.

Lemma replace_dslash_cons (c : ascii) (s : string) :
  c <> "/"%char ->
  replace_dslash (String c s) = String c (replace_dslash s).
Proof.
  intros Hc. destruct s as [|d s]; [done|].
  change (replace_dslash (String c (String d s)))
    with (if Ascii.eqb c "/" && Ascii.eqb d "/"
          then String "/" (replace_dslash s)
          else String c (replace_dslash (String d s))).
  by rewrite (proj2 (Ascii.eqb_neq c "/") Hc).
Qed.

Lemma replace_dslash_no_slash (s : string) :
  PyStr.has_char "/" s = false -> replace_dslash s = s.
Proof.
  induction s as [|c s IH]; [done|].
  change (PyStr.has_char "/" (String c s))
    with (if Ascii.eqb "/" c then true else PyStr.has_char "/" s).
  destruct (Ascii.eqb_spec "/" c) as [|Hc]; [done|]. intros Hs.
  rewrite replace_dslash_cons by congruence. by rewrite IH.
Qed.

Lemma replace_dslash_slash (s : string) :
  PyStr.has_char "/" s = false ->
  replace_dslash (String "/" s) = String "/" s.
Proof.
  intros Hs. pose proof (replace_dslash_no_slash s Hs) as Hid.
  destruct s as [|d s]; [done|].
  change (PyStr.has_char "/" (String d s))
    with (if Ascii.eqb "/" d then true else PyStr.has_char "/" s) in Hs.
  destruct (Ascii.eqb_spec "/" d) as [|Hd]; [done|].
  change (replace_dslash (String "/" (String d s)))
    with (if Ascii.eqb "/" "/" && Ascii.eqb d "/"
          then String "/" (replace_dslash s)
          else String "/" (replace_dslash (String d s))).
  rewrite (proj2 (Ascii.eqb_neq d "/")) by congruence.
  rewrite andb_false_r. by rewrite Hid.
Qed.

Lemma flash_stubs_path (fid : string) :
  PyStr.has_char "/" fid = false ->
  replace_dslash ("/flash" ++ "/stubs/" ++ fid) = "/flash/stubs/" ++ fid
  /\ replace_dslash ("/" ++ "/stubs/" ++ fid) = "/stubs/" ++ fid.
Proof.
  intros Hf. split.
  - change ("/flash" ++ "/stubs/" ++ fid)
      with (String "/" (String "f" (String "l" (String "a" (String "s"
            (String "h" (String "/" (String "s" (String "t" (String "u"
            (String "b" (String "s" (String "/" fid))))))))))))).
    change ("/flash/stubs/" ++ fid)
      with (String "/" (String "f" (String "l" (String "a" (String "s"
            (String "h" (String "/" (String "s" (String "t" (String "u"
            (String "b" (String "s" (String "/" fid))))))))))))).
    change (replace_dslash (String "/" (String "f" ?s)))
      with (String "/" (replace_dslash (String "f" s))).
    rewrite !replace_dslash_cons by done.
    change (replace_dslash (String "/" (String "s" ?s)))
      with (String "/" (replace_dslash (String "s" s))).
    rewrite !replace_dslash_cons by done.
    by rewrite replace_dslash_slash.
  - change ("/" ++ "/stubs/" ++ fid)
      with (String "/" (String "/" (String "s" (String "t" (String "u"
            (String "b" (String "s" (String "/" fid)))))))).
    change ("/stubs/" ++ fid)
      with (String "/" (String "s" (String "t" (String "u"
            (String "b" (String "s" (String "/" fid))))))).
    change (replace_dslash (String "/" (String "/" ?s)))
      with (String "/" (replace_dslash s)).
    rewrite !replace_dslash_cons by done.
    by rewrite replace_dslash_slash.
Qed.

(** X17.  Without a path, and also with the empty string for one,
    [Stubber()] of the constrained variant puts the stubs under
    [/flash/stubs/<id>] when [/flash] exists, under [/stubs/<id>] when
    [os.stat("/flash")] fails otherwise than with ENOENT (the doubled slash
    of ["/" + "/stubs/"] is collapsed), and under the working directory
    when [/flash] is missing; [<id>] is [firmware_ID(asfile=True)]. *)
Theorem init_default_path (st : state Obj) :
  MinRun.__init__ fw host (Some EmptyString) st = MinRun.__init__ fw host None st
  /\ path (MinRun.__init__ fw host None st).2.1
     = match fw_stat_fault fw "/flash" with
       | Some errno =>
           if Z.eqb errno ENOENT
           then replace_dslash
                  (h_getcwd host ++ "/stubs/" ++ firmware_ID fw true)
           else "/stubs/" ++ firmware_ID fw true
       | None =>
           if path_exists st.2 "/flash"
           then "/flash/stubs/" ++ firmware_ID fw true
           else replace_dslash
                  (h_getcwd host ++ "/stubs/" ++ firmware_ID fw true)
       end.
Proof.
  split; [done|].
  destruct (flash_stubs_path (firmware_ID fw true) firmware_ID_no_slash)
    as [Hflash Hroot].
  unfold MinRun.__init__, MinRun.init_path, mbind, M_bind.
  rewrite get_root_spec. unfold mret, M_ret, try_except, gc_mem_free,
    modify_self.
  match goal with
  | |- context [ensure_folder fw ?p st] =>
      destruct (ensure_folder fw p st) as [[[]|e] st1]
  end; simpl.
  - destruct (fw_stat_fault fw "/flash") as [errno|].
    + destruct (errno =? ENOENT)%Z; [done|exact Hroot].
    + destruct (path_exists st.2 "/flash"); [exact Hflash|done].
  - destruct (fw_stat_fault fw "/flash") as [errno|].
    + destruct (errno =? ENOENT)%Z; [done|exact Hroot].
    + destruct (path_exists st.2 "/flash"); [exact Hflash|done].
Qed.

Lemma init_ok path st : (MinRun.__init__ fw host path st).1 = Ok tt.
Proof.
  unfold MinRun.__init__, mbind, M_bind.
  destruct (init_path_spec fw host path st) as [p0 ->].
  unfold try_except, gc_mem_free, modify_self.
  by destruct (ensure_folder fw (Some (p0 ++ "/")) st) as [[[]|e] st1].
Qed.

Lemma init_frame path st :
  files (MinRun.__init__ fw host path st).2.2 = files st.2
  /\ sys_modules (MinRun.__init__ fw host path st).2.2 = sys_modules st.2.
Proof.
  unfold MinRun.__init__, mbind, M_bind.
  destruct (init_path_spec fw host path st) as [p0 ->].
  unfold try_except, gc_mem_free, modify_self.
  pose proof (ensure_folder_frame fw (Some (p0 ++ "/")) st) as (_ & H2 & H3 & _).
  by destruct (ensure_folder fw (Some (p0 ++ "/")) st) as [[[]|e] st1].
Qed.

Lemma clean_raises st e :
  h_listdir host st.2 (path st.1) = Raise e -> clean host st = (Raise e, st).
Proof.
  intros Hl. unfold clean, mbind, M_bind, get_self, os_listdir.
  cbv beta iota. simpl. by rewrite Hl.
Qed.

Lemma report_ok filename st : (MinRun.report fw host filename st).1 = Ok tt.
Proof. by rewrite report_run. Qed.

Lemma clean_outcome st :
  (clean host st).1
  = match h_listdir host st.2 (path st.1) with
    | Ok _ => Ok tt
    | Raise e => Raise e
    end.
Proof.
  unfold clean, mbind, M_bind, get_self, os_listdir. cbv beta iota. simpl.
  destruct (h_listdir host st.2 (path st.1)) as [names|e]; [|done].
  apply (clean_loop host (path st.1) names st).
Qed.

(** X18.  [main()] of the constrained variant can fail in one place
    only: it raises what [os.listdir] of the stub folder raises in
    [clean()], before any module is imported, and returns otherwise,
    whatever imports, the file system and the free memory do later. *)
Theorem main_fails_only_in_clean (st : state Obj) :
  (MinRun.main rt fw host st).1
  = match h_listdir host (MinRun.__init__ fw host None st).2.2
            (path (MinRun.__init__ fw host None st).2.1) with
    | Ok _ => Ok tt
    | Raise e => Raise e
    end
  /\ (forall e, (MinRun.main rt fw host st).1 = Raise e ->
        sys_modules (MinRun.main rt fw host st).2.2 = sys_modules st.2
        /\ files (MinRun.main rt fw host st).2.2 = files st.2).
Proof.
  unfold MinRun.main, mbind, M_bind.
  pose proof (init_ok None st) as Hinit.
  pose proof (init_frame None st) as [Hf Hm].
  destruct (MinRun.__init__ fw host None st) as [[[]|e0] st1]; simpl in *;
    [|done].
  pose proof (clean_outcome st1) as Hclean.
  destruct (h_listdir host st1.2 (path st1.1)) as [names|e] eqn:Hl.
  - destruct (clean host st1) as [[[]|e1] st2]; simpl in *; [|done].
    pose proof (proj1 (for_each_stub_step rt fw
                         (filter (fun m => PyStr.has_char "/" m = true)
                            (modules st2.1)
                          ++ filter (fun m => PyStr.has_char "/" m = false)
                               (modules st2.1))%list
                         (set_modules
                            (filter (fun m => PyStr.has_char "/" m = true)
                               (modules st2.1)
                             ++ filter (fun m => PyStr.has_char "/" m = false)
                                  (modules st2.1))%list st2.1, st2.2)))
      as Hrun.
    unfold Min.create_all_stubs, mbind, M_bind, get_self, modify_self.
    cbv beta iota.
    destruct (for_each _ (Min.stub_step rt fw) _) as [[[]|e2] st3];
      simpl in *; [|done].
    pose proof (report_ok "modules.json" st3) as Hrep.
    destruct (MinRun.report fw host "modules.json" st3) as [[[]|e3] st4];
      simpl in *; [|done].
    split; [done|]. by intros e.
  - rewrite (clean_raises st1 e Hl). simpl. split; [done|].
    intros e' _. by rewrite Hf, Hm.
Qed.

End DefaultPathFacts.

(** ** Housekeeping on the sample device *)

(** [main()] on a flash that holds a stale stub: the stale file is
    removed, files elsewhere stay, the one module of the catalog that the
    sample device has is stubbed, and the report is written. *)
Example sample_main :
  let r := MinRun.main Sample.rt (SampleDevice.fw SampleDevice.plenty)
             SampleHost.host SampleHost.st0 in
  r.1 = Ok tt
  /\ path r.2.1 = "/flash/stubs/esp32_1_11_0"
  /\ _report r.2.1 = [("os", "/flash/stubs/esp32_1_11_0/os.py")]
  /\ files r.2.2 !! "/flash/stubs/esp32_1_11_0/old.py" = None
  /\ files r.2.2 !! "/flash/boot.py" = Some ["pass"]
  /\ is_Some (files r.2.2 !! "/flash/stubs/esp32_1_11_0/os.py")
  /\ String.concat EmptyString
       (default [] (files r.2.2 !! "/flash/stubs/esp32_1_11_0/modules.json"))
     = "{" ++ PyStr.dquote ++ "firmware" ++ PyStr.dquote ++ ": {},"
       ++ PyStr.dquote ++ "stubber" ++ PyStr.dquote ++ ": {},"
       ++ PyStr.dquote ++ "modules" ++ PyStr.dquote ++ " :["
       ++ SampleHost.dumps ("os", "/flash/stubs/esp32_1_11_0/os.py") ++ "]}".
Proof. vm_compute. repeat split; try done. by eexists. Qed.

(** A file in the way: [os.stat("/a")] succeeds, so [ensure_folder] returns
    and makes no folder. *)
Example sample_file_in_the_way :
  let w := {| sys_modules := ∅; dirs := {[ "/" ]};
              files := {[ "/a" := ["x"] ]}; mem_queries := 0 |} in
  ensure_folder (SampleDevice.fw SampleDevice.plenty) (Some "/a/b.py")
    (Sample.stubber, w)
  = (Ok tt, (Sample.stubber, w)).
Proof. by vm_compute. Qed.

Example sample_clean_missing_folder :
  clean SampleHost.host SampleHost.st0
  = (Raise (OSError ENOENT), SampleHost.st0).
Proof. by vm_compute. Qed.

Example sample_path_given :
  path (MinRun.__init__ (SampleDevice.fw SampleDevice.plenty) SampleHost.host
          (Some "/sd/stubs/") SampleHost.st0).2.1 = "/sd/stubs"
  /\ path_exists
       (MinRun.__init__ (SampleDevice.fw SampleDevice.plenty) SampleHost.host
          (Some "/sd/stubs/") SampleHost.st0).2.2 "/sd/stubs" = true.
Proof. by vm_compute. Qed.
